(** * whisper-youtube-transcriber: a shallow embedding of [app.py]

    The development follows the class [WhisperTranscriber]:
    - Python strings are sequences of Unicode code points;
    - Python floats are IEEE binary64 values ([spec_float] at precision 53),
      with [//], [%] and [int()] written out as CPython computes them;
    - exceptions are values of an error type, and the methods that touch the
      transcriber object, the file system or one of the two engines run in a
      state-and-exception monad whose state keeps the object's fields and the
      ordered log of everything the method did (calls and yields);
    - the two engines, the file system and the clock are a record of
      functions, [World], whose answers may depend on the log so far.

    The definitions come first: strings, floats, the formatters and
    renderers, the environment, the methods, the vocabulary of the
    properties and a sample environment. The proofs follow, grouped by
    component. *)

From Stdlib Require Import ZArith NArith List Bool Lia String Ascii.
From Stdlib Require Import Floats.SpecFloat.
Import ListNotations.

Set Implicit Arguments.
Local Open Scope Z_scope.

(* ===================================================================== *)
(** * Python strings *)
(* ===================================================================== *)

Module PyStr.

(** A [str] is a sequence of code points. *)
Definition char := N.
Definition pystr := list char.

(** An ASCII literal of the source. *)
Definition lit (s : string) : pystr := map N_of_ascii (list_ascii_of_string s).

Definition nl : pystr := [10%N].

Definition eqb (a b : pystr) : bool :=
  if list_eq_dec N.eq_dec a b then true else false.

(** Truth value of a string: [bool(s)]. *)
Definition truthy (s : pystr) : bool :=
  match s with [] => false | _ => true end.

(** [str.isspace] on one code point (the Unicode White_Space set plus the
    four separators 0x1C-0x1F, as in CPython's [_PyUnicode_IsWhitespace]). *)
Definition is_space (c : char) : bool :=
  ((9 <=? c) && (c <=? 13) || (28 <=? c) && (c <=? 32)
   || (c =? 133) || (c =? 160) || (c =? 5760)
   || (8192 <=? c) && (c <=? 8202)
   || (c =? 8232) || (c =? 8233) || (c =? 8239) || (c =? 8287)
   || (c =? 12288))%N.

Fixpoint lstrip (s : pystr) : pystr :=
  match s with
  | c :: s' => if is_space c then lstrip s' else s
  | [] => []
  end.

Definition rstrip (s : pystr) : pystr := rev (lstrip (rev s)).

(** [s.strip()] *)
Definition strip (s : pystr) : pystr := rstrip (lstrip s).

(** [sep.join(parts)] *)
Fixpoint join (sep : pystr) (parts : list pystr) : pystr :=
  match parts with
  | [] => []
  | [p] => p
  | p :: rest => p ++ sep ++ join sep rest
  end.

(** [s.startswith(p)] *)
Fixpoint startswith (s p : pystr) : bool :=
  match p, s with
  | [], _ => true
  | _ :: _, [] => false
  | a :: p', b :: s' => (a =? b)%N && startswith s' p'
  end.

(** [s.replace(old, new)] for a one-character [old]. *)
Definition replace_char (old : char) (new : pystr) (s : pystr) : pystr :=
  flat_map (fun c => if (c =? old)%N then new else [c]) s.

(** [x in xs] for a list of strings. *)
Definition mem (x : pystr) (xs : list pystr) : bool := existsb (eqb x) xs.

(** ** Decimal rendering of integers *)

Definition digit (d : N) : char := (48 + d)%N.

Definition is_digit (c : char) : bool := ((48 <=? c) && (c <=? 57))%N.

Fixpoint digits_of (fuel : nat) (n : N) : pystr :=
  match fuel with
  | O => []
  | S f =>
      if (n <? 10)%N then [digit n]
      else digits_of f (n / 10)%N ++ [digit (n mod 10)%N]
  end.

(** [str(n)] for a natural number. *)
Definition str_of_N (n : N) : pystr := digits_of (S (N.to_nat (N.log2 n))) n.

(** [str(z)] *)
Definition str_of_Z (z : Z) : pystr :=
  if z <? 0 then 45%N :: str_of_N (Z.abs_N z) else str_of_N (Z.to_N z).

(** [s.zfill(w)] for a string of digits. *)
Definition zfill (w : nat) (s : pystr) : pystr :=
  repeat 48%N (w - List.length s) ++ s.

(** [f"{z:0<w>d}"]: sign-aware zero padding to width [w]. *)
Definition format_0d (w : nat) (z : Z) : pystr :=
  if z <? 0 then 45%N :: zfill (w - 1) (str_of_N (Z.abs_N z))
  else zfill w (str_of_N (Z.to_N z)).

End PyStr.
Import PyStr.

(* ===================================================================== *)
(** * Exceptions *)
(* ===================================================================== *)

Inductive exn_class :=
| ValueError | OverflowError | ZeroDivisionError | AttributeError | TypeError
| OtherException.

(** An exception object: its class and [str(e)]. Every class modelled here
    derives from [Exception]. *)
Record exn := mk_exn { exn_cls : exn_class; exn_str : pystr }.

Inductive outcome (A : Type) :=
| Ok (a : A)
| Raise (e : exn).
Arguments Ok {A} a.
Arguments Raise {A} e.

Module Exc.
Definition bind {A B} (c : outcome A) (k : A -> outcome B) : outcome B :=
  match c with
  | Ok a => k a
  | Raise e => Raise e
  end.
End Exc.

Declare Scope exc_scope.
Delimit Scope exc_scope with exc.
Notation "x <- c ;; k" := (Exc.bind c (fun x => k))
  (at level 61, c at next level, right associativity) : exc_scope.

(* ===================================================================== *)
(** * Python floats *)
(* ===================================================================== *)

Module PyFloat.

Definition prec : Z := 53.
Definition emax : Z := 1024.

Definition float := spec_float.

(** The double nearest to [m * 2^e]. *)
Definition of_dyadic (m e : Z) : float := binary_normalize prec emax m e false.

(** Conversion of an [int] operand of a mixed operation. *)
Definition of_int (z : Z) : float := of_dyadic z 0.

Definition sub : float -> float -> float := SFsub prec emax.
Definition add : float -> float -> float := SFadd prec emax.
Definition mul : float -> float -> float := SFmul prec emax.
Definition div : float -> float -> float := SFdiv prec emax.
Definition ltb : float -> float -> bool := SFltb.

Definition is_zero (x : float) : bool :=
  match x with S754_zero _ => true | _ => false end.

Definition is_finite (x : float) : bool :=
  match x with S754_zero _ | S754_finite _ _ _ => true | _ => false end.

(** The sign bit, as C's [signbit]. *)
Definition signbit (x : float) : bool :=
  match x with
  | S754_zero s | S754_infinity s | S754_finite s _ _ => s
  | S754_nan => false
  end.

(** [x < 0] *)
Definition is_neg (x : float) : bool := ltb x (S754_zero false).

(** C's [copysign(0.0, y)]. *)
Definition zero_like (y : float) : float := S754_zero (signbit y).

(** C's [fmod]: the exact remainder of the truncated division, with the
    sign of [x]. *)
Definition fmod (x y : float) : float :=
  match x, y with
  | S754_nan, _ | _, S754_nan => S754_nan
  | S754_infinity _, _ => S754_nan
  | _, S754_zero _ => S754_nan
  | _, S754_infinity _ => x
  | S754_zero _, _ => x
  | S754_finite sx mx ex, S754_finite _ my ey =>
      let ez := Z.min ex ey in
      let r := Z.rem (Zpos mx * 2 ^ (ex - ez)) (Zpos my * 2 ^ (ey - ez)) in
      match r with
      | Z0 => S754_zero sx
      | _ => binary_normalize prec emax (cond_Zopp sx r) ez false
      end
  end.

(** C's [floor]. *)
Definition floor (x : float) : float :=
  match x with
  | S754_finite s m e =>
      if 0 <=? e then x
      else
        match cond_Zopp s (Zpos m) / 2 ^ (- e) with
        | Z0 => S754_zero s
        | q => binary_normalize prec emax q 0 false
        end
  | _ => x
  end.

Definition zero_division : exn :=
  mk_exn ZeroDivisionError (lit "float modulo").
Definition zero_floor_division : exn :=
  mk_exn ZeroDivisionError (lit "float floor division by zero").

(** [x % y], CPython's [float_rem]. *)
Definition rem (x y : float) : outcome float :=
  if is_zero y then Raise zero_division
  else
    let m := fmod x y in
    Ok (if negb (is_zero m)
        then (if negb (Bool.eqb (is_neg y) (is_neg m)) then add m y else m)
        else zero_like y).

(** [x // y], CPython's [float_floor_div]. *)
Definition floordiv (x y : float) : outcome float :=
  if is_zero y then Raise zero_floor_division
  else
    let m := fmod x y in
    let d := div (sub x m) y in
    let d :=
      if negb (is_zero m)
      then (if negb (Bool.eqb (is_neg y) (is_neg m))
            then sub d (of_int 1) else d)
      else d in
    Ok (if negb (is_zero d)
        then
          let f := floor d in
          if ltb (of_dyadic 1 (-1)) (sub d f) then add f (of_int 1) else f
        else zero_like (div x y)).

(** [int(x)], truncation toward zero. *)
Definition to_int (x : float) : outcome Z :=
  match x with
  | S754_nan =>
      Raise (mk_exn ValueError (lit "cannot convert float NaN to integer"))
  | S754_infinity _ =>
      Raise (mk_exn OverflowError (lit "cannot convert float infinity to integer"))
  | S754_zero _ => Ok 0
  | S754_finite s m e =>
      Ok (cond_Zopp s (if 0 <=? e then Zpos m * 2 ^ e else Zpos m / 2 ^ (- e)))
  end.

End PyFloat.

(* ===================================================================== *)
(** * Timestamp formatters and segment renderers *)
(* ===================================================================== *)

(** One entry of [result["segments"]]. *)
Record Segment := mk_segment {
  seg_start : PyFloat.float;
  seg_end : PyFloat.float;
  seg_text : pystr
}.

Section Formatters.
Local Open Scope exc_scope.
Import PyFloat.

Definition colon : pystr := lit ":".

(** [format_timestamp]: seconds to HH:MM:SS. *)
Definition format_timestamp (seconds : float) : outcome pystr :=
  q <- floordiv seconds (of_int 3600) ;;
  hours <- to_int q ;;
  r <- rem seconds (of_int 3600) ;;
  q <- floordiv r (of_int 60) ;;
  minutes <- to_int q ;;
  r <- rem seconds (of_int 60) ;;
  secs <- to_int r ;;
  Ok (format_0d 2 hours ++ colon ++ format_0d 2 minutes ++ colon
      ++ format_0d 2 secs).

(** [format_srt_timestamp] *)
Definition format_srt_timestamp (seconds : float) : outcome pystr :=
  q <- floordiv seconds (of_int 3600) ;;
  hours <- to_int q ;;
  r <- rem seconds (of_int 3600) ;;
  q <- floordiv r (of_int 60) ;;
  minutes <- to_int q ;;
  r <- rem seconds (of_int 60) ;;
  secs <- to_int r ;;
  r <- rem seconds (of_int 1) ;;
  millis <- to_int (mul r (of_int 1000)) ;;
  Ok (format_0d 2 hours ++ colon ++ format_0d 2 minutes ++ colon
      ++ format_0d 2 secs ++ lit "," ++ format_0d 3 millis).

(** [format_vtt_timestamp] *)
Definition format_vtt_timestamp (seconds : float) : outcome pystr :=
  q <- floordiv seconds (of_int 3600) ;;
  hours <- to_int q ;;
  r <- rem seconds (of_int 3600) ;;
  q <- floordiv r (of_int 60) ;;
  minutes <- to_int q ;;
  r <- rem seconds (of_int 60) ;;
  secs <- to_int r ;;
  r <- rem seconds (of_int 1) ;;
  millis <- to_int (mul r (of_int 1000)) ;;
  Ok (format_0d 2 hours ++ colon ++ format_0d 2 minutes ++ colon
      ++ format_0d 2 secs ++ lit "." ++ format_0d 3 millis).

(** ** Loops over the segments *)

(** [enumerate(xs, start)] *)
Fixpoint enumerate {A} (xs : list A) (start : Z) : list (Z * A) :=
  match xs with
  | [] => []
  | x :: xs' => (start, x) :: enumerate xs' (start + 1)
  end.

(** A [for] loop that appends one line per element to [output]; the loop
    stops at the first iteration that raises. *)
Fixpoint for_append {A} (body : A -> outcome pystr) (xs : list A)
    : outcome (list pystr) :=
  match xs with
  | [] => Ok []
  | x :: xs' =>
      line <- body x ;;
      output <- for_append body xs' ;;
      Ok (line :: output)
  end.

Definition arrow : pystr := lit " --> ".

(** [format_with_timestamps] *)
Definition format_with_timestamps (segments : list Segment) : outcome pystr :=
  output <- for_append (fun segment =>
      start <- format_timestamp (seg_start segment) ;;
      end_ <- format_timestamp (seg_end segment) ;;
      let text := strip (seg_text segment) in
      Ok (lit "[" ++ start ++ lit " -> " ++ end_ ++ lit "] " ++ text))
    segments ;;
  Ok (join nl output).

(** The body of the loop of [format_srt]. *)
Definition srt_block (entry : Z * Segment) : outcome pystr :=
  let '(i, segment) := entry in
  start <- format_srt_timestamp (seg_start segment) ;;
  end_ <- format_srt_timestamp (seg_end segment) ;;
  let text := strip (seg_text segment) in
  Ok (str_of_Z i ++ nl ++ start ++ arrow ++ end_ ++ nl ++ text ++ nl).

(** [format_srt] *)
Definition format_srt (segments : list Segment) : outcome pystr :=
  output <- for_append srt_block (enumerate segments 1) ;;
  Ok (join nl output).

(** The body of the loop of [format_vtt]. *)
Definition vtt_block (segment : Segment) : outcome pystr :=
  start <- format_vtt_timestamp (seg_start segment) ;;
  end_ <- format_vtt_timestamp (seg_end segment) ;;
  let text := strip (seg_text segment) in
  Ok (start ++ arrow ++ end_ ++ nl ++ text ++ nl).

(** [format_vtt] *)
Definition format_vtt (segments : list Segment) : outcome pystr :=
  output <- for_append vtt_block segments ;;
  Ok (join nl ((lit "WEBVTT" ++ nl) :: output)).

End Formatters.

(* ===================================================================== *)
(** * The environment of the transcriber *)
(* ===================================================================== *)

(** The dictionary returned by [model.transcribe]. *)
Record Result := mk_result {
  res_text : pystr;
  res_language : option pystr;     (* [None]: the key is absent *)
  res_segments : list Segment
}.

(** What [get_video_title] reads of the dictionary returned by
    [extract_info]: [info.get("title")] and [info.get("id")]. *)
Record Info := mk_info {
  info_title : option pystr;
  info_id : option pystr
}.

(** The keyword arguments of [model.transcribe]. *)
Record Options := mk_options {
  opt_task : pystr;
  opt_verbose : bool;
  opt_language : option pystr
}.

(** A loaded Whisper model, known by its identity. *)
Inductive Handle := handle (id : N).

Record datetime := mk_datetime {
  year : N; month : N; day : N; hour : N; minute : N; second : N
}.

(** The fields of a [datetime] are within the ranges of the class. *)
Definition datetime_ok (d : datetime) : Prop :=
  (1 <= year d <= 9999 /\ 1 <= month d <= 12 /\ 1 <= day d <= 31
   /\ hour d <= 23 /\ minute d <= 59 /\ second d <= 59)%N.

(** [d.strftime('%Y%m%d_%H%M%S')] *)
Definition strftime (d : datetime) : pystr :=
  zfill 4 (str_of_N (year d)) ++ zfill 2 (str_of_N (month d))
  ++ zfill 2 (str_of_N (day d)) ++ lit "_"
  ++ zfill 2 (str_of_N (hour d)) ++ zfill 2 (str_of_N (minute d))
  ++ zfill 2 (str_of_N (second d)).

(** One status tuple handed to the front end: five components for the URL
    tab (status, audio, transcript, detailed transcript, export files), four
    for the upload tab (no audio component). *)
Inductive Observation :=
| Obs5 (status : pystr) (audio text detailed : option pystr)
       (files : option (list pystr))
| Obs4 (status : pystr) (text detailed : option pystr)
       (files : option (list pystr)).

Definition obs_status (o : Observation) : pystr :=
  match o with Obs5 s _ _ _ _ | Obs4 s _ _ _ => s end.
Definition obs_audio (o : Observation) : option pystr :=
  match o with Obs5 _ a _ _ _ => a | Obs4 _ _ _ _ => None end.
Definition obs_text (o : Observation) : option pystr :=
  match o with Obs5 _ _ t _ _ | Obs4 _ t _ _ => t end.
Definition obs_detailed (o : Observation) : option pystr :=
  match o with Obs5 _ _ _ d _ | Obs4 _ _ d _ => d end.
Definition obs_files (o : Observation) : option (list pystr) :=
  match o with Obs5 _ _ _ _ f | Obs4 _ _ _ f => f end.

(** Everything a method does that is visible outside of it, in order. *)
Inductive Event :=
| ExtractInfo (url : pystr)
| Mkdir (dir : pystr)
| Download (url outtmpl : pystr)
| Listdir (dir : pystr)
| PathExists (path : pystr)
| LoadModel (name : pystr)
| Transcribe (h : Handle) (audio : option pystr) (options : Options)
| WriteFile (path content : pystr)
| Yield (o : Observation).

(** The collaborators of the transcriber. Each answer may depend on all that
    happened before the call. *)
Record World := mk_world {
  script_dir : pystr;                                  (* Path(__file__).parent *)
  path_div : pystr -> pystr -> pystr;                  (* pathlib's [/] *)
  os_path_join : pystr -> pystr -> pystr;
  gettempdir : pystr;
  now : list Event -> datetime;
  extract_info : list Event -> pystr -> outcome (option Info);
  mkdir : list Event -> pystr -> outcome unit;
  download : list Event -> pystr -> pystr -> outcome unit;
  listdir : list Event -> pystr -> outcome (list pystr);
  path_exists : list Event -> pystr -> bool;
  whisper_load_model : list Event -> pystr -> outcome Handle;
  model_transcribe :
    list Event -> Handle -> option pystr -> Options -> outcome Result;
  write_file : list Event -> pystr -> pystr -> outcome unit;
  json_dumps : Result -> outcome pystr
}.

(** The transcriber object and the log. *)
Record State := mk_state {
  model : option Handle;
  model_name : option pystr;
  log : list Event
}.

(** [WhisperTranscriber.__init__] *)
Definition init : State := mk_state None None [].

(* ===================================================================== *)
(** * The monad of the methods *)
(* ===================================================================== *)

Definition M (A : Type) : Type := State -> outcome A * State.

(** The state after one more logged event. *)
Definition push (st : State) (ev : Event) : State :=
  mk_state (model st) (model_name st) (log st ++ [ev]).

Module Mon.
Definition ret {A} (a : A) : M A := fun st => (Ok a, st).
Definition bind {A B} (c : M A) (k : A -> M B) : M B :=
  fun st =>
    match c st with
    | (Ok a, st') => k a st'
    | (Raise e, st') => (Raise e, st')
    end.
Definition raise {A} (e : exn) : M A := fun st => (Raise e, st).
Definition lift {A} (c : outcome A) : M A := fun st => (c, st).
Definition get : M State := fun st => (Ok st, st).
Definition record (ev : Event) : M unit := fun st => (Ok tt, push st ev).
(** A call to a collaborator: its answer is decided by what happened so
    far, and the call is logged. *)
Definition call {A} (ev : Event) (answer : list Event -> outcome A) : M A :=
  fun st => (answer (log st), push st ev).
Definition set_model (h : option Handle) : M unit :=
  fun st => (Ok tt, mk_state h (model_name st) (log st)).
Definition set_model_name (n : option pystr) : M unit :=
  fun st => (Ok tt, mk_state (model st) n (log st)).
(** [try: body except Exception as e: handler] *)
Definition try_except {A} (body : M A) (handler : exn -> M A) : M A :=
  fun st =>
    match body st with
    | (Ok a, st') => (Ok a, st')
    | (Raise e, st') => handler e st'
    end.
End Mon.

Declare Scope mon_scope.
Delimit Scope mon_scope with mon.
Notation "x <- c ;; k" := (Mon.bind c (fun x => k))
  (at level 61, c at next level, right associativity) : mon_scope.
Notation "' pat <- c ;; k" :=
  (Mon.bind c (fun x => match x with pat => k end))
  (at level 61, pat pattern, c at next level, right associativity) : mon_scope.
Notation "c ;; k" := (Mon.bind c (fun _ => k))
  (at level 61, right associativity) : mon_scope.

(** [yield o] *)
Definition yield (o : Observation) : M unit := Mon.record (Yield o).

(** The observations a run has produced, oldest first. *)
Fixpoint observations (l : list Event) : list Observation :=
  match l with
  | [] => []
  | Yield o :: l' => o :: observations l'
  | _ :: l' => observations l'
  end.

(** [str(x)] when [x] is a string or [None]. *)
Definition str_opt (x : option pystr) : pystr :=
  match x with Some s => s | None => lit "None" end.

(** Truth value of a value that is a string or [None]. *)
Definition truthy_opt (x : option pystr) : bool :=
  match x with Some s => truthy s | None => false end.

(** [a or b] *)
Definition py_or (a b : option pystr) : option pystr :=
  if truthy_opt a then a else b.

(** An ordered [dict] with string keys. *)
Definition dict := list (pystr * pystr).

(** [d[k] = v] *)
Fixpoint dict_set (d : dict) (k v : pystr) : dict :=
  match d with
  | [] => [(k, v)]
  | (k', v') :: d' =>
      if PyStr.eqb k' k then (k, v) :: d' else (k', v') :: dict_set d' k v
  end.

(* ===================================================================== *)
(** * The methods of [WhisperTranscriber] *)
(* ===================================================================== *)

Section Transcriber.
Variable W : World.
Local Open Scope mon_scope.
Import Mon.

Definition check_mark : pystr := [10003%N].
Definition cross_mark : pystr := [10060%N].
Definition microphone : pystr := [127897%N; 65039%N].

Definition status_loaded (name : pystr) : pystr :=
  check_mark ++ lit " Model '" ++ name ++ lit "' loaded successfully".
Definition status_already_loaded (name : pystr) : pystr :=
  check_mark ++ lit " Model '" ++ name ++ lit "' already loaded".

(** [self.model_name != name] *)
Definition name_differs (cached : option pystr) (name : pystr) : bool :=
  match cached with
  | Some n => negb (PyStr.eqb n name)
  | None => true
  end.

(** [load_model] *)
Definition load_model (name : pystr) : M pystr :=
  st <- get ;;
  if match model st with None => true | Some _ => false end
     || name_differs (model_name st) name
  then
    h <- call (LoadModel name) (fun l => whisper_load_model W l name) ;;
    set_model (Some h) ;;
    set_model_name (Some name) ;;
    ret (status_loaded name)
  else ret (status_already_loaded name).

Definition invalid_chars : pystr := lit "<>:" ++ [34%N] ++ lit "/\|?*".

Definition none_has_no (attr : string) : exn :=
  mk_exn AttributeError
    (lit "'NoneType' object has no attribute '" ++ lit attr ++ lit "'").

(** The guarded block of [get_video_title], after the metadata lookup. *)
Definition clean_title (info : option Info) : outcome pystr :=
  match info with
  | None => Raise (none_has_no "get")
  | Some info =>
      match py_or (info_title info) (info_id info) with
      | None => Raise (none_has_no "replace")
      | Some title =>
          let title :=
            fold_left (fun title char => replace_char char [] title)
                      invalid_chars title in
          Ok (if (100 <? List.length title)%nat then firstn 100 title
              else title)
      end
  end.

(** [get_video_title] *)
Definition get_video_title (url : pystr) : M pystr :=
  try_except
    (info <- call (ExtractInfo url) (fun l => extract_info W l url) ;;
     lift (clean_title info))
    (fun _ =>
       st <- get ;;
       ret (lit "video_" ++ strftime (now W (log st)))).

(** The first entry of the listing whose name starts with "audio". *)
Fixpoint find_audio (video_dir : pystr) (files : list pystr) : option pystr :=
  match files with
  | [] => None
  | file :: rest =>
      if startswith file (lit "audio") then Some (path_div W video_dir file)
      else find_audio video_dir rest
  end.

(** [download_youtube_audio]; the progress reports and the prints are
    left out. *)
Definition download_youtube_audio (url : pystr)
    : M (option pystr * option pystr * option pystr) :=
  try_except
    (video_title <- get_video_title url ;;
     let base_dir := path_div W (script_dir W) (lit "transcriptions") in
     let video_dir := path_div W base_dir video_title in
     call (Mkdir video_dir) (fun l => mkdir W l video_dir) ;;
     let output_template := path_div W video_dir (lit "audio.%(ext)s") in
     call (Download url output_template)
          (fun l => download W l url output_template) ;;
     files <- call (Listdir video_dir) (fun l => listdir W l video_dir) ;;
     let not_found :=
       (None, None, Some (lit "Failed to find downloaded audio file")) in
     match find_audio video_dir files with
     | Some audio_file =>
         if truthy audio_file then
           present <- call (PathExists audio_file)
                           (fun l => Ok (path_exists W l audio_file)) ;;
           if present : bool
           then ret (Some audio_file, Some video_dir, None)
           else ret not_found
         else ret not_found
     | None => ret not_found
     end)
    (fun e => ret (None, None, Some (lit "Download failed: " ++ exn_str e))).

(** [transcribe_audio]; the progress reports and the prints are left
    out. *)
Definition transcribe_audio (audio_path : option pystr)
    (name language task : pystr) : M Result :=
  try_except
    (load_model name ;;
     let options :=
       mk_options task true
         (if negb (PyStr.eqb language (lit "auto")) then Some language
          else None) in
     st <- get ;;
     match model st with
     | Some h =>
         call (Transcribe h audio_path options)
              (fun l => model_transcribe W l h audio_path options)
     | None => raise (none_has_no "transcribe")
     end)
    (fun e =>
       raise (mk_exn OtherException (lit "Transcription failed: " ++ exn_str e))).

(** [open(path, "w", encoding="utf-8")] followed by [f.write(content)]. *)
Definition write_text (path content : pystr) : M unit :=
  call (WriteFile path content) (fun l => write_file W l path content).

(** [create_export_files] *)
Fixpoint export_loop (timestamp : pystr) (exports : dict) (files : list pystr)
    : M (list pystr) :=
  match exports with
  | [] => ret files
  | (format_type, content) :: rest =>
      let filename :=
        lit "transcript_" ++ timestamp ++ lit "." ++ format_type in
      let filepath := os_path_join W (gettempdir W) filename in
      write_text filepath content ;;
      export_loop timestamp rest (files ++ [filepath])
  end.

Definition create_export_files (exports : dict) : M (option (list pystr)) :=
  st <- get ;;
  let timestamp := strftime (now W (log st)) in
  files <- export_loop timestamp exports [] ;;
  ret (match files with [] => None | _ => Some files end).

(** [video_dir / name], where [video_dir] may be [None]. *)
Definition in_dir (video_dir : option pystr) (name : string) : M pystr :=
  match video_dir with
  | Some d => ret (path_div W d (lit name))
  | None =>
      raise (mk_exn TypeError
        (lit "unsupported operand type(s) for /: 'NoneType' and 'str'"))
  end.

(** Truth value of the selection of the export check boxes: a list of
    names, or [None]. *)
Definition selected (export_formats : option (list pystr)) : bool :=
  match export_formats with
  | Some (_ :: _) => true
  | _ => false
  end.

(** ["fmt" in export_formats], evaluated only when the selection is a
    non-empty list. *)
Definition wants (export_formats : option (list pystr)) (fmt : string) : bool :=
  match export_formats with
  | Some l => mem (lit fmt) l
  | None => false
  end.

Definition status_complete (result : Result) : pystr :=
  [9989%N] ++ lit " Transcription Complete!" ++ nl ++ nl
  ++ lit "Language: "
  ++ match res_language result with Some l => l | None => lit "Unknown" end
  ++ nl
  ++ lit "Duration: ~" ++ str_of_N (N.of_nat (List.length (res_segments result)))
  ++ lit " segments".

(** The block "Prepare export files and save to video folder" of
    [process_youtube_url]. *)
Definition url_exports (video_dir : option pystr) (result : Result)
    (export_formats : option (list pystr)) : M dict :=
  let exports : dict := [] in
  if selected export_formats then
    exports <-
      (if wants export_formats "srt" then
         srt_content <- lift (format_srt (res_segments result)) ;;
         srt_file <- in_dir video_dir "transcript.srt" ;;
         write_text srt_file srt_content ;;
         ret (dict_set exports (lit "srt") srt_content)
       else ret exports) ;;
    exports <-
      (if wants export_formats "vtt" then
         vtt_content <- lift (format_vtt (res_segments result)) ;;
         vtt_file <- in_dir video_dir "transcript.vtt" ;;
         write_text vtt_file vtt_content ;;
         ret (dict_set exports (lit "vtt") vtt_content)
       else ret exports) ;;
    (if wants export_formats "json" then
       json_content <- lift (json_dumps W result) ;;
       json_file <- in_dir video_dir "transcript.json" ;;
       write_text json_file json_content ;;
       ret (dict_set exports (lit "json") json_content)
     else ret exports)
  else ret exports.

(** The statements of the [try] block of [process_youtube_url], up to the
    tuple that its final [yield] hands out. *)
Definition url_try_block (audio_path video_dir : option pystr)
    (name language task : pystr)
    (include_timestamps : bool) (export_formats : option (list pystr))
    : M Observation :=
  result <- transcribe_audio audio_path name language task ;;
  let text_output := strip (res_text result) in
  detailed_output <-
    (if include_timestamps
     then lift (format_with_timestamps (res_segments result))
     else ret []) ;;
  transcript_file <- in_dir video_dir "transcript.txt" ;;
  write_text transcript_file text_output ;;
  (if include_timestamps then
     detailed_file <- in_dir video_dir "transcript_with_timestamps.txt" ;;
     write_text detailed_file detailed_output
   else ret tt) ;;
  exports <- url_exports video_dir result export_formats ;;
  let status :=
    status_complete result ++ nl ++ [128193%N] ++ lit " Saved to: "
    ++ str_opt video_dir in
  files <-
    (match exports with
     | [] => ret None
     | _ => create_export_files exports
     end) ;;
  ret (Obs5 status audio_path (Some text_output) (Some detailed_output) files).

(** The tuples yielded by [process_youtube_url] before the final one. *)
Definition downloading : Observation :=
  Obs5 ([128229%N] ++ lit " Downloading audio from YouTube...")
       None None None None.

Definition download_error (error : option pystr) : Observation :=
  Obs5 (cross_mark ++ lit " Download Error: " ++ str_opt error)
       None None None None.

Definition transcribing_url (name : pystr) (audio_path : option pystr)
    : Observation :=
  Obs5 (check_mark ++ lit " Audio downloaded" ++ nl ++ microphone
        ++ lit " Transcribing with Whisper (" ++ name ++ lit ")...")
       audio_path None None None.

Definition transcription_error_url (e : exn) (audio_path : option pystr)
    : Observation :=
  Obs5 (cross_mark ++ lit " Transcription Error: " ++ exn_str e)
       audio_path None None None.

(** [process_youtube_url]. The result is the value of the generator's
    [return]; the yields are in the log. *)
Definition process_youtube_url (url name language task : pystr)
    (include_timestamps : bool) (export_formats : option (list pystr))
    : M (option Observation) :=
  if negb (truthy url) then
    ret (Some (Obs5 (lit "Please enter a YouTube URL") None None None None))
  else
    yield downloading ;;
    '(audio_path, video_dir, error) <- download_youtube_audio url ;;
    if truthy_opt error then
      yield (download_error error) ;;
      ret None
    else
      yield (transcribing_url name audio_path) ;;
      try_except
        (o <- url_try_block audio_path video_dir name language task
                            include_timestamps export_formats ;;
         yield o)
        (fun e => yield (transcription_error_url e audio_path)) ;;
      ret None.

(** The block "Prepare export files" of [process_file_upload]. *)
Definition upload_exports (text_output : pystr) (result : Result)
    (export_formats : option (list pystr)) : M dict :=
  let exports : dict := [] in
  if selected export_formats then
    exports <-
      (if wants export_formats "txt"
       then ret (dict_set exports (lit "txt") text_output)
       else ret exports) ;;
    exports <-
      (if wants export_formats "srt" then
         srt_content <- lift (format_srt (res_segments result)) ;;
         ret (dict_set exports (lit "srt") srt_content)
       else ret exports) ;;
    exports <-
      (if wants export_formats "vtt" then
         vtt_content <- lift (format_vtt (res_segments result)) ;;
         ret (dict_set exports (lit "vtt") vtt_content)
       else ret exports) ;;
    (if wants export_formats "json" then
       json_content <- lift (json_dumps W result) ;;
       ret (dict_set exports (lit "json") json_content)
     else ret exports)
  else ret exports.

(** The statements of the [try] block of [process_file_upload], up to the
    tuple that its final [yield] hands out. *)
Definition upload_try_block (audio_file : option pystr)
    (name language task : pystr)
    (include_timestamps : bool) (export_formats : option (list pystr))
    : M Observation :=
  result <- transcribe_audio audio_file name language task ;;
  let text_output := strip (res_text result) in
  detailed_output <-
    (if include_timestamps
     then lift (format_with_timestamps (res_segments result))
     else ret []) ;;
  exports <- upload_exports text_output result export_formats ;;
  let status := status_complete result in
  files <-
    (match exports with
     | [] => ret None
     | _ => create_export_files exports
     end) ;;
  ret (Obs4 status (Some text_output) (Some detailed_output) files).

(** The tuples yielded by [process_file_upload] before the final one. *)
Definition transcribing_upload (name : pystr) : Observation :=
  Obs4 (microphone ++ lit " Transcribing with Whisper (" ++ name ++ lit ")...")
       None None None.

Definition transcription_error_upload (e : exn) : Observation :=
  Obs4 (cross_mark ++ lit " Transcription Error: " ++ exn_str e) None None None.

(** [process_file_upload] *)
Definition process_file_upload (audio_file : option pystr)
    (name language task : pystr)
    (include_timestamps : bool) (export_formats : option (list pystr))
    : M (option Observation) :=
  match audio_file with
  | None => ret (Some (Obs4 (lit "Please upload an audio file") None None None))
  | Some _ =>
      yield (transcribing_upload name) ;;
      try_except
        (o <- upload_try_block audio_file name language task
                               include_timestamps export_formats ;;
         yield o)
        (fun e => yield (transcription_error_upload e)) ;;
      ret None
  end.

End Transcriber.

(* ===================================================================== *)
(** * Vocabulary of the properties *)
(* ===================================================================== *)

(** The model names handed to [whisper.load_model], in order. *)
Fixpoint loads (l : list Event) : list pystr :=
  match l with
  | [] => []
  | LoadModel name :: l' => name :: loads l'
  | _ :: l' => loads l'
  end.

(** The files written, in order. *)
Fixpoint written (l : list Event) : list pystr :=
  match l with
  | [] => []
  | WriteFile path _ :: l' => path :: written l'
  | _ :: l' => written l'
  end.

Definition is_yield (ev : Event) : bool :=
  match ev with Yield _ => true | _ => false end.

Definition not_yield (ev : Event) : bool := negb (is_yield ev).

(** The calls of the acquisition stage. *)
Definition is_acquisition (ev : Event) : bool :=
  match ev with
  | ExtractInfo _ | Mkdir _ | Download _ _ | Listdir _ | PathExists _ => true
  | _ => false
  end.

(** The calls of the transcription stage. *)
Definition is_engine_call (ev : Event) : bool :=
  match ev with
  | LoadModel _ | Transcribe _ _ _ => true
  | _ => false
  end.

Definition is_write (ev : Event) : bool :=
  match ev with WriteFile _ _ => true | _ => false end.

(** The log holds a call of the transcription stage. *)
Definition transcription_ran (l : list Event) : bool := existsb is_engine_call l.

(** [c] adds to the log, and adds only events that pass [ok]. *)
Definition only {A} (ok : Event -> bool) (c : M A) : Prop :=
  forall st, exists l, log (snd (c st)) = log st ++ l /\ forallb ok l = true.

(** Every artifact that [o] reports is reported, unchanged, by [o']. *)
Definition carries (o o' : Observation) : Prop :=
  (forall v, obs_audio o = Some v -> obs_audio o' = Some v)
  /\ (forall v, obs_text o = Some v -> obs_text o' = Some v)
  /\ (forall v, obs_detailed o = Some v -> obs_detailed o' = Some v)
  /\ (forall v, obs_files o = Some v -> obs_files o' = Some v).

(** No observation of the sequence is retracted by a later one. *)
Definition monotone (os : list Observation) : Prop :=
  forall i j o o', (i < j)%nat ->
    nth_error os i = Some o -> nth_error os j = Some o' -> carries o o'.

(** The events a run starting in [st] has added to the log. *)
Definition added {A} (c : M A) (st : State) : list Event :=
  skipn (List.length (log st)) (log (snd (c st))).

(** [x] is a zero, or a finite number of magnitude below [2^B] whose exponent
    field is at most that of the largest double. *)
Definition below (B : Z) (x : PyFloat.float) : Prop :=
  match x with
  | S754_zero _ => True
  | S754_finite _ m e => Zdigits2 (Zpos m) + e <= B /\ e <= 971
  | _ => False
  end.

(** [t] is [s] without its leading and trailing whitespace. *)
Definition trimmed (s t : pystr) : Prop :=
  exists l r,
    s = l ++ t ++ r
    /\ forallb is_space l = true /\ forallb is_space r = true
    /\ match t with c :: _ => is_space c = false | [] => True end
    /\ match rev t with c :: _ => is_space c = false | [] => True end.

(** The block of [format_srt] for the segment of index [i]. *)
Definition srt_block_of (i : Z) (start end_ : pystr) (seg : Segment) : pystr :=
  str_of_Z i ++ nl ++ start ++ arrow ++ end_ ++ nl ++ strip (seg_text seg) ++ nl.

(** The clock string HH:MM:SS of three fields. *)
Definition hms (hours minutes secs : Z) : pystr :=
  format_0d 2 hours ++ colon ++ format_0d 2 minutes ++ colon
  ++ format_0d 2 secs.

(** [c] takes every state to one related to it by [R]. *)
Definition steps {A} (R : State -> State -> Prop) (c : M A) : Prop :=
  forall st, R st (snd (c st)).

(** The two fields of the cache are what they were. *)
Definition same_cache (st st' : State) : Prop :=
  model st' = model st /\ model_name st' = model_name st.

(** A handle is cached exactly when an identifier is. *)
Definition cache_consistent (st : State) : Prop :=
  model st = None <-> model_name st = None.

Definition keeps_consistent (st st' : State) : Prop :=
  cache_consistent st -> cache_consistent st'.

(** The job directory of a title. *)
Definition job_dir (W : World) (title : pystr) : pystr :=
  path_div W (path_div W (script_dir W) (lit "transcriptions")) title.

(** The exception [transcribe_audio] raises in place of [e]. *)
Definition transcription_failed (e : exn) : exn :=
  mk_exn OtherException (lit "Transcription failed: " ++ exn_str e).

(** The keyword arguments [transcribe_audio] hands to the engine. *)
Definition options_for (language task : pystr) : Options :=
  mk_options task true
    (if negb (PyStr.eqb language (lit "auto")) then Some language else None).

(** No handle is cached, or the cached identifier is not [name]. *)
Definition stale (st : State) (name : pystr) : Prop :=
  model st = None \/ model_name st <> Some name.

(** The reserved characters, as a test. *)
Definition reserved (c : char) : bool := existsb (N.eqb c) invalid_chars.

(** A full match of [video_\d{8}_\d{6}]. *)
Definition video_pattern (s : pystr) : Prop :=
  exists date time,
    s = lit "video_" ++ date ++ lit "_" ++ time
    /\ List.length date = 8%nat /\ List.length time = 6%nat
    /\ forallb is_digit date = true /\ forallb is_digit time = true.

(** The name [get_video_title] returns when its guarded block raised. *)
Definition fallback_name (W : World) (st : State) (url : pystr) : pystr :=
  lit "video_" ++ strftime (now W (log st ++ [ExtractInfo url])).

(** The name of an export-staged file for one format. *)
Definition staged_name (timestamp ext : pystr) : pystr :=
  lit "transcript_" ++ timestamp ++ lit "." ++ ext.

(** The entries the export block of the URL pipeline collects, for given
    renderings. *)
Definition url_export_dict (ef : option (list pystr)) (srt vtt js : pystr)
    : dict :=
  (if selected ef && wants ef "srt" then [(lit "srt", srt)] else [])
  ++ (if selected ef && wants ef "vtt" then [(lit "vtt", vtt)] else [])
  ++ (if selected ef && wants ef "json" then [(lit "json", js)] else []).

(** The entries the export block of the upload pipeline collects. *)
Definition upload_export_dict (ef : option (list pystr))
    (text srt vtt js : pystr) : dict :=
  (if selected ef && wants ef "txt" then [(lit "txt", text)] else [])
  ++ (if selected ef && wants ef "srt" then [(lit "srt", srt)] else [])
  ++ (if selected ef && wants ef "vtt" then [(lit "vtt", vtt)] else [])
  ++ (if selected ef && wants ef "json" then [(lit "json", js)] else []).

(** The writes of the entries of [d] into the job directory, as
    [transcript.<key>]. *)
Definition job_writes (W : World) (dir : pystr) (d : dict) : list Event :=
  map (fun kv => WriteFile (path_div W dir (lit "transcript." ++ fst kv))
                           (snd kv)) d.

(** The paths of the staged files of the entries of [d]. *)
Definition staged_paths (W : World) (stamp : pystr) (d : dict) : list pystr :=
  map (fun kv => os_path_join W (gettempdir W) (staged_name stamp (fst kv))) d.

(** The writes of the staged files of the entries of [d]. *)
Definition staged_writes (W : World) (stamp : pystr) (d : dict) : list Event :=
  map (fun kv => WriteFile
                   (os_path_join W (gettempdir W) (staged_name stamp (fst kv)))
                   (snd kv)) d.

(** The value of [create_export_files(exports) if exports else None]. *)
Definition staged_files (W : World) (stamp : pystr) (d : dict)
    : option (list pystr) :=
  match d with [] => None | _ => Some (staged_paths W stamp d) end.

(** The exception of [int()] on a NaN. *)
Definition nan_error : exn :=
  mk_exn ValueError (lit "cannot convert float NaN to integer").

(** The block of [format_vtt] for one segment. *)
Definition vtt_block_of (start end_ : pystr) (seg : Segment) : pystr :=
  start ++ arrow ++ end_ ++ nl ++ strip (seg_text seg) ++ nl.

(** The line of [format_with_timestamps] for one segment. *)
Definition line_of (start end_ : pystr) (seg : Segment) : pystr :=
  lit "[" ++ start ++ lit " -> " ++ end_ ++ lit "] " ++ strip (seg_text seg).

(** Both times of the segment are finite and of magnitude below [2^1000]. *)
Definition ordinary (seg : Segment) : Prop :=
  below 1000 (seg_start seg) /\ below 1000 (seg_end seg).

(** One of the times of the segment is a NaN or an infinity. *)
Definition degenerate (seg : Segment) : Prop :=
  PyFloat.is_finite (seg_start seg) = false
  \/ PyFloat.is_finite (seg_end seg) = false.

(** A time that is finite and of magnitude below [2^1000], or not finite. *)
Definition bounded_or_degenerate (t : PyFloat.float) : Prop :=
  below 1000 t \/ PyFloat.is_finite t = false.

(** A name without its reserved characters, cut to 100 characters. *)
Definition sanitize (s : pystr) : pystr :=
  firstn 100 (filter (fun c => negb (reserved c)) s).

(* ===================================================================== *)
(** * A sample environment *)
(* ===================================================================== *)

Module Sample.

Definition clock : datetime := mk_datetime 2024 3 9 14 5 7.

Definition posix_join (a b : pystr) : pystr := a ++ lit "/" ++ b.

(** 3661.25 *)
Definition t3661_25 : PyFloat.float := PyFloat.of_dyadic 14645 (-2).

Definition two_segments : list Segment :=
  [ mk_segment (PyFloat.of_int 0) (PyFloat.of_dyadic 3 (-1)) (lit "Hello ");
    mk_segment (PyFloat.of_dyadic 3 (-1)) (PyFloat.of_int 3) (lit "world") ].

Definition two_segments_srt : pystr :=
  lit "1" ++ nl ++ lit "00:00:00,000 --> 00:00:01,500" ++ nl
  ++ lit "Hello" ++ nl
  ++ nl
  ++ lit "2" ++ nl ++ lit "00:00:01,500 --> 00:00:03,000" ++ nl
  ++ lit "world" ++ nl.

Definition result : Result :=
  mk_result (lit " Hello world") (Some (lit "en")) two_segments.

Definition failure (s : string) : exn := mk_exn OtherException (lit s).

(** Everything works: the video is found, the audio is downloaded and
    the engine transcribes it. *)
Definition world : World :=
  {| script_dir := lit "/app";
     path_div := posix_join;
     os_path_join := posix_join;
     gettempdir := lit "/tmp";
     now := fun _ => clock;
     extract_info := fun _ _ =>
       Ok (Some (mk_info (Some (lit "Talk: part 1/2?")) (Some (lit "dQw4")))) ;
     mkdir := fun _ _ => Ok tt;
     download := fun _ _ _ => Ok tt;
     listdir := fun _ _ => Ok [lit "audio.mp3"];
     path_exists := fun _ _ => true;
     whisper_load_model := fun l _ => Ok (handle (N.of_nat (List.length l)));
     model_transcribe := fun _ _ _ _ => Ok result;
     write_file := fun _ _ _ => Ok tt;
     json_dumps := fun _ => Ok (lit "{}") |}.

(** The network is down: the metadata lookup and the download raise. *)
Definition offline : World :=
  {| script_dir := script_dir world;
     path_div := path_div world;
     os_path_join := os_path_join world;
     gettempdir := gettempdir world;
     now := now world;
     extract_info := fun _ _ => Raise (failure "unable to download webpage");
     mkdir := mkdir world;
     download := fun _ _ _ => Raise (failure "unable to download webpage");
     listdir := listdir world;
     path_exists := path_exists world;
     whisper_load_model := whisper_load_model world;
     model_transcribe := model_transcribe world;
     write_file := write_file world;
     json_dumps := json_dumps world |}.

(** The engine fails on the audio. *)
Definition deaf : World :=
  {| script_dir := script_dir world;
     path_div := path_div world;
     os_path_join := os_path_join world;
     gettempdir := gettempdir world;
     now := now world;
     extract_info := extract_info world;
     mkdir := mkdir world;
     download := download world;
     listdir := listdir world;
     path_exists := path_exists world;
     whisper_load_model := whisper_load_model world;
     model_transcribe := fun _ _ _ _ => Raise (failure "out of memory");
     write_file := write_file world;
     json_dumps := json_dumps world |}.

(** The metadata holds neither a title nor an id. *)
Definition untitled : World :=
  {| script_dir := script_dir world;
     path_div := path_div world;
     os_path_join := os_path_join world;
     gettempdir := gettempdir world;
     now := now world;
     extract_info := fun _ _ => Ok (Some (mk_info None None));
     mkdir := mkdir world;
     download := download world;
     listdir := listdir world;
     path_exists := path_exists world;
     whisper_load_model := whisper_load_model world;
     model_transcribe := model_transcribe world;
     write_file := write_file world;
     json_dumps := json_dumps world |}.

(** The engine cannot load any model. *)
Definition no_model : World :=
  {| script_dir := script_dir world;
     path_div := path_div world;
     os_path_join := os_path_join world;
     gettempdir := gettempdir world;
     now := now world;
     extract_info := extract_info world;
     mkdir := mkdir world;
     download := download world;
     listdir := listdir world;
     path_exists := path_exists world;
     whisper_load_model := fun _ _ => Raise (failure "model not found");
     model_transcribe := model_transcribe world;
     write_file := write_file world;
     json_dumps := json_dumps world |}.

(** A result whose only segment never ends. *)
Definition endless : Result :=
  mk_result (lit " Hello") (Some (lit "en"))
    [ mk_segment (PyFloat.of_int 0) (S754_infinity false) (lit " Hello") ].

(** The engine returns the endless result. *)
Definition unbounded : World :=
  {| script_dir := script_dir world;
     path_div := path_div world;
     os_path_join := os_path_join world;
     gettempdir := gettempdir world;
     now := now world;
     extract_info := extract_info world;
     mkdir := mkdir world;
     download := download world;
     listdir := listdir world;
     path_exists := path_exists world;
     whisper_load_model := whisper_load_model world;
     model_transcribe := fun _ _ _ _ => Ok endless;
     write_file := write_file world;
     json_dumps := json_dumps world |}.

(** The title holds each of the nine reserved characters once, between
    the letters a to j. *)
Definition marked_title : pystr :=
  lit "a<b>c:d" ++ [34%N] ++ lit "e/f\g|h?i*j".

Definition marked : World :=
  {| script_dir := script_dir world;
     path_div := path_div world;
     os_path_join := os_path_join world;
     gettempdir := gettempdir world;
     now := now world;
     extract_info := fun _ _ =>
       Ok (Some (mk_info (Some marked_title) (Some (lit "dQw4"))));
     mkdir := mkdir world;
     download := download world;
     listdir := listdir world;
     path_exists := path_exists world;
     whisper_load_model := whisper_load_model world;
     model_transcribe := model_transcribe world;
     write_file := write_file world;
     json_dumps := json_dumps world |}.

(** The title holds reserved characters only. *)
Definition punctuation : World :=
  {| script_dir := script_dir world;
     path_div := path_div world;
     os_path_join := os_path_join world;
     gettempdir := gettempdir world;
     now := now world;
     extract_info := fun _ _ =>
       Ok (Some (mk_info (Some (lit "???")) (Some (lit "dQw4"))));
     mkdir := mkdir world;
     download := download world;
     listdir := listdir world;
     path_exists := path_exists world;
     whisper_load_model := whisper_load_model world;
     model_transcribe := model_transcribe world;
     write_file := write_file world;
     json_dumps := json_dumps world |}.

Definition upload : option pystr := Some (lit "/uploads/talk.mp3").

Definition url : pystr := lit "https://www.youtube.com/watch?v=dQw4".
Definition base : pystr := lit "base".
Definition small : pystr := lit "small".
Definition auto : pystr := lit "auto".
Definition transcribe : pystr := lit "transcribe".

End Sample.

(* ===================================================================== *)
(** * Proof tools *)
(* ===================================================================== *)

Ltac inner_scrutinee t :=
  lazymatch t with
  | context [match ?x with _ => _ end] => inner_scrutinee x
  | _ => t
  end.

(** Case analysis on the innermost scrutinee of the goal. *)
Ltac split_match :=
  match goal with
  | |- context [match ?x with _ => _ end] =>
      let y := inner_scrutinee x in destruct y eqn:?
  end.

Ltac unfold_mon :=
  unfold yield, Mon.bind, Mon.ret, Mon.raise, Mon.lift, Mon.get, Mon.record,
    Mon.call, Mon.set_model, Mon.set_model_name, Mon.try_except in *.

Lemma observations_app (l l' : list Event) :
  observations (l ++ l') = observations l ++ observations l'.
Proof.
  induction l as [|ev l IH]; simpl; [reflexivity|].
  destruct ev; simpl; rewrite ?IH; reflexivity.
Qed.

Lemma loads_app (l l' : list Event) : loads (l ++ l') = loads l ++ loads l'.
Proof.
  induction l as [|ev l IH]; simpl; [reflexivity|].
  destruct ev; simpl; rewrite ?IH; reflexivity.
Qed.

Lemma added_app A (c : M A) (st : State) (l : list Event) :
  log (snd (c st)) = log st ++ l -> added c st = l.
Proof.
  unfold added. intros ->. induction (log st); simpl; auto.
Qed.

Lemma eqb_eq (a b : pystr) : PyStr.eqb a b = true <-> a = b.
Proof.
  unfold PyStr.eqb. destruct (list_eq_dec N.eq_dec a b); split; intros; congruence.
Qed.

Lemma eqb_refl (a : pystr) : PyStr.eqb a a = true.
Proof. apply eqb_eq. reflexivity. Qed.

(* ===================================================================== *)
(** * Timestamps on the documented example *)
(* ===================================================================== *)

(** C4. On 3661.25 seconds the plain formatter returns 01:01:01, the SRT
    formatter 01:01:01,250 and the WebVTT formatter 01:01:01.250. *)
Theorem timestamps_of_3661_25 :
  format_timestamp Sample.t3661_25 = Ok (lit "01:01:01")
  /\ format_srt_timestamp Sample.t3661_25 = Ok (lit "01:01:01,250")
  /\ format_vtt_timestamp Sample.t3661_25 = Ok (lit "01:01:01.250").
Proof. repeat split; vm_compute; reflexivity. Qed.

(* ===================================================================== *)
(** * The model cache *)
(* ===================================================================== *)

Section Cache.
Variable W : World.

Lemma load_model_stale st name :
  stale st name ->
  load_model W name st =
    match whisper_load_model W (log st) name with
    | Ok h =>
        (Ok (status_loaded name),
         mk_state (Some h) (Some name) (log st ++ [LoadModel name]))
    | Raise e => (Raise e, push st (LoadModel name))
    end.
Proof.
  intros Hs. unfold load_model. unfold_mon.
  assert (Hc : (match model st with None => true | Some _ => false end
                || name_differs (model_name st) name) = true).
  { destruct Hs as [-> | Hn]; [reflexivity|].
    destruct (model st); [|reflexivity]. simpl.
    unfold name_differs. destruct (model_name st) as [n|]; [|reflexivity].
    destruct (PyStr.eqb n name) eqn:E; [|reflexivity].
    apply eqb_eq in E. congruence. }
  rewrite Hc. destruct (whisper_load_model W (log st) name); reflexivity.
Qed.

Lemma load_model_fresh st name :
  ~ stale st name ->
  load_model W name st = (Ok (status_already_loaded name), st).
Proof.
  intros Hs. unfold load_model. unfold_mon.
  destruct (model st) eqn:Hm; [|exfalso; apply Hs; left; exact Hm].
  destruct (model_name st) as [n|] eqn:Hn;
    [|exfalso; apply Hs; right; rewrite Hn; discriminate].
  simpl. destruct (PyStr.eqb n name) eqn:E; [reflexivity|].
  exfalso. apply Hs. right. rewrite Hn. intros H. inversion H; subst.
  rewrite eqb_refl in E. discriminate.
Qed.

Lemma status_distinct n n' : status_loaded n <> status_already_loaded n'.
Proof.
  intros H. apply (f_equal (fun s => hd 0%N (rev s))) in H.
  unfold status_loaded, status_already_loaded in H.
  rewrite !rev_app_distr in H. simpl in H. discriminate.
Qed.

(** C7. [load_model] calls the engine's loader exactly when no handle is
    cached or the cached identifier differs from the requested one; when
    the loader returns, the cache entry is replaced; otherwise the state is
    left as it is; the two returned statuses are never equal. Calling twice
    in a row with one name on a fresh transcriber loads once; calling with
    one name and then another loads twice and leaves the second handle in
    the cache. *)
Theorem load_model_cache :
  (forall st name, stale st name ->
     added (load_model W name) st = [LoadModel name]
     /\ forall h, whisper_load_model W (log st) name = Ok h ->
          load_model W name st =
            (Ok (status_loaded name),
             mk_state (Some h) (Some name) (log st ++ [LoadModel name])))
  /\ (forall st name, ~ stale st name ->
        load_model W name st = (Ok (status_already_loaded name), st))
  /\ (forall n n', status_loaded n <> status_already_loaded n')
  /\ (forall st name h,
        model st = None ->
        whisper_load_model W (log st) name = Ok h ->
        let st2 := snd (load_model W name (snd (load_model W name st))) in
        loads (log st2) = loads (log st) ++ [name]
        /\ model st2 = Some h /\ model_name st2 = Some name)
  /\ (forall st name1 name2 h1 h2,
        model st = None ->
        name1 <> name2 ->
        whisper_load_model W (log st) name1 = Ok h1 ->
        whisper_load_model W (log st ++ [LoadModel name1]) name2 = Ok h2 ->
        let st2 := snd (load_model W name2 (snd (load_model W name1 st))) in
        loads (log st2) = loads (log st) ++ [name1; name2]
        /\ model st2 = Some h2 /\ model_name st2 = Some name2).
Proof.
  split; [|split; [|split; [|split]]].
  - intros st name Hs. split.
    + apply added_app. rewrite (load_model_stale Hs).
      destruct (whisper_load_model W (log st) name); reflexivity.
    + intros h Hh. rewrite (load_model_stale Hs), Hh. reflexivity.
  - intros st name Hs. apply load_model_fresh. exact Hs.
  - apply status_distinct.
  - intros st name h Hm Hh. cbv zeta.
    rewrite (load_model_stale (st := st) (name := name)) by (left; exact Hm).
    rewrite Hh. simpl.
    rewrite load_model_fresh.
    + simpl. rewrite loads_app. auto.
    + unfold stale. simpl. intros [H|H]; [discriminate | apply H; reflexivity].
  - intros st name1 name2 h1 h2 Hm Hne H1 H2. cbv zeta.
    rewrite (load_model_stale (st := st) (name := name1)) by (left; exact Hm).
    rewrite H1. simpl.
    rewrite load_model_stale.
    + simpl. rewrite H2. simpl. rewrite !loads_app, <- app_assoc. auto.
    + right. simpl. congruence.
Qed.

End Cache.

(** C7 on the sample environment: two calls with "base", then "base"
    followed by "small". *)
Lemma load_model_cache_witness :
  (let st2 := snd (load_model Sample.world Sample.base
                     (snd (load_model Sample.world Sample.base init))) in
   loads (log st2) = [Sample.base] /\ model st2 = Some (handle 0)
   /\ model_name st2 = Some Sample.base)
  /\ (let st2 := snd (load_model Sample.world Sample.small
                        (snd (load_model Sample.world Sample.base init))) in
      loads (log st2) = [Sample.base; Sample.small]
      /\ model st2 = Some (handle 1)
      /\ model_name st2 = Some Sample.small).
Proof.
  destruct (load_model_cache Sample.world) as (_ & _ & _ & Htwice & Hevict).
  split.
  - apply (Htwice init Sample.base (handle 0)); reflexivity.
  - apply (Hevict init Sample.base Sample.small (handle 0) (handle 1));
      [reflexivity | discriminate | reflexivity | reflexivity].
Defined.

(* ===================================================================== *)
(** * Empty input *)
(* ===================================================================== *)

(** C9. With an empty URL, and with no uploaded file, the entry point
    returns its "Please ..." tuple as the value of the generator and yields
    nothing: the state, log included, is the one it started in. *)
Theorem empty_source_yields_nothing (W : World) (name language task : pystr)
    (include_timestamps : bool) (export_formats : option (list pystr))
    (st : State) :
  process_youtube_url W [] name language task include_timestamps
                      export_formats st
    = (Ok (Some (Obs5 (lit "Please enter a YouTube URL") None None None None)),
       st)
  /\ process_file_upload W None name language task include_timestamps
                         export_formats st
    = (Ok (Some (Obs4 (lit "Please upload an audio file") None None None)), st)
  /\ observations
       (added (process_youtube_url W [] name language task include_timestamps
                                   export_formats) st) = []
  /\ observations
       (added (process_file_upload W None name language task
                                   include_timestamps export_formats) st) = [].
Proof.
  repeat split; try reflexivity.
  - rewrite added_app with (l := []);
      [reflexivity | simpl; rewrite app_nil_r; reflexivity].
  - rewrite added_app with (l := []);
      [reflexivity | simpl; rewrite app_nil_r; reflexivity].
Qed.

(* ===================================================================== *)
(** * Decimal rendering *)
(* ===================================================================== *)

Section Digits.
Local Open Scope N_scope.

Lemma digit_is_digit (d : N) : d < 10 -> is_digit (digit d) = true.
Proof.
  intros H. unfold is_digit, digit.
  apply andb_true_intro. split; apply N.leb_le; lia.
Qed.

Lemma digits_of_all_digits (fuel : nat) (n : N) :
  forallb is_digit (digits_of fuel n) = true.
Proof.
  revert n. induction fuel as [|f IH]; intros n; simpl; [reflexivity|].
  destruct (n <? 10) eqn:E.
  - simpl. rewrite digit_is_digit; [reflexivity | apply N.ltb_lt; exact E].
  - rewrite forallb_app, IH. simpl.
    rewrite digit_is_digit; [reflexivity | apply N.mod_lt; lia].
Qed.

Lemma digits_of_length (fuel : nat) (n : N) (w : nat) :
  (1 <= w)%nat -> n < 10 ^ N.of_nat w ->
  (List.length (digits_of fuel n) <= w)%nat.
Proof.
  revert n w. induction fuel as [|f IH]; intros n w Hw Hn; simpl; [lia|].
  destruct (n <? 10) eqn:E; simpl; [lia|].
  apply N.ltb_ge in E.
  rewrite length_app. simpl.
  destruct w as [|[|w]];
    [lia | change (N.of_nat 1) with 1 in Hn; rewrite N.pow_1_r in Hn; lia |].
  assert (Hlen : (List.length (digits_of f (n / 10)) <= S w)%nat).
  { apply IH; [lia|].
    apply N.Div0.div_lt_upper_bound.
    replace (10 * 10 ^ N.of_nat (S w)) with (10 ^ N.of_nat (S (S w))); [exact Hn|].
    rewrite (Nat2N.inj_succ (S w)), N.pow_succ_r'. reflexivity. }
  lia.
Qed.

Lemma zfill_length (w : nat) (s : pystr) :
  (List.length s <= w)%nat -> List.length (zfill w s) = w.
Proof.
  intros H. unfold zfill, pystr, char in *.
  rewrite length_app, repeat_length. lia.
Qed.

Lemma zfill_all_digits (w : nat) (s : pystr) :
  forallb is_digit s = true -> forallb is_digit (zfill w s) = true.
Proof.
  intros H. unfold zfill, pystr, char in *. rewrite forallb_app, H, andb_true_r.
  induction (w - List.length s)%nat; simpl; auto.
Qed.

(** A field below [10^w] prints as exactly [w] digits. *)
Lemma field_shape (w : nat) (n : N) :
  (1 <= w)%nat -> n < 10 ^ N.of_nat w ->
  List.length (zfill w (str_of_N n)) = w
  /\ forallb is_digit (zfill w (str_of_N n)) = true.
Proof.
  intros Hw Hn. split.
  - apply zfill_length. apply digits_of_length; assumption.
  - apply zfill_all_digits. apply digits_of_all_digits.
Qed.

Lemma strftime_shape (d : datetime) :
  datetime_ok d ->
  exists date time,
    strftime d = date ++ lit "_" ++ time
    /\ List.length date = 8%nat /\ List.length time = 6%nat
    /\ forallb is_digit date = true /\ forallb is_digit time = true.
Proof.
  intros (Hy & Hm & Hd & HH & HM & HS).
  destruct (@field_shape 4 (year d)) as [Ly Dy]; [lia | simpl; lia |].
  destruct (@field_shape 2 (month d)) as [Lm Dm]; [lia | simpl; lia |].
  destruct (@field_shape 2 (day d)) as [Ld Dd]; [lia | simpl; lia |].
  destruct (@field_shape 2 (hour d)) as [LH DH]; [lia | simpl; lia |].
  destruct (@field_shape 2 (minute d)) as [LM DM]; [lia | simpl; lia |].
  destruct (@field_shape 2 (second d)) as [LS DS]; [lia | simpl; lia |].
  exists (zfill 4 (str_of_N (year d)) ++ zfill 2 (str_of_N (month d))
          ++ zfill 2 (str_of_N (day d))).
  exists (zfill 2 (str_of_N (hour d)) ++ zfill 2 (str_of_N (minute d))
          ++ zfill 2 (str_of_N (second d))).
  repeat split.
  - unfold strftime. rewrite <- !app_assoc. reflexivity.
  - rewrite !length_app. lia.
  - rewrite !length_app. lia.
  - rewrite !forallb_app, Dy, Dm, Dd. reflexivity.
  - rewrite !forallb_app, DH, DM, DS. reflexivity.
Qed.

Lemma digit_not_reserved (c : char) : is_digit c = true -> reserved c = false.
Proof.
  unfold is_digit. intros H. apply andb_prop in H. destruct H as [H1 H2].
  apply N.leb_le in H1. apply N.leb_le in H2.
  unfold reserved, invalid_chars. simpl.
  repeat (match goal with
          | |- context [N.eqb c ?k] =>
              replace (N.eqb c k) with false by (symmetry; apply N.eqb_neq; lia)
          end).
  reflexivity.
Qed.

End Digits.

(* ===================================================================== *)
(** * The title sanitizer *)
(* ===================================================================== *)

Section Title.
Variable W : World.

Lemma replace_char_removes (c : char) (s : pystr) :
  replace_char c [] s = filter (fun x => negb (x =? c)%N) s.
Proof.
  unfold replace_char.
  induction s as [|x s IH]; simpl; [reflexivity|].
  destruct (x =? c)%N; simpl; rewrite IH; reflexivity.
Qed.

Lemma filter_twice (A : Type) (p q : A -> bool) (l : list A) :
  filter q (filter p l) = filter (fun x => p x && q x) l.
Proof.
  induction l as [|x l IH]; simpl; [reflexivity|].
  destruct (p x); simpl; [destruct (q x)|]; rewrite IH; reflexivity.
Qed.

Lemma strip_loop_filter (cs : pystr) (s : pystr) :
  fold_left (fun title char => replace_char char [] title) cs s
  = filter (fun x => negb (existsb (N.eqb x) cs)) s.
Proof.
  revert s. induction cs as [|c cs IH]; intros s; simpl.
  - induction s as [|x s IHs]; simpl; [reflexivity | rewrite <- IHs; reflexivity].
  - rewrite IH, replace_char_removes, filter_twice.
    apply filter_ext. intros x. rewrite negb_orb. reflexivity.
Qed.

Lemma clean_title_chosen (info : Info) (s : pystr) :
  py_or (info_title info) (info_id info) = Some s ->
  clean_title (Some info) = Ok (firstn 100 (filter (fun c => negb (reserved c)) s)).
Proof.
  intros H. unfold clean_title. rewrite H. rewrite strip_loop_filter.
  fold reserved.
  destruct (100 <? _)%nat eqn:E; [reflexivity|].
  apply Nat.ltb_ge in E. rewrite firstn_all2; [reflexivity | exact E].
Qed.

Lemma clean_title_nameless (info : Info) :
  truthy_opt (info_title info) = false -> info_id info = None ->
  clean_title (Some info) = Raise (none_has_no "replace").
Proof.
  intros Ht Hi. unfold clean_title, py_or. rewrite Ht, Hi. reflexivity.
Qed.

Lemma get_video_title_cases (url : pystr) (st : State) :
  get_video_title W url st =
    (Ok match extract_info W (log st) url with
        | Ok info =>
            match clean_title info with
            | Ok title => title
            | Raise _ => fallback_name W st url
            end
        | Raise _ => fallback_name W st url
        end,
     push st (ExtractInfo url)).
Proof.
  unfold get_video_title, fallback_name. unfold_mon.
  destruct (extract_info W (log st) url) as [info|e]; [|reflexivity].
  destruct (clean_title info); reflexivity.
Qed.

Lemma in_firstn (A : Type) (n : nat) (l : list A) (x : A) :
  In x (firstn n l) -> In x l.
Proof.
  intros H. rewrite <- (firstn_skipn n l). apply in_or_app. left. exact H.
Qed.

Lemma clean_title_safe (info : option Info) (title : pystr) :
  clean_title info = Ok title ->
  (forall c, In c title -> reserved c = false)
  /\ (List.length title <= 100)%nat.
Proof.
  destruct info as [info|]; [|discriminate].
  destruct (py_or (info_title info) (info_id info)) as [s|] eqn:Hs.
  - rewrite (clean_title_chosen _ Hs). intros H.
    assert (E : title = firstn 100 (filter (fun c => negb (reserved c)) s))
      by congruence.
    rewrite E. clear H E. split.
    + intros c Hc. apply in_firstn in Hc.
      apply filter_In in Hc. destruct Hc as [_ Hc].
      apply negb_true_iff in Hc. exact Hc.
    + rewrite length_firstn. lia.
  - unfold clean_title. rewrite Hs. discriminate.
Qed.

Lemma fallback_pattern (st : State) (url : pystr) :
  datetime_ok (now W (log st ++ [ExtractInfo url])) ->
  video_pattern (fallback_name W st url).
Proof.
  intros Hd. destruct (strftime_shape Hd) as (date & time & E & H).
  exists date, time. unfold fallback_name. rewrite E. split; [reflexivity | exact H].
Qed.

Lemma pattern_safe (s : pystr) :
  video_pattern s ->
  (forall c, In c s -> reserved c = false) /\ (List.length s <= 100)%nat.
Proof.
  intros (date & time & -> & Ld & Lt & Dd & Dt). split.
  - intros c Hc. rewrite !in_app_iff in Hc.
    rewrite forallb_forall in Dd, Dt.
    destruct Hc as [Hc | [Hc | [Hc | Hc]]].
    + simpl in Hc. repeat (destruct Hc as [<- | Hc]; [reflexivity|]). contradiction.
    + apply digit_not_reserved. apply Dd. exact Hc.
    + simpl in Hc. destruct Hc as [<- | []]. reflexivity.
    + apply digit_not_reserved. apply Dt. exact Hc.
  - unfold pystr, char in *. rewrite !length_app, Ld, Lt. simpl. lia.
Qed.

Lemma reserved_spec (c : char) :
  reserved c = true
  <-> In c [60; 62; 58; 34; 47; 92; 124; 63; 42]%N.
Proof.
  change (reserved c)
    with (existsb (N.eqb c) [60; 62; 58; 34; 47; 92; 124; 63; 42]%N).
  rewrite existsb_exists. split.
  - intros (x & Hx & E). apply N.eqb_eq in E. subst x. exact Hx.
  - intros Hc. exists c. split; [exact Hc | apply N.eqb_refl].
Qed.

Lemma reserved_test (c : char) :
  negb (reserved c)
  = negb (existsb (N.eqb c) [60; 62; 58; 34; 47; 92; 124; 63; 42]%N).
Proof. reflexivity. Qed.

(** C6. Whatever the metadata lookup does, and provided the clock read by
    the fallback is a well-formed [datetime], the name returned by
    [get_video_title] holds none of the nine reserved characters (less-than,
    greater-than, colon, double quote, slash, backslash, vertical bar,
    question mark and asterisk: code points 60, 62, 58, 34, 47, 92, 124, 63
    and 42) and at most 100 characters; when the lookup yields a name, the result is
    that name with every occurrence of these nine characters taken out
    (nothing put in its place, every other character kept, in order), cut
    to its first 100 characters; when the lookup raises, the result matches
    [video_\d{8}_\d{6}]. The test [reserved] is true of these nine
    characters and of no other. *)
Theorem get_video_title_sanitized (url : pystr) (st : State) :
  datetime_ok (now W (log st ++ [ExtractInfo url])) ->
  let unsafe : list char := [60; 62; 58; 34; 47; 92; 124; 63; 42]%N in
  (forall c, reserved c = true <-> In c unsafe)
  /\ exists title,
       get_video_title W url st = (Ok title, push st (ExtractInfo url))
       /\ (forall c, In c title -> ~ In c unsafe)
       /\ (forall c, In c title -> reserved c = false)
       /\ (List.length title <= 100)%nat
       /\ (forall info s,
             extract_info W (log st) url = Ok (Some info) ->
             py_or (info_title info) (info_id info) = Some s ->
             title
             = firstn 100
                 (filter (fun c => negb (existsb (N.eqb c) unsafe)) s)
             /\ title = firstn 100 (filter (fun c => negb (reserved c)) s))
       /\ (forall e, extract_info W (log st) url = Raise e ->
             video_pattern title).
Proof.
  intros Hnow. cbv zeta. split; [exact reserved_spec|].
  rewrite get_video_title_cases.
  pose proof (@fallback_pattern st url Hnow) as Hpat.
  pose proof (pattern_safe Hpat) as [Hres Hlen].
  assert (Hlist : forall t : pystr,
            (forall c, In c t -> reserved c = false) ->
            forall c, In c t ->
              ~ In c [60; 62; 58; 34; 47; 92; 124; 63; 42]%N).
  { intros t Ht c Hc Hin. apply reserved_spec in Hin.
    rewrite (Ht c Hc) in Hin. discriminate. }
  destruct (extract_info W (log st) url) as [info|e] eqn:Hx.
  - destruct (clean_title info) as [title|e] eqn:Hc.
    + exists title. destruct (clean_title_safe _ Hc) as [H1 H2].
      split; [reflexivity|]. split; [exact (Hlist title H1)|].
      split; [exact H1|]. split; [exact H2|]. split.
      * intros info' s Hi Hs. assert (info = Some info') by congruence.
        subst info. rewrite (clean_title_chosen _ Hs) in Hc.
        assert (E : title = firstn 100 (filter (fun c => negb (reserved c)) s))
          by congruence.
        split; [|exact E]. rewrite E. f_equal.
      * intros e He. discriminate.
    + exists (fallback_name W st url).
      split; [reflexivity|]. split; [exact (Hlist _ Hres)|].
      split; [exact Hres|]. split; [exact Hlen|]. split.
      * intros info' s Hi Hs. assert (info = Some info') by congruence.
        subst info. rewrite (clean_title_chosen _ Hs) in Hc. discriminate.
      * intros e' He. discriminate.
  - exists (fallback_name W st url).
    split; [reflexivity|]. split; [exact (Hlist _ Hres)|].
    split; [exact Hres|]. split; [exact Hlen|]. split.
    + intros info' s Hi. discriminate.
    + intros e' _. exact Hpat.
Qed.

(** C10. [get_video_title] returns a name in every case, and never an
    exception. When the lookup succeeds with neither a title nor an id, the
    name is the timestamp fallback (the [None] raises inside the guarded
    block and is caught), which has the form video_YYYYMMDD_HHMMSS as soon
    as the clock is a well-formed [datetime]. *)
Theorem get_video_title_never_raises (url : pystr) (st : State) :
  (exists title st', get_video_title W url st = (Ok title, st'))
  /\ (forall info,
        extract_info W (log st) url = Ok (Some info) ->
        truthy_opt (info_title info) = false -> info_id info = None ->
        clean_title (Some info) = Raise (none_has_no "replace")
        /\ get_video_title W url st
           = (Ok (lit "video_"
                  ++ strftime (now W (log st ++ [ExtractInfo url]))),
              push st (ExtractInfo url))
        /\ (datetime_ok (now W (log st ++ [ExtractInfo url])) ->
            video_pattern
              (lit "video_"
               ++ strftime (now W (log st ++ [ExtractInfo url]))))).
Proof.
  split.
  - rewrite get_video_title_cases. eexists. eexists. reflexivity.
  - intros info Hx Ht Hi. split; [|split].
    + apply clean_title_nameless; assumption.
    + rewrite get_video_title_cases, Hx, (clean_title_nameless _ Ht Hi).
      reflexivity.
    + intros Hnow. apply fallback_pattern. exact Hnow.
Qed.

End Title.

(** C6 on the sample environment whose title holds each reserved character
    once: the nine are taken out and the letters a to j are left. *)
Lemma get_video_title_sanitized_witness :
  datetime_ok (now Sample.marked (log init ++ [ExtractInfo Sample.url]))
  /\ Sample.marked_title
     = [97; 60; 98; 62; 99; 58; 100; 34; 101; 47; 102; 92; 103; 124; 104;
        63; 105; 42; 106]%N
  /\ get_video_title Sample.marked Sample.url init
     = (Ok (lit "abcdefghij"), push init (ExtractInfo Sample.url)).
Proof.
  assert (Hclock : datetime_ok
                     (now Sample.marked (log init ++ [ExtractInfo Sample.url]))).
  { unfold datetime_ok. simpl. lia. }
  split; [exact Hclock|]. split; [reflexivity|].
  destruct (@get_video_title_sanitized Sample.marked Sample.url init Hclock)
    as (_ & title & Hrun & _ & _ & _ & Hname & _).
  destruct (Hname (mk_info (Some Sample.marked_title) (Some (lit "dQw4")))
              Sample.marked_title eq_refl eq_refl) as [E _].
  rewrite Hrun, E. reflexivity.
Defined.

(** C10 on the sample environment whose metadata has no title and no id. *)
Lemma get_video_title_never_raises_witness :
  get_video_title Sample.untitled Sample.url init
    = (Ok (lit "video_20240309_140507"), push init (ExtractInfo Sample.url))
  /\ video_pattern (lit "video_20240309_140507").
Proof.
  destruct (get_video_title_never_raises Sample.untitled Sample.url init)
    as [_ H].
  destruct (H (mk_info None None)) as (_ & E & Hpat); [reflexivity ..|].
  split; [exact E|].
  apply Hpat. unfold datetime_ok. simpl. lia.
Defined.

(* ===================================================================== *)
(** * What each method adds to the log *)
(* ===================================================================== *)

Section Only.
Variable W : World.
Variable ok : Event -> bool.

Lemma only_ret A (a : A) : only ok (Mon.ret a).
Proof. intros st. exists []. simpl. rewrite app_nil_r. auto. Qed.

Lemma only_raise A (e : exn) : only ok (@Mon.raise A e).
Proof. intros st. exists []. simpl. rewrite app_nil_r. auto. Qed.

Lemma only_lift A (c : outcome A) : only ok (Mon.lift c).
Proof. intros st. exists []. simpl. rewrite app_nil_r. auto. Qed.

Lemma only_get : only ok Mon.get.
Proof. intros st. exists []. simpl. rewrite app_nil_r. auto. Qed.

Lemma only_set_model h : only ok (Mon.set_model h).
Proof. intros st. exists []. simpl. rewrite app_nil_r. auto. Qed.

Lemma only_set_model_name n : only ok (Mon.set_model_name n).
Proof. intros st. exists []. simpl. rewrite app_nil_r. auto. Qed.

Lemma only_call A (ev : Event) (answer : list Event -> outcome A) :
  ok ev = true -> only ok (Mon.call ev answer).
Proof. intros H st. exists [ev]. simpl. rewrite H. auto. Qed.

Lemma only_bind A B (c : M A) (k : A -> M B) :
  only ok c -> (forall a, only ok (k a)) -> only ok (Mon.bind c k).
Proof.
  intros Hc Hk st. unfold Mon.bind.
  destruct (Hc st) as (l & El & Hl).
  destruct (c st) as [[a|e] st1]; simpl in El.
  - destruct (Hk a st1) as (l' & El' & Hl').
    exists (l ++ l'). rewrite El', El, app_assoc, forallb_app, Hl, Hl'. auto.
  - exists l. auto.
Qed.

Lemma only_try_except A (body : M A) (handler : exn -> M A) :
  only ok body -> (forall e, only ok (handler e)) ->
  only ok (Mon.try_except body handler).
Proof.
  intros Hc Hk st. unfold Mon.try_except.
  destruct (Hc st) as (l & El & Hl).
  destruct (body st) as [[a|e] st1]; simpl in El.
  - exists l. auto.
  - destruct (Hk e st1) as (l' & El' & Hl').
    exists (l ++ l'). rewrite El', El, app_assoc, forallb_app, Hl, Hl'. auto.
Qed.

End Only.

Lemma only_weaken A (ok ok' : Event -> bool) (c : M A) :
  (forall ev, ok ev = true -> ok' ev = true) -> only ok c -> only ok' c.
Proof.
  intros Himp Hc st. destruct (Hc st) as (l & El & Hl).
  exists l. split; [exact El|].
  rewrite forallb_forall in *. auto.
Qed.

(** Structural proof of an [only] goal. *)
Ltac only_step :=
  first
    [ apply only_ret | apply only_raise | apply only_lift | apply only_get
    | apply only_set_model | apply only_set_model_name
    | apply only_call; reflexivity
    | apply only_bind; [|intros]
    | apply only_try_except; [|intros]
    | match goal with
      | |- only _ (match ?x with _ => _ end) => destruct x
      end ].

Ltac only_auto := repeat only_step.

Section Stages.
Variable W : World.

Lemma load_model_only : forall name, only is_engine_call (load_model W name).
Proof. intros name. unfold load_model. only_auto. Qed.

Lemma get_video_title_only : forall url, only is_acquisition (get_video_title W url).
Proof. intros url. unfold get_video_title. only_auto. Qed.

Lemma download_youtube_audio_only :
  forall url, only is_acquisition (download_youtube_audio W url).
Proof.
  intros url. unfold download_youtube_audio.
  only_auto; try apply get_video_title_only.
Qed.

Lemma transcribe_audio_only :
  forall audio name language task,
    only is_engine_call (transcribe_audio W audio name language task).
Proof.
  intros. unfold transcribe_audio. only_auto; try apply load_model_only.
Qed.

Lemma export_loop_only :
  forall timestamp exports files,
    only not_yield (export_loop W timestamp exports files).
Proof.
  intros timestamp exports. induction exports as [|[k v] rest IH]; intros files.
  - simpl. only_auto.
  - simpl. unfold write_text. only_auto. apply IH.
Qed.

Lemma acquisition_not_yield ev : is_acquisition ev = true -> not_yield ev = true.
Proof. destruct ev; simpl; auto; discriminate. Qed.

Lemma engine_not_yield ev : is_engine_call ev = true -> not_yield ev = true.
Proof. destruct ev; simpl; auto; discriminate. Qed.

Lemma transcribe_audio_silent :
  forall audio name language task,
    only not_yield (transcribe_audio W audio name language task).
Proof.
  intros. eapply only_weaken; [apply engine_not_yield | apply transcribe_audio_only].
Qed.

Lemma create_export_files_only :
  forall exports, only not_yield (create_export_files W exports).
Proof.
  intros. unfold create_export_files. only_auto; try apply export_loop_only.
Qed.

Lemma url_exports_only :
  forall video_dir result export_formats,
    only not_yield (url_exports W video_dir result export_formats).
Proof. intros. unfold url_exports, write_text, in_dir. only_auto. Qed.

Lemma upload_exports_only :
  forall text result export_formats,
    only not_yield (upload_exports W text result export_formats).
Proof. intros. unfold upload_exports. only_auto. Qed.

Lemma url_try_block_only :
  forall audio video_dir name language task ts ef,
    only not_yield (url_try_block W audio video_dir name language task ts ef).
Proof.
  intros. unfold url_try_block, write_text, in_dir.
  only_auto; first [ apply url_exports_only | apply export_loop_only ].
Qed.

Lemma upload_try_block_only :
  forall audio name language task ts ef,
    only not_yield (upload_try_block W audio name language task ts ef).
Proof.
  intros. unfold upload_try_block.
  only_auto; first [ apply upload_exports_only | apply export_loop_only ].
Qed.

End Stages.

(* ===================================================================== *)
(** * The two pipelines *)
(* ===================================================================== *)

Section Pipeline.
Variable W : World.

Lemma bind_ok A B (c : M A) (k : A -> M B) st b st' :
  Mon.bind c k st = (Ok b, st') ->
  exists a st1, c st = (Ok a, st1) /\ k a st1 = (Ok b, st').
Proof.
  unfold Mon.bind. destruct (c st) as [[a|e] st1]; intros H.
  - exists a, st1. auto.
  - discriminate.
Qed.

Lemma download_youtube_audio_shape (url : pystr) (st : State) :
  exists a d e st1,
    download_youtube_audio W url st = (Ok (a, d, e), st1)
    /\ ((a = None /\ d = None /\ exists msg, e = Some msg /\ truthy msg = true)
        \/ (exists p dir,
              a = Some p /\ d = Some dir /\ e = None /\ truthy p = true)).
Proof.
  unfold download_youtube_audio. unfold_mon.
  rewrite get_video_title_cases.
  repeat split_match;
    repeat match goal with
           | H : (_, _) = (_, _) |- _ => inversion H; subst; clear H
           end;
    do 4 eexists; (split; [reflexivity|]);
    first [ left; repeat split; eexists; split; reflexivity
          | right; do 2 eexists; repeat split; assumption ].
Qed.

Lemma process_youtube_url_run url name language task ts ef st :
  truthy url = true ->
  process_youtube_url W url name language task ts ef st =
    match download_youtube_audio W url (push st (Yield downloading)) with
    | (Ok (a, d, e), st1) =>
        if truthy_opt e then (Ok None, push st1 (Yield (download_error e)))
        else
          match url_try_block W a d name language task ts ef
                  (push st1 (Yield (transcribing_url name a))) with
          | (Ok o, st2) => (Ok None, push st2 (Yield o))
          | (Raise ex, st2) =>
              (Ok None, push st2 (Yield (transcription_error_url ex a)))
          end
    | (Raise ex, st1) => (Raise ex, st1)
    end.
Proof.
  intros Hu. unfold process_youtube_url. rewrite Hu. cbn [negb].
  unfold_mon.
  destruct (download_youtube_audio W url (push st (Yield downloading)))
    as [[[[a d] e]|ex] st1]; [|reflexivity].
  destruct (truthy_opt e); [reflexivity|].
  destruct (url_try_block W a d name language task ts ef _) as [[o|ex] st2];
    reflexivity.
Qed.

Lemma process_file_upload_run audio name language task ts ef st :
  process_file_upload W (Some audio) name language task ts ef st =
    match upload_try_block W (Some audio) name language task ts ef
            (push st (Yield (transcribing_upload name))) with
    | (Ok o, st2) => (Ok None, push st2 (Yield o))
    | (Raise ex, st2) => (Ok None, push st2 (Yield (transcription_error_upload ex)))
    end.
Proof.
  unfold process_file_upload. unfold_mon.
  destruct (upload_try_block W (Some audio) name language task ts ef _)
    as [[o|ex] st2]; reflexivity.
Qed.

Lemma url_try_block_result a d name language task ts ef st o st' :
  url_try_block W a d name language task ts ef st = (Ok o, st') ->
  exists status text detailed files,
    o = Obs5 status a (Some text) (Some detailed) files.
Proof.
  unfold url_try_block. intros H.
  repeat (apply bind_ok in H; destruct H as (? & ? & _ & H); cbv beta in H).
  unfold Mon.ret in H. inversion H. do 4 eexists. reflexivity.
Qed.

Lemma upload_try_block_result a name language task ts ef st o st' :
  upload_try_block W a name language task ts ef st = (Ok o, st') ->
  exists status text detailed files,
    o = Obs4 status (Some text) (Some detailed) files.
Proof.
  unfold upload_try_block. intros H.
  repeat (apply bind_ok in H; destruct H as (? & ? & _ & H); cbv beta in H).
  unfold Mon.ret in H. inversion H. do 4 eexists. reflexivity.
Qed.

Lemma log_push (st : State) (ev : Event) : log (push st ev) = log st ++ [ev].
Proof. reflexivity. Qed.

Lemma only_added A (ok : Event -> bool) (c : M A) (st : State) :
  only ok c ->
  log (snd (c st)) = log st ++ added c st /\ forallb ok (added c st) = true.
Proof.
  intros H. destruct (H st) as (l & El & Hl).
  rewrite (@added_app _ c st l El). auto.
Qed.

Lemma observations_silent (l : list Event) :
  forallb not_yield l = true -> observations l = [].
Proof.
  induction l as [|ev l IH]; simpl; [reflexivity|].
  intros H. apply andb_prop in H. destruct H as [H1 H2].
  destruct ev; simpl in *; auto; discriminate.
Qed.

Lemma written_none (ok : Event -> bool) (l : list Event) :
  (forall ev, ok ev = true -> is_write ev = false) ->
  forallb ok l = true -> written l = [].
Proof.
  intros Hok. induction l as [|ev l IH]; simpl; [reflexivity|].
  intros H. apply andb_prop in H. destruct H as [H1 H2].
  apply Hok in H1. destruct ev; simpl in *; auto; discriminate.
Qed.

Lemma written_app (l l' : list Event) :
  written (l ++ l') = written l ++ written l'.
Proof.
  induction l as [|ev l IH]; simpl; [reflexivity|].
  destruct ev; simpl; rewrite ?IH; reflexivity.
Qed.

Lemma acquisition_not_write ev : is_acquisition ev = true -> is_write ev = false.
Proof. destruct ev; simpl; auto; discriminate. Qed.

Lemma engine_not_write ev : is_engine_call ev = true -> is_write ev = false.
Proof. destruct ev; simpl; auto; discriminate. Qed.

Lemma acquisition_no_engine (l : list Event) :
  forallb is_acquisition l = true -> transcription_ran l = false.
Proof.
  unfold transcription_ran.
  induction l as [|ev l IH]; simpl; [reflexivity|].
  intros H. apply andb_prop in H. destruct H as [H1 H2].
  rewrite (IH H2). destruct ev; simpl in *; auto; discriminate.
Qed.

(** The events of a run of [process_youtube_url] on a non-empty URL: the
    first observation, the acquisition, and then either the download error,
    or the second observation, the [try] block and the last observation. *)
Lemma process_youtube_url_added url name language task ts ef st :
  truthy url = true ->
  exists a d e st1 l1,
    download_youtube_audio W url (push st (Yield downloading))
      = (Ok (a, d, e), st1)
    /\ log st1 = log st ++ [Yield downloading] ++ l1
    /\ forallb is_acquisition l1 = true
    /\ ((truthy_opt e = true
         /\ process_youtube_url W url name language task ts ef st
              = (Ok None, push st1 (Yield (download_error e)))
         /\ added (process_youtube_url W url name language task ts ef) st
              = [Yield downloading] ++ l1 ++ [Yield (download_error e)])
        \/ (truthy_opt e = false
            /\ exists r st2 l2 last,
                 url_try_block W a d name language task ts ef
                   (push st1 (Yield (transcribing_url name a))) = (r, st2)
                 /\ log st2 = log st1 ++ [Yield (transcribing_url name a)] ++ l2
                 /\ forallb not_yield l2 = true
                 /\ last = match r with
                           | Ok o => o
                           | Raise ex => transcription_error_url ex a
                           end
                 /\ process_youtube_url W url name language task ts ef st
                      = (Ok None, push st2 (Yield last))
                 /\ added (process_youtube_url W url name language task ts ef) st
                      = [Yield downloading] ++ l1
                        ++ [Yield (transcribing_url name a)] ++ l2
                        ++ [Yield last])).
Proof.
  intros Hu.
  destruct (download_youtube_audio_shape url (push st (Yield downloading)))
    as (a & d & e & st1 & Hd & _).
  destruct (only_added (push st (Yield downloading))
              (download_youtube_audio_only W url)) as [El1 Hl1].
  rewrite Hd in El1. cbn [snd] in El1. rewrite log_push in El1.
  set (l1 := added (download_youtube_audio W url) (push st (Yield downloading)))
    in *.
  exists a, d, e, st1, l1.
  split; [exact Hd|]. split; [rewrite El1, <- app_assoc; reflexivity|].
  split; [exact Hl1|].
  pose proof (@process_youtube_url_run url name language task ts ef st Hu)
    as Hrun.
  rewrite Hd in Hrun.
  destruct (truthy_opt e) eqn:He.
  - left. split; [reflexivity|]. split; [exact Hrun|].
    apply added_app. rewrite Hrun. cbn [snd]. rewrite log_push, El1, <- !app_assoc.
    reflexivity.
  - right. split; [reflexivity|].
    destruct (only_added (push st1 (Yield (transcribing_url name a)))
                (url_try_block_only W a d name language task ts ef))
      as [El2 Hl2].
    set (l2 := added (url_try_block W a d name language task ts ef)
                     (push st1 (Yield (transcribing_url name a)))) in *.
    destruct (url_try_block W a d name language task ts ef
                (push st1 (Yield (transcribing_url name a))))
      as [r st2] eqn:Hb.
    cbn [snd] in El2. rewrite log_push in El2.
    exists r, st2, l2,
      (match r with Ok o => o | Raise ex => transcription_error_url ex a end).
    split; [reflexivity|]. split; [rewrite El2, <- app_assoc; reflexivity|].
    split; [exact Hl2|]. split; [reflexivity|].
    assert (Hfinal : process_youtube_url W url name language task ts ef st
                     = (Ok None, push st2 (Yield
                          match r with
                          | Ok o => o
                          | Raise ex => transcription_error_url ex a
                          end))).
    { rewrite Hrun. destruct r; reflexivity. }
    split; [exact Hfinal|].
    apply added_app. rewrite Hfinal. cbn [snd].
    rewrite log_push, El2, El1, <- !app_assoc. reflexivity.
Qed.

Lemma url_try_block_transcription_fails a d name language task ts ef st e st' :
  transcribe_audio W a name language task st = (Raise e, st') ->
  url_try_block W a d name language task ts ef st = (Raise e, st').
Proof.
  intros H. unfold url_try_block. unfold Mon.bind at 1. rewrite H. reflexivity.
Qed.

(** C1. In a run of [process_youtube_url] on a non-empty URL: when the
    acquisition fails (its error component is not [None]), the run ends with
    the observation [download_error], which carries no audio path and no
    transcript, and no call of the transcription stage and no file write
    was made; when the acquisition succeeds and [transcribe_audio] raises,
    the run ends with the observation [transcription_error_url], which
    carries the acquired audio path and no transcript, and no file was
    written. In both cases that observation is the last event of the run. *)
Theorem url_failure_observations url name language task ts ef st :
  truthy url = true ->
  exists audio_path video_dir error st1,
    download_youtube_audio W url (push st (Yield downloading))
      = (Ok (audio_path, video_dir, error), st1)
    /\ (error <> None ->
          process_youtube_url W url name language task ts ef st
            = (Ok None, push st1 (Yield (download_error error)))
          /\ obs_audio (download_error error) = None
          /\ obs_text (download_error error) = None
          /\ transcription_ran
               (added (process_youtube_url W url name language task ts ef) st)
             = false
          /\ written
               (added (process_youtube_url W url name language task ts ef) st)
             = [])
    /\ (error = None ->
          audio_path <> None
          /\ forall e st2,
               transcribe_audio W audio_path name language task
                 (push st1 (Yield (transcribing_url name audio_path)))
                 = (Raise e, st2) ->
               process_youtube_url W url name language task ts ef st
                 = (Ok None,
                    push st2 (Yield (transcription_error_url e audio_path)))
               /\ obs_audio (transcription_error_url e audio_path) = audio_path
               /\ obs_text (transcription_error_url e audio_path) = None
               /\ written
                    (added (process_youtube_url W url name language task ts ef)
                           st)
                  = []).
Proof.
  intros Hu.
  destruct (@process_youtube_url_added url name language task ts ef st Hu)
    as (a & d & e & st1 & l1 & Hd & El1 & Hl1 & Hcases).
  destruct (download_youtube_audio_shape url (push st (Yield downloading)))
    as (a' & d' & e' & st1' & Hd' & Hshape).
  rewrite Hd in Hd'. inversion Hd'; subst a' d' e' st1'. clear Hd'.
  exists a, d, e, st1. split; [exact Hd|]. split.
  - intros Hne.
    destruct Hcases as [(He & Hrun & Hadd) | (He & _)].
    + split; [exact Hrun|]. split; [reflexivity|]. split; [reflexivity|].
      rewrite Hadd. split.
      * unfold transcription_ran. rewrite !existsb_app.
        change (existsb is_engine_call l1) with (transcription_ran l1).
        rewrite (@acquisition_no_engine l1 Hl1). reflexivity.
      * rewrite !written_app.
        rewrite (@written_none is_acquisition l1 acquisition_not_write Hl1). reflexivity.
    + destruct Hshape as [(_ & _ & msg & -> & Hm) | (_ & _ & _ & _ & -> & _)].
      * simpl in He. congruence.
      * congruence.
  - intros ->.
    destruct Hshape as [(_ & _ & msg & Hm & _) | (p & dir & -> & -> & _ & Hp)];
      [discriminate|].
    split; [discriminate|].
    intros ex st2 Ht.
    destruct Hcases as [(He & _) | (_ & r & st2' & l2 & last & Hb & El2 & Hl2
                                     & Hlast & Hrun & Hadd)];
      [discriminate|].
    rewrite (@url_try_block_transcription_fails (Some p) (Some dir) name
               language task ts ef _ ex st2 Ht) in Hb.
    inversion Hb; subst r st2'. clear Hb. subst last.
    split; [exact Hrun|]. split; [reflexivity|]. split; [reflexivity|].
    rewrite Hadd, !written_app.
    rewrite (@written_none is_acquisition l1 acquisition_not_write Hl1).
    destruct (only_added (push st1 (Yield (transcribing_url name (Some p))))
                (transcribe_audio_only W (Some p) name language task))
      as [El Hl].
    rewrite Ht in El. cbn [snd] in El. rewrite log_push, El2 in El.
    rewrite <- !app_assoc in El. apply app_inv_head in El.
    simpl in El. inversion El as [El'].
    rewrite (@written_none is_engine_call _ engine_not_write Hl). reflexivity.
Qed.

Lemma carries_blank (o o' : Observation) :
  obs_audio o = None -> obs_text o = None -> obs_detailed o = None ->
  obs_files o = None -> carries o o'.
Proof.
  intros Ha Ht Hd Hf. unfold carries. rewrite Ha, Ht, Hd, Hf.
  repeat split; intros v H; discriminate.
Qed.

Lemma monotone_nil : monotone [].
Proof. intros i j o o' _ H. destruct i; discriminate. Qed.

Lemma monotone_cons (o : Observation) (os : list Observation) :
  (forall o', In o' os -> carries o o') -> monotone os -> monotone (o :: os).
Proof.
  intros Hhead Htail i j x y Hij Hi Hj.
  destruct j as [|j]; [lia|]. simpl in Hj.
  destruct i as [|i]; simpl in Hi.
  - inversion Hi; subst x. apply Hhead. eapply nth_error_In. exact Hj.
  - apply (Htail i j); [lia | exact Hi | exact Hj].
Qed.

Lemma url_observations url name language task ts ef st :
  truthy url = true ->
  (exists e,
     observations (added (process_youtube_url W url name language task ts ef) st)
       = [downloading; download_error e])
  \/ (exists a last,
        observations
          (added (process_youtube_url W url name language task ts ef) st)
          = [downloading; transcribing_url name a; last]
        /\ obs_audio last = a).
Proof.
  intros Hu.
  destruct (@process_youtube_url_added url name language task ts ef st Hu)
    as (a & d & e & st1 & l1 & Hd & El1 & Hl1 & Hcases).
  assert (Hq1 : observations l1 = []).
  { apply observations_silent.
    rewrite forallb_forall in *. intros ev Hev.
    apply acquisition_not_yield. auto. }
  destruct Hcases as [(He & Hrun & Hadd)
                     | (He & r & st2 & l2 & last & Hb & El2 & Hl2
                        & Hlast & Hrun & Hadd)].
  - left. exists e. rewrite Hadd, !observations_app, Hq1. reflexivity.
  - right. exists a, last. split.
    + rewrite Hadd, !observations_app, Hq1, (observations_silent _ Hl2).
      reflexivity.
    + destruct r as [o|ex]; subst last; [|reflexivity].
      destruct (url_try_block_result _ _ _ _ _ _ _ _ Hb)
        as (status & text & detailed & files & ->).
      reflexivity.
Qed.

Lemma upload_observations audio name language task ts ef st :
  exists last,
    observations
      (added (process_file_upload W (Some audio) name language task ts ef) st)
    = [transcribing_upload name; last].
Proof.
  pose proof (process_file_upload_run audio name language task ts ef st) as Hrun.
  destruct (only_added (push st (Yield (transcribing_upload name)))
              (upload_try_block_only W (Some audio) name language task ts ef))
    as [El Hl].
  set (l := added (upload_try_block W (Some audio) name language task ts ef)
                  (push st (Yield (transcribing_upload name)))) in *.
  destruct (upload_try_block W (Some audio) name language task ts ef
              (push st (Yield (transcribing_upload name)))) as [r st2].
  cbn [snd] in El. rewrite log_push in El.
  exists (match r with Ok o => o | Raise ex => transcription_error_upload ex end).
  assert (Hfinal : process_file_upload W (Some audio) name language task ts ef st
                   = (Ok None, push st2 (Yield
                        match r with
                        | Ok o => o
                        | Raise ex => transcription_error_upload ex
                        end))).
  { rewrite Hrun. destruct r; reflexivity. }
  rewrite added_app with
    (l := [Yield (transcribing_upload name)] ++ l
          ++ [Yield match r with
                    | Ok o => o
                    | Raise ex => transcription_error_upload ex
                    end]).
  - rewrite !observations_app, (observations_silent _ Hl). reflexivity.
  - rewrite Hfinal. cbn [snd]. rewrite log_push, El, <- !app_assoc. reflexivity.
Qed.

(** C8. In every run of either entry point the observations are monotone:
    whatever artifact an observation reports (audio path, transcript,
    detailed transcript, export files) is reported, unchanged, by every
    later observation of the run, the last one included. *)
Theorem observations_monotone url audio_file name language task ts ef st :
  monotone
    (observations (added (process_youtube_url W url name language task ts ef) st))
  /\ monotone
       (observations
          (added (process_file_upload W audio_file name language task ts ef) st)).
Proof.
  split.
  - destruct (truthy url) eqn:Hu.
    + destruct (@url_observations url name language task ts ef st Hu)
        as [(e & ->) | (a & last & -> & Ha)].
      * apply monotone_cons; [intros; apply carries_blank; reflexivity|].
        apply monotone_cons; [intros ? []|]. apply monotone_nil.
      * apply monotone_cons; [intros; apply carries_blank; reflexivity|].
        apply monotone_cons; [|apply monotone_cons; [intros ? [] | apply monotone_nil]].
        intros o' [<- | []]. unfold carries. rewrite Ha. simpl.
        repeat split; intros v H; first [exact H | discriminate].
    + rewrite added_app with (l := []); [apply monotone_nil|].
      unfold process_youtube_url. rewrite Hu. simpl. rewrite app_nil_r. reflexivity.
  - destruct audio_file as [audio|].
    + destruct (upload_observations audio name language task ts ef st)
        as (last & ->).
      apply monotone_cons; [intros; apply carries_blank; reflexivity|].
      apply monotone_cons; [intros ? []|]. apply monotone_nil.
    + rewrite added_app with (l := []); [apply monotone_nil|].
      simpl. rewrite app_nil_r. reflexivity.
Qed.

End Pipeline.

(** C1 on the two failing sample environments: with the network down the
    run ends on the download error; with a failing engine it ends on the
    transcription error, which still reports the audio path. *)
Lemma url_failure_observations_witness :
  truthy Sample.url = true
  /\ observations
       (log (snd (process_youtube_url Sample.offline Sample.url Sample.base
                    Sample.auto Sample.transcribe true None init)))
     = [downloading;
        download_error
          (Some (lit "Download failed: unable to download webpage"))]
  /\ observations
       (log (snd (process_youtube_url Sample.deaf Sample.url Sample.base
                    Sample.auto Sample.transcribe true None init)))
     = [downloading;
        transcribing_url Sample.base
          (Some (lit "/app/transcriptions/Talk part 12/audio.mp3"));
        transcription_error_url
          (mk_exn OtherException (lit "Transcription failed: out of memory"))
          (Some (lit "/app/transcriptions/Talk part 12/audio.mp3"))].
Proof.
  split; [reflexivity|]. split.
  - destruct (@url_failure_observations Sample.offline Sample.url Sample.base
                Sample.auto Sample.transcribe true None init eq_refl)
      as (a & d & e & st1 & Hd & Hfail & _).
    vm_compute in Hd. inversion Hd; subst a d e st1. clear Hd.
    destruct Hfail as (Hrun & _); [discriminate|].
    rewrite Hrun. vm_compute. reflexivity.
  - destruct (@url_failure_observations Sample.deaf Sample.url Sample.base
                Sample.auto Sample.transcribe true None init eq_refl)
      as (a & d & e & st1 & Hd & _ & Hok).
    vm_compute in Hd. inversion Hd; subst a d e st1. clear Hd.
    destruct Hok as (_ & Hraise); [reflexivity|].
    edestruct Hraise as (Hrun & _); [vm_compute; reflexivity|].
    rewrite Hrun. vm_compute. reflexivity.
Defined.

(* ===================================================================== *)
(** * Export staging *)
(* ===================================================================== *)

(** The export block of the URL pipeline has no case for "txt": when that
    is the only format selected, nothing is collected for staging. *)
Lemma url_exports_txt_only (W : World) (video_dir : option pystr)
    (result : Result) (st : State) :
  url_exports W video_dir result (Some [lit "txt"]) st = (Ok [], st).
Proof. reflexivity. Qed.

(** The export block of the upload pipeline collects the transcript under
    "txt". *)
Lemma upload_exports_txt_only (W : World) (text : pystr) (result : Result)
    (st : State) :
  upload_exports W text result (Some [lit "txt"]) st
    = (Ok [(lit "txt", text)], st).
Proof. reflexivity. Qed.

Section Staging.
Variable W : World.

Lemma no_selection_no_exports (video_dir : option pystr) (text : pystr)
    (result : Result) (export_formats : option (list pystr)) (st : State) :
  selected export_formats = false ->
  url_exports W video_dir result export_formats st = (Ok [], st)
  /\ upload_exports W text result export_formats st = (Ok [], st).
Proof.
  intros H. unfold url_exports, upload_exports. rewrite H. split; reflexivity.
Qed.

(** The path of the staged file of one entry of [exports]. *)
Lemma export_loop_staged (timestamp : pystr) (exports : dict) :
  (forall l path content, write_file W l path content = Ok tt) ->
  forall files st,
    export_loop W timestamp exports files st
    = (Ok (files
           ++ map (fun kv => os_path_join W (gettempdir W)
                               (staged_name timestamp (fst kv))) exports),
       mk_state (model st) (model_name st)
         (log st
          ++ map (fun kv => WriteFile
                              (os_path_join W (gettempdir W)
                                 (staged_name timestamp (fst kv)))
                              (snd kv)) exports)).
Proof.
  intros Hw. induction exports as [|[k v] rest IH]; intros files st.
  - simpl. unfold Mon.ret. rewrite !app_nil_r. destruct st; reflexivity.
  - simpl export_loop. unfold write_text, Mon.bind, Mon.call.
    rewrite Hw, IH. simpl. rewrite <- !app_assoc. reflexivity.
Qed.

(** [create_export_files] names each file [transcript_<timestamp>.<key>],
    in the temporary directory, in the order of the keys. *)
Lemma create_export_files_staged (exports : dict) (st : State) :
  (forall l path content, write_file W l path content = Ok tt) ->
  exports <> [] ->
  fst (create_export_files W exports st)
  = Ok (Some (map (fun kv => os_path_join W (gettempdir W)
                               (staged_name (strftime (now W (log st)))
                                            (fst kv))) exports)).
Proof.
  intros Hw Hne. unfold create_export_files, Mon.bind, Mon.get.
  rewrite export_loop_staged by exact Hw. simpl.
  destruct exports; [contradiction | reflexivity].
Qed.

Lemma url_exports_keys (video_dir : option pystr) (result : Result)
    (export_formats : option (list pystr)) (st st' : State) (exports : dict) :
  url_exports W video_dir result export_formats st = (Ok exports, st') ->
  map fst exports
  = (if selected export_formats && wants export_formats "srt"
     then [lit "srt"] else [])
    ++ (if selected export_formats && wants export_formats "vtt"
        then [lit "vtt"] else [])
    ++ (if selected export_formats && wants export_formats "json"
        then [lit "json"] else []).
Proof.
  unfold url_exports, write_text, in_dir. unfold_mon.
  destruct (selected export_formats); simpl andb;
    [|intros H; inversion H; reflexivity].
  repeat split_match; intros H; inversion H; subst; try discriminate;
    repeat match goal with
           | E : (_, _) = (_, _) |- _ => inversion E; subst; clear E
           end;
    try discriminate; reflexivity.
Qed.

Lemma upload_exports_keys (text : pystr) (result : Result)
    (export_formats : option (list pystr)) (st st' : State) (exports : dict) :
  upload_exports W text result export_formats st = (Ok exports, st') ->
  map fst exports
  = (if selected export_formats && wants export_formats "txt"
     then [lit "txt"] else [])
    ++ (if selected export_formats && wants export_formats "srt"
        then [lit "srt"] else [])
    ++ (if selected export_formats && wants export_formats "vtt"
        then [lit "vtt"] else [])
    ++ (if selected export_formats && wants export_formats "json"
        then [lit "json"] else []).
Proof.
  unfold upload_exports. unfold_mon.
  destruct (selected export_formats); simpl andb;
    [|intros H; inversion H; reflexivity].
  repeat split_match; intros H; inversion H; subst; try discriminate;
    repeat match goal with
           | E : (_, _) = (_, _) |- _ => inversion E; subst; clear E
           end;
    try discriminate; reflexivity.
Qed.

End Staging.

(** C2, at the input on which the URL pipeline departs from it. On the
    sample environment, with "txt" as the only selected export format, the
    URL pipeline succeeds, its last observation has no export file and the
    only file written is [transcript.txt] of the job directory: no
    [transcript_<timestamp>.txt] is staged. The upload pipeline, on the same
    selection, stages that file. *)
Theorem url_pipeline_does_not_stage_txt :
  let url_run :=
    process_youtube_url Sample.world Sample.url Sample.base Sample.auto
      Sample.transcribe false (Some [lit "txt"]) init in
  let upload_run :=
    process_file_upload Sample.world (Some (lit "/uploads/talk.mp3"))
      Sample.base Sample.auto Sample.transcribe false (Some [lit "txt"]) init in
  fst url_run = Ok None
  /\ map obs_files (observations (log (snd url_run))) = [None; None; None]
  /\ map obs_text (observations (log (snd url_run)))
     = [None; None; Some (lit "Hello world")]
  /\ written (log (snd url_run))
     = [lit "/app/transcriptions/Talk part 12/transcript.txt"]
  /\ map obs_files (observations (log (snd upload_run)))
     = [None; Some [lit "/tmp/transcript_20240309_140507.txt"]]
  /\ written (log (snd upload_run))
     = [lit "/tmp/transcript_20240309_140507.txt"].
Proof. vm_compute. repeat split. Qed.

(* ===================================================================== *)
(** * Floats: sizes and rounding *)
(* ===================================================================== *)

Section Rounding.
Local Open Scope Z_scope.

Lemma digits2_pos_size (p : positive) : digits2_pos p = Pos.size p.
Proof. induction p; simpl; congruence. Qed.

Lemma Zdigits2_log2 (m : Z) : 0 < m -> Zdigits2 m = Z.log2 m + 1.
Proof.
  destruct m as [|p|p]; try lia. intros _. simpl.
  destruct p; simpl; rewrite ?digits2_pos_size; lia.
Qed.

Lemma Zdigits2_nonneg (m : Z) : 0 <= Zdigits2 m.
Proof. destruct m; simpl; lia. Qed.

Lemma Zdigits2_pos (m : Z) : 0 < m -> 0 < Zdigits2 m.
Proof. destruct m; simpl; lia. Qed.

(** [m] has at most [k] binary digits exactly when it is below [2^k]. *)
Lemma Zdigits2_le (m k : Z) : 0 <= m -> 0 <= k -> (Zdigits2 m <= k <-> m < 2 ^ k).
Proof.
  intros Hm Hk. destruct (Z.eq_dec m 0) as [->|Hne].
  - simpl. split; intros; [apply Z.pow_pos_nonneg; lia | lia].
  - rewrite Zdigits2_log2 by lia.
    rewrite (Z.log2_lt_pow2 m k) by lia. lia.
Qed.

Lemma Zdigits2_mono (a b : Z) : 0 <= a -> a <= b -> Zdigits2 a <= Zdigits2 b.
Proof.
  intros Ha Hab.
  apply Zdigits2_le; [lia | apply Zdigits2_nonneg |].
  assert (b < 2 ^ Zdigits2 b).
  { apply Zdigits2_le; [lia | apply Zdigits2_nonneg | lia]. }
  lia.
Qed.

Lemma Zdigits2_shift (m k : Z) :
  0 < m -> 0 <= k -> Zdigits2 (m * 2 ^ k) = Zdigits2 m + k.
Proof.
  intros Hm Hk.
  assert (0 < 2 ^ k) by (apply Z.pow_pos_nonneg; lia).
  rewrite !Zdigits2_log2 by nia.
  rewrite <- Z.shiftl_mul_pow2 by lia.
  rewrite Z.log2_shiftl by lia. lia.
Qed.

Lemma Zdigits2_div (m k : Z) :
  0 <= m -> 0 <= k -> 0 < m / 2 ^ k -> Zdigits2 (m / 2 ^ k) = Zdigits2 m - k.
Proof.
  intros Hm Hk Hq.
  assert (0 < 2 ^ k) by (apply Z.pow_pos_nonneg; lia).
  assert (0 < m).
  { destruct (Z.eq_dec m 0) as [->|]; [rewrite Z.div_0_l in Hq; lia | lia]. }
  rewrite !Zdigits2_log2 by lia.
  rewrite <- Z.shiftr_div_pow2 in * by lia.
  rewrite Z.log2_shiftr by lia.
  assert (0 <= Z.log2 m - k).
  { destruct (Z.le_gt_cases k (Z.log2 m)) as [|Hlt]; [lia|].
    rewrite Z.shiftr_eq_0 in Hq by lia. lia. }
  lia.
Qed.

Lemma Zdigits2_succ (m : Z) : 0 <= m -> Zdigits2 (m + 1) <= Zdigits2 m + 1.
Proof.
  intros Hm.
  apply Zdigits2_le; [lia | pose proof (Zdigits2_nonneg m); lia |].
  assert (m < 2 ^ Zdigits2 m).
  { apply Zdigits2_le; [lia | apply Zdigits2_nonneg | lia]. }
  rewrite Z.pow_add_r by (try apply Zdigits2_nonneg; lia).
  lia.
Qed.

Lemma shr_1_half (mrs : shr_record) :
  0 <= shr_m mrs -> shr_m (shr_1 mrs) = shr_m mrs / 2.
Proof.
  destruct mrs as [m r s]. simpl. intros Hm.
  destruct m as [|[p|p|]|p]; simpl; try reflexivity; try lia.
  - rewrite Pos2Z.inj_xI. Z.to_euclidean_division_equations. lia.
  - rewrite Pos2Z.inj_xO. Z.to_euclidean_division_equations. lia.
Qed.

Lemma iter_shr_1 (p : positive) :
  forall mrs, 0 <= shr_m mrs ->
    shr_m (iter_pos shr_1 p mrs) = shr_m mrs / 2 ^ Zpos p.
Proof.
  induction p as [p IH | p IH |]; intros mrs Hm; simpl iter_pos.
  - assert (H1 : 0 <= shr_m (shr_1 mrs)).
    { rewrite shr_1_half by exact Hm. apply Z.div_pos; lia. }
    assert (H2 : 0 <= shr_m (iter_pos shr_1 p (shr_1 mrs))).
    { rewrite IH by exact H1. apply Z.div_pos; [exact H1|].
      apply Z.pow_pos_nonneg; lia. }
    rewrite IH by exact H2. rewrite IH by exact H1. rewrite shr_1_half by exact Hm.
    assert (0 < 2 ^ Zpos p) by (apply Z.pow_pos_nonneg; lia).
    rewrite !Z.div_div by lia.
    rewrite (Pos2Z.inj_xI p).
    rewrite (Z.pow_add_r 2 (2 * Z.pos p) 1) by lia.
    rewrite (Z.pow_mul_r 2 2 (Z.pos p)) by lia.
    change (2 ^ 2) with (2 * 2). rewrite Z.pow_mul_l, Z.pow_1_r.
    f_equal. lia.
  - assert (H2 : 0 <= shr_m (iter_pos shr_1 p mrs)).
    { rewrite IH by exact Hm. apply Z.div_pos; [exact Hm|].
      apply Z.pow_pos_nonneg; lia. }
    rewrite IH by exact H2. rewrite IH by exact Hm.
    assert (0 < 2 ^ Zpos p) by (apply Z.pow_pos_nonneg; lia).
    rewrite !Z.div_div by lia.
    rewrite (Pos2Z.inj_xO p).
    rewrite (Z.pow_mul_r 2 2 (Z.pos p)) by lia.
    change (2 ^ 2) with (2 * 2). rewrite Z.pow_mul_l. reflexivity.
  - rewrite shr_1_half by exact Hm. reflexivity.
Qed.

Lemma shr_record_of_loc_m (m : Z) (l : location) :
  shr_m (shr_record_of_loc m l) = m.
Proof. destruct l as [|[| |]]; reflexivity. Qed.

(** What the alignment shift of the rounding does to a non-negative
    mantissa. *)
Lemma shr_fexp_spec (m e : Z) (l : location) :
  0 <= m ->
  let n := Z.max 0 (fexp 53 1024 (Zdigits2 m + e) - e) in
  shr_m (fst (shr_fexp 53 1024 m e l)) = m / 2 ^ n
  /\ snd (shr_fexp 53 1024 m e l) = e + n.
Proof.
  intros Hm n. unfold shr_fexp, shr. subst n.
  destruct (fexp 53 1024 (Zdigits2 m + e) - e) as [|p|p] eqn:E; simpl fst; simpl snd.
  - rewrite shr_record_of_loc_m. simpl. rewrite Z.div_1_r. split; [reflexivity | lia].
  - rewrite iter_shr_1 by (rewrite shr_record_of_loc_m; exact Hm).
    rewrite shr_record_of_loc_m.
    replace (Z.max 0 (Z.pos p)) with (Z.pos p) by lia. split; reflexivity.
  - rewrite shr_record_of_loc_m.
    replace (Z.max 0 (Z.neg p)) with 0 by lia.
    simpl. rewrite Z.div_1_r. split; [reflexivity | lia].
Qed.

Lemma round_nearest_even_bounds (m : Z) (l : location) :
  m <= round_nearest_even m l <= m + 1.
Proof.
  unfold round_nearest_even. destruct l as [|[| |]]; try lia.
  destruct (Z.even m); lia.
Qed.

(** Rounding a mantissa of magnitude below [2^B] gives a zero or a finite
    number of magnitude below [2^(B+1)]. *)
Lemma round_aux_below (sx : bool) (m e : Z) (l : location) (B : Z) :
  0 <= m -> Zdigits2 m + e <= B -> e <= B -> e <= 971 ->
  -1074 <= B -> B <= 1023 ->
  below (B + 1) (binary_round_aux 53 1024 sx m e l).
Proof.
  intros Hm HB HeB He HBlo HBhi. unfold binary_round_aux.
  destruct (shr_fexp_spec e l Hm) as [Hm1 He1].
  destruct (shr_fexp 53 1024 m e l) as [mrs1 e1]. simpl fst in Hm1. simpl snd in He1.
  set (n1 := Z.max 0 (fexp 53 1024 (Zdigits2 m + e) - e)) in *.
  assert (Hn1 : 0 <= n1) by (subst n1; lia).
  assert (Hp1 : 0 < 2 ^ n1) by (apply Z.pow_pos_nonneg; lia).
  assert (Hm1' : 0 <= shr_m mrs1) by (rewrite Hm1; apply Z.div_pos; lia).
  pose proof (round_nearest_even_bounds (shr_m mrs1) (loc_of_shr_record mrs1))
    as Hr.
  set (m2 := round_nearest_even (shr_m mrs1) (loc_of_shr_record mrs1)) in *.
  assert (Hm2 : 0 <= m2) by lia.
  assert (He1B : e1 <= B /\ e1 <= 971).
  { subst e1 n1. unfold fexp, emin. lia. }
  assert (Hd2 : Zdigits2 m2 + e1 <= B + 1).
  { destruct (Z.eq_dec (shr_m mrs1) 0) as [Hz|Hnz].
    - assert (Zdigits2 m2 <= 1).
      { apply Zdigits2_le; [lia | lia | simpl; lia]. }
      lia.
    - assert (Zdigits2 (shr_m mrs1) = Zdigits2 m - n1).
      { rewrite Hm1. apply Zdigits2_div; [lia | lia | rewrite <- Hm1; lia]. }
      pose proof (Zdigits2_mono Hm2 (proj2 Hr)).
      pose proof (Zdigits2_succ Hm1'). lia. }
  destruct (shr_fexp_spec e1 loc_Exact Hm2) as [Hm3 He3].
  destruct (shr_fexp 53 1024 m2 e1 loc_Exact) as [mrs3 e3].
  simpl fst in Hm3. simpl snd in He3.
  set (n2 := Z.max 0 (fexp 53 1024 (Zdigits2 m2 + e1) - e1)) in *.
  assert (Hn2 : 0 <= n2) by (subst n2; lia).
  assert (Hp2 : 0 < 2 ^ n2) by (apply Z.pow_pos_nonneg; lia).
  assert (He3' : e3 <= 971).
  { subst e3 n2. unfold fexp, emin. lia. }
  destruct (shr_m mrs3) as [|p|p] eqn:E3.
  - exact I.
  - replace (e3 <=? 1024 - 53) with true by (symmetry; apply Z.leb_le; lia).
    unfold below. split; [|exact He3'].
    assert (Zdigits2 (m2 / 2 ^ n2) = Zdigits2 m2 - n2).
    { apply Zdigits2_div; [lia | lia | rewrite <- Hm3; lia]. }
    rewrite <- Hm3 in H. lia.
  - assert (0 <= m2 / 2 ^ n2) by (apply Z.div_pos; lia). lia.
Qed.

Lemma digits2_pos_iter_xO (p d : positive) :
  digits2_pos (Pos.iter xO p d) = (digits2_pos p + d)%positive.
Proof.
  induction d as [|d IH] using Pos.peano_ind.
  - simpl. lia.
  - rewrite Pos.iter_succ. simpl. rewrite IH. lia.
Qed.

(** The alignment before rounding keeps the magnitude and lowers the
    exponent to the smaller of the two. *)
Lemma shl_align_spec (mx : positive) (ex ex' : Z) :
  Zdigits2 (Zpos (fst (shl_align mx ex ex'))) + snd (shl_align mx ex ex')
    = Zdigits2 (Zpos mx) + ex
  /\ snd (shl_align mx ex ex') = Z.min ex ex'.
Proof.
  unfold shl_align. destruct (ex' - ex) as [|d|d] eqn:E; simpl fst; simpl snd.
  - lia.
  - lia.
  - cbn [Zdigits2]. rewrite digits2_pos_iter_xO. lia.
Qed.

Lemma round_below (sx : bool) (p : positive) (e B : Z) :
  Zdigits2 (Zpos p) + e <= B -> -1074 <= B -> B <= 1023 ->
  below (B + 1) (binary_round 53 1024 sx p e).
Proof.
  intros HB Hlo Hhi. unfold binary_round.
  destruct (shl_align_spec p e (fexp 53 1024 (Zpos (digits2_pos p) + e)))
    as [Hd He].
  destruct (shl_align p e (fexp 53 1024 (Zpos (digits2_pos p) + e)))
    as [mz ez].
  simpl fst in Hd. simpl snd in Hd, He.
  change (Zpos (digits2_pos p)) with (Zdigits2 (Zpos p)) in He.
  assert (Hez : ez <= B /\ ez <= 971).
  { rewrite He. unfold fexp, emin. lia. }
  apply round_aux_below; lia.
Qed.

Lemma normalize_below (z e : Z) (sz : bool) (B : Z) :
  Zdigits2 z + e <= B -> -1074 <= B -> B <= 1023 ->
  below (B + 1) (binary_normalize 53 1024 z e sz).
Proof.
  intros HB Hlo Hhi. destruct z as [|p|p]; simpl binary_normalize.
  - exact I.
  - apply round_below; assumption.
  - apply round_below; assumption.
Qed.

Lemma below_weaken (B B' : Z) (x : PyFloat.float) :
  B <= B' -> below B x -> below B' x.
Proof. destruct x; simpl; auto. intros; lia. Qed.

Lemma below_finite (B : Z) (x : PyFloat.float) :
  below B x -> PyFloat.is_finite x = true.
Proof. destruct x; simpl; auto. Qed.

Lemma to_int_below (B : Z) (x : PyFloat.float) :
  below B x -> exists z, PyFloat.to_int x = Ok z.
Proof. destruct x; simpl; try contradiction; intros _; eexists; reflexivity. Qed.

Lemma Zdigits2_abs (z : Z) : Zdigits2 z = Zdigits2 (Z.abs z).
Proof. destruct z; reflexivity. Qed.

Lemma Zdigits2_sum (a b D : Z) :
  0 <= a -> 0 <= b -> Zdigits2 a <= D -> Zdigits2 b <= D ->
  Zdigits2 (a + b) <= D + 1.
Proof.
  intros Ha Hb HDa HDb.
  assert (0 <= D) by (pose proof (Zdigits2_nonneg a); lia).
  apply Zdigits2_le; [lia | lia |].
  apply Zdigits2_le in HDa; [|lia|lia].
  apply Zdigits2_le in HDb; [|lia|lia].
  rewrite Z.pow_add_r by lia. lia.
Qed.

Lemma Zdigits2_mul (a b : positive) :
  Zdigits2 (Zpos (a * b)) <= Zdigits2 (Zpos a) + Zdigits2 (Zpos b).
Proof.
  pose proof (@Zdigits2_pos (Zpos a) ltac:(lia)).
  pose proof (@Zdigits2_pos (Zpos b) ltac:(lia)).
  apply Zdigits2_le; [lia | lia |].
  assert (Zpos a < 2 ^ Zdigits2 (Zpos a))
    by (apply Zdigits2_le; lia).
  assert (Zpos b < 2 ^ Zdigits2 (Zpos b))
    by (apply Zdigits2_le; lia).
  rewrite Z.pow_add_r by lia. rewrite Pos2Z.inj_mul. nia.
Qed.

Lemma abs_cond_Zopp (b : bool) (z : Z) : Z.abs (cond_Zopp b z) = Z.abs z.
Proof. destruct b; simpl; lia. Qed.

Lemma fmod_below (x : PyFloat.float) (sy : bool) (my : positive) (ey B : Z) :
  PyFloat.is_finite x = true ->
  Zdigits2 (Zpos my) + ey <= B -> -1074 <= B -> B <= 1023 ->
  below (B + 1) (PyFloat.fmod x (S754_finite sy my ey)).
Proof.
  intros Hx HB Hlo Hhi. destruct x as [s|s| |s m e]; try discriminate.
  - exact I.
  - unfold PyFloat.fmod.
    set (ez := Z.min e ey).
    set (X := Z.pos m * 2 ^ (e - ez)).
    set (Y := Z.pos my * 2 ^ (ey - ez)).
    assert (0 < 2 ^ (e - ez)) by (apply Z.pow_pos_nonneg; lia).
    assert (0 < 2 ^ (ey - ez)) by (apply Z.pow_pos_nonneg; lia).
    assert (HX : 0 <= X) by (subst X; nia).
    assert (HY : 0 < Y) by (subst Y; nia).
    pose proof (Z.rem_bound_pos X Y HX HY) as Hr.
    assert (HDY : Zdigits2 Y = Zdigits2 (Zpos my) + (ey - ez)).
    { subst Y. apply Zdigits2_shift; lia. }
    destruct (Z.rem X Y) as [|p|p] eqn:Er.
    + exact I.
    + apply normalize_below; [|lia|lia].
      rewrite Zdigits2_abs, abs_cond_Zopp. simpl Z.abs.
      assert (Zdigits2 (Zpos p) <= Zdigits2 Y) by (apply Zdigits2_mono; lia).
      lia.
    + lia.
Qed.

Lemma sum_below (sx sy : bool) (mx my : positive) (ex ey B : Z)
    (combine : Z -> Z -> Z) :
  (forall a b, Z.abs (combine a b) <= Z.abs a + Z.abs b) ->
  Zdigits2 (Zpos mx) + ex <= B - 1 -> Zdigits2 (Zpos my) + ey <= B - 1 ->
  -1074 <= B -> B <= 1023 ->
  below (B + 1)
    (binary_normalize 53 1024
       (combine (cond_Zopp sx (Zpos (fst (shl_align mx ex (Z.min ex ey)))))
                (cond_Zopp sy (Zpos (fst (shl_align my ey (Z.min ex ey))))))
       (Z.min ex ey) false).
Proof.
  intros Hc Hx Hy Hlo Hhi.
  destruct (shl_align_spec mx ex (Z.min ex ey)) as [Hdx Hsx].
  destruct (shl_align_spec my ey (Z.min ex ey)) as [Hdy Hsy].
  set (X := fst (shl_align mx ex (Z.min ex ey))) in *.
  set (Y := fst (shl_align my ey (Z.min ex ey))) in *.
  apply normalize_below; [|lia|lia].
  rewrite Zdigits2_abs.
  pose proof (Hc (cond_Zopp sx (Zpos X)) (cond_Zopp sy (Zpos Y))) as Habs.
  rewrite !abs_cond_Zopp in Habs. simpl Z.abs in Habs.
  assert (Zdigits2 (Z.abs (combine (cond_Zopp sx (Zpos X))
                                   (cond_Zopp sy (Zpos Y))))
          <= Zdigits2 (Zpos X + Zpos Y))
    by (apply Zdigits2_mono; lia).
  assert (Zdigits2 (Zpos X + Zpos Y) <= B - Z.min ex ey)
    by (replace (B - Z.min ex ey) with (B - 1 - Z.min ex ey + 1) by lia;
        apply Zdigits2_sum; lia).
  lia.
Qed.

Lemma add_below (x y : PyFloat.float) (Bx By B : Z) :
  below Bx x -> below By y -> Bx <= B - 1 -> By <= B - 1 ->
  -1074 <= B -> B <= 1023 ->
  below (B + 1) (PyFloat.add x y).
Proof.
  intros Hx Hy HBx HBy Hlo Hhi.
  destruct x as [sx| | |sx mx ex]; try contradiction;
    destruct y as [sy| | |sy my ey]; try contradiction.
  - destruct sx, sy; exact I.
  - apply below_weaken with (B := By); [lia | exact Hy].
  - apply below_weaken with (B := Bx); [lia | exact Hx].
  - unfold below in Hx, Hy. unfold PyFloat.add, SFadd.
    apply (@sum_below sx sy mx my ex ey B Z.add); intros; lia.
Qed.

Lemma sub_below (x y : PyFloat.float) (Bx By B : Z) :
  below Bx x -> below By y -> Bx <= B - 1 -> By <= B - 1 ->
  -1074 <= B -> B <= 1023 ->
  below (B + 1) (PyFloat.sub x y).
Proof.
  intros Hx Hy HBx HBy Hlo Hhi.
  destruct x as [sx| | |sx mx ex]; try contradiction;
    destruct y as [sy| | |sy my ey]; try contradiction.
  - destruct sx, sy; exact I.
  - apply below_weaken with (B := By); [lia | exact Hy].
  - apply below_weaken with (B := Bx); [lia | exact Hx].
  - unfold below in Hx, Hy. unfold PyFloat.sub, SFsub.
    apply (@sum_below sx sy mx my ex ey B Z.sub); intros; lia.
Qed.

Lemma mul_below (x y : PyFloat.float) (Bx By : Z) :
  below Bx x -> below By y -> -1074 <= Bx + By -> Bx + By <= 973 ->
  below (Bx + By + 1) (PyFloat.mul x y).
Proof.
  intros Hx Hy Hlo Hhi.
  destruct x as [sx| | |sx mx ex]; try contradiction;
    destruct y as [sy| | |sy my ey]; try contradiction; try exact I.
  unfold below in Hx, Hy. unfold PyFloat.mul, SFmul.
  pose proof (Zdigits2_mul mx my).
  pose proof (@Zdigits2_pos (Zpos mx) ltac:(lia)).
  pose proof (@Zdigits2_pos (Zpos my) ltac:(lia)).
  apply round_aux_below; lia.
Qed.

Lemma rem_below (x : PyFloat.float) (sy : bool) (my : positive) (ey B : Z) :
  PyFloat.is_finite x = true ->
  Zdigits2 (Zpos my) + ey <= B -> ey <= 971 -> -1074 <= B -> B <= 1020 ->
  exists r, PyFloat.rem x (S754_finite sy my ey) = Ok r /\ below (B + 3) r.
Proof.
  intros Hx HB Hey Hlo Hhi. unfold PyFloat.rem. simpl PyFloat.is_zero. cbv iota.
  eexists. split; [reflexivity|].
  pose proof (@fmod_below x sy my ey B Hx HB Hlo ltac:(lia)) as Hm.
  destruct (negb (PyFloat.is_zero _)); [|exact I].
  destruct (negb _).
  - replace (B + 3) with ((B + 2) + 1) by lia.
    apply add_below with (Bx := B + 1) (By := B); try lia; [exact Hm|].
    unfold below. lia.
  - apply below_weaken with (B := B + 1); [lia | exact Hm].
Qed.

Lemma Zdigits2_quot (a b : Z) :
  0 <= a -> 0 < b ->
  Zdigits2 (a / b) <= Z.max 0 (Zdigits2 a - Zdigits2 b + 1).
Proof.
  intros Ha Hb.
  assert (Hq : 0 <= a / b) by (apply Z.div_pos; lia).
  destruct (Z.eq_dec (a / b) 0) as [->|Hne]; [simpl; lia|].
  assert (Hab : b <= a).
  { destruct (Z.lt_ge_cases a b) as [Hlt|]; [|lia].
    rewrite Z.div_small in Hne by lia. lia. }
  pose proof (@Zdigits2_mono b a ltac:(lia) Hab) as Hmono.
  pose proof (@Zdigits2_pos b Hb) as Hdb.
  set (k := Zdigits2 a - Zdigits2 b + 1) in *.
  assert (Hk : 0 <= k) by (subst k; lia).
  replace (Z.max 0 k) with k by lia.
  apply Zdigits2_le; [lia | lia |].
  apply Z.div_lt_upper_bound; [lia|].
  assert (Hla : a < 2 ^ Zdigits2 a)
    by (apply Zdigits2_le; [lia | apply Zdigits2_nonneg | lia]).
  assert (Hlb : 2 ^ (Zdigits2 b - 1) <= b).
  { rewrite Zdigits2_log2 by lia.
    replace (Z.log2 b + 1 - 1) with (Z.log2 b) by lia.
    apply Z.log2_spec. lia. }
  replace (Zdigits2 a) with (Zdigits2 b - 1 + k) in Hla by (subst k; lia).
  rewrite Z.pow_add_r in Hla by lia.
  assert (0 < 2 ^ k) by (apply Z.pow_pos_nonneg; lia).
  nia.
Qed.

Lemma div_below (x : PyFloat.float) (sy : bool) (my : positive) (ey Bx B : Z) :
  below Bx x ->
  Bx - (Zdigits2 (Zpos my) + ey) + 1 <= B -> -1074 <= B -> B <= 1023 ->
  below (B + 1) (PyFloat.div x (S754_finite sy my ey)).
Proof.
  intros Hx HB Hlo Hhi.
  destruct x as [sx| | |sx mx ex]; try contradiction; [exact I|].
  unfold below in Hx.
  unfold PyFloat.div, SFdiv, SFdiv_core_binary, PyFloat.prec, PyFloat.emax.
  cbv zeta.
  set (e' := Z.min (fexp 53 1024 (Zdigits2 (Zpos mx) + ex
                                  - (Zdigits2 (Zpos my) + ey))) (ex - ey)).
  set (m' := match ex - ey - e' with
             | 0 => Zpos mx
             | Zpos _ => Z.shiftl (Zpos mx) (ex - ey - e')
             | Zneg _ => 0
             end).
  assert (Hs : 0 <= ex - ey - e') by (subst e'; lia).
  assert (Hm' : m' = Zpos mx * 2 ^ (ex - ey - e')).
  { subst m'. destruct (ex - ey - e') as [|p|p] eqn:E.
    - simpl. lia.
    - rewrite Z.shiftl_mul_pow2 by lia. reflexivity.
    - lia. }
  assert (Hdm' : Zdigits2 m' = Zdigits2 (Zpos mx) + (ex - ey - e')).
  { rewrite Hm'. apply Zdigits2_shift; lia. }
  assert (Hm'0 : 0 <= m').
  { rewrite Hm'. assert (0 < 2 ^ (ex - ey - e')) by (apply Z.pow_pos_nonneg; lia).
    nia. }
  pose proof (@Zdigits2_quot m' (Zpos my) Hm'0 ltac:(lia)) as Hq.
  assert (Hq0 : 0 <= m' / Zpos my) by (apply Z.div_pos; lia).
  unfold Z.div in Hq, Hq0.
  destruct (Z.div_eucl m' (Zpos my)) as [q r]. cbv beta iota.
  assert (He' : e' <= B /\ e' <= 971).
  { subst e'. unfold fexp, emin. lia. }
  apply round_aux_below; lia.
Qed.

Lemma floor_below (x : PyFloat.float) (B : Z) :
  below B x -> B <= 1020 -> below (Z.max B 0 + 2) (PyFloat.floor x).
Proof.
  intros Hx Hhi.
  destruct x as [sx| | |sx mx ex]; try contradiction; [exact I|].
  unfold PyFloat.floor. destruct (0 <=? ex) eqn:E.
  - apply below_weaken with (B := B); [lia | exact Hx].
  - apply Z.leb_gt in E. unfold below in Hx.
    set (k := - ex) in *.
    assert (Hk : 0 < 2 ^ k) by (apply Z.pow_pos_nonneg; lia).
    assert (Hq : Z.abs (cond_Zopp sx (Zpos mx) / 2 ^ k) <= Zpos mx / 2 ^ k + 1).
    { destruct sx; simpl cond_Zopp.
      - change (Z.neg mx) with (- Zpos mx).
        Z.to_euclidean_division_equations. nia.
      - assert (0 <= Zpos mx / 2 ^ k) by (apply Z.div_pos; lia). lia. }
    assert (Hd : Zdigits2 (Zpos mx / 2 ^ k) <= Z.max 0 B).
    { destruct (Z.eq_dec (Zpos mx / 2 ^ k) 0) as [->|Hne]; [simpl; lia|].
      assert (0 <= Zpos mx / 2 ^ k) by (apply Z.div_pos; lia).
      rewrite Zdigits2_div by lia. lia. }
    assert (Hd' : Zdigits2 (cond_Zopp sx (Zpos mx) / 2 ^ k) <= Z.max 0 B + 1).
    { rewrite Zdigits2_abs.
      assert (0 <= Zpos mx / 2 ^ k) by (apply Z.div_pos; lia).
      pose proof (@Zdigits2_mono (Z.abs (cond_Zopp sx (Zpos mx) / 2 ^ k))
                    (Zpos mx / 2 ^ k + 1) ltac:(lia) Hq).
      pose proof (@Zdigits2_succ (Zpos mx / 2 ^ k) ltac:(lia)).
      lia. }
    destruct (cond_Zopp sx (Zpos mx) / 2 ^ k) as [|p|p] eqn:Eq.
    + exact I.
    + replace (Z.max B 0 + 2) with ((Z.max 0 B + 1) + 1) by lia.
      apply normalize_below; lia.
    + replace (Z.max B 0 + 2) with ((Z.max 0 B + 1) + 1) by lia.
      apply normalize_below; lia.
Qed.

(** The floor division by a constant of ordinary size returns a finite
    number on every finite input of magnitude below [2^1000]. *)
Lemma floordiv_total (x : PyFloat.float) (sy : bool) (my : positive) (ey : Z) :
  below 1000 x ->
  1 <= Zdigits2 (Zpos my) + ey <= 12 -> ey <= 971 ->
  exists q, PyFloat.floordiv x (S754_finite sy my ey) = Ok q
            /\ PyFloat.is_finite q = true.
Proof.
  intros Hx HL Hey.
  enough (H : match PyFloat.floordiv x (S754_finite sy my ey) with
              | Ok q => PyFloat.is_finite q = true
              | Raise _ => False
              end).
  { destruct (PyFloat.floordiv x (S754_finite sy my ey)) as [q|e];
      [exists q; auto | contradiction]. }
  unfold PyFloat.floordiv.
  change (PyFloat.is_zero (S754_finite sy my ey)) with false.
  cbv beta iota zeta.
  set (y := S754_finite sy my ey).
  assert (Hm : below 13 (PyFloat.fmod x y)).
  { apply below_weaken with (B := 12 + 1); [lia|].
    apply fmod_below; [apply (@below_finite _ _ Hx) | lia | lia | lia]. }
  assert (Hs : below 1002 (PyFloat.sub x (PyFloat.fmod x y))).
  { change 1002 with (1001 + 1).
    apply sub_below with (Bx := 1000) (By := 13); try lia; assumption. }
  assert (Hd : below 1003 (PyFloat.div (PyFloat.sub x (PyFloat.fmod x y)) y)).
  { change 1003 with (1002 + 1).
    apply div_below with (Bx := 1002); try lia. exact Hs. }
  set (d0 := PyFloat.div (PyFloat.sub x (PyFloat.fmod x y)) y) in *.
  assert (Hone : below 1 (PyFloat.of_int 1)).
  { unfold below. vm_compute. split; discriminate. }
  set (d := if negb (PyFloat.is_zero (PyFloat.fmod x y))
            then if negb (Bool.eqb (PyFloat.is_neg y)
                                   (PyFloat.is_neg (PyFloat.fmod x y)))
                 then PyFloat.sub d0 (PyFloat.of_int 1) else d0
            else d0).
  assert (Hd' : below 1005 d).
  { subst d. destruct (negb (PyFloat.is_zero _));
      [|apply below_weaken with (B := 1003); [lia | exact Hd]].
    destruct (negb (Bool.eqb _ _));
      [|apply below_weaken with (B := 1003); [lia | exact Hd]].
    change 1005 with (1004 + 1).
    apply sub_below with (Bx := 1003) (By := 1); try lia; assumption. }
  destruct (negb (PyFloat.is_zero d)); [|reflexivity].
  assert (Hf : below 1007 (PyFloat.floor d)).
  { apply below_weaken with (B := Z.max 1005 0 + 2); [lia|].
    apply floor_below; [exact Hd' | lia]. }
  destruct (PyFloat.ltb _ _).
  - apply below_finite with (B := 1008 + 1).
    apply add_below with (Bx := 1007) (By := 1); try lia; assumption.
  - apply (@below_finite _ _ Hf).
Qed.

(** The millisecond field exists for every finite input. *)
Lemma millis_total (s : PyFloat.float) :
  PyFloat.is_finite s = true ->
  exists r millis,
    PyFloat.rem s (PyFloat.of_int 1) = Ok r
    /\ PyFloat.to_int (PyFloat.mul r (PyFloat.of_int 1000)) = Ok millis.
Proof.
  intros Hs.
  change (PyFloat.of_int 1) with (S754_finite false 4503599627370496 (-52)).
  change (PyFloat.of_int 1000) with (S754_finite false 8796093022208000 (-43)).
  destruct (@rem_below s false 4503599627370496 (-52) 1 Hs)
    as (r & Hr & Hb); [vm_compute; discriminate | lia | lia | lia |].
  exists r.
  assert (Hm : below (4 + 10 + 1)
                 (PyFloat.mul r (S754_finite false 8796093022208000 (-43)))).
  { apply mul_below; [exact Hb | | lia | lia].
    unfold below. split; [vm_compute; discriminate | lia]. }
  destruct (@to_int_below _ _ Hm) as [z Hz].
  exists z. auto.
Qed.

(** The hour field exists only for finite inputs. *)
Lemma hours_finite (s : PyFloat.float) (q : PyFloat.float) (hours : Z) :
  PyFloat.floordiv s (PyFloat.of_int 3600) = Ok q ->
  PyFloat.to_int q = Ok hours ->
  PyFloat.is_finite s = true.
Proof.
  destruct s as [b|b| |b m e]; try reflexivity.
  - intros H. vm_compute in H. inversion H; subst q. discriminate.
  - intros H. vm_compute in H. inversion H; subst q. discriminate.
Qed.

End Rounding.

Section Totality.

Lemma to_int_finite (x : PyFloat.float) :
  PyFloat.is_finite x = true -> exists z, PyFloat.to_int x = Ok z.
Proof. destruct x; try discriminate; intros _; eexists; reflexivity. Qed.

(** The plain formatter returns on every finite input of magnitude below
    [2^1000]. *)
Lemma format_timestamp_total (s : PyFloat.float) :
  below 1000 s -> exists clock, format_timestamp s = Ok clock.
Proof.
  intros Hs. unfold format_timestamp.
  change (PyFloat.of_int 3600) with (S754_finite false 7916483719987200 (-41)).
  change (PyFloat.of_int 60) with (S754_finite false 8444249301319680 (-47)).
  destruct (@floordiv_total s false 7916483719987200 (-41) Hs)
    as (q & Hq & Hqf); [vm_compute; split; discriminate | lia |].
  destruct (to_int_finite q Hqf) as [hours Hh].
  destruct (@rem_below s false 7916483719987200 (-41) 12 (@below_finite _ _ Hs))
    as (r1 & Hr1 & Hb1); [vm_compute; discriminate | lia | lia | lia |].
  destruct (@floordiv_total r1 false 8444249301319680 (-47))
    as (q2 & Hq2 & Hq2f);
    [apply below_weaken with (B := 12 + 3); [lia | exact Hb1]
    | vm_compute; split; discriminate | lia |].
  destruct (to_int_finite q2 Hq2f) as [minutes Hm].
  destruct (@rem_below s false 8444249301319680 (-47) 6 (@below_finite _ _ Hs))
    as (r2 & Hr2 & Hb2); [vm_compute; discriminate | lia | lia | lia |].
  destruct (@to_int_below _ _ Hb2) as [secs Hsec].
  rewrite Hq. cbn [Exc.bind]. rewrite Hh. cbn [Exc.bind].
  rewrite Hr1. cbn [Exc.bind]. rewrite Hq2. cbn [Exc.bind].
  rewrite Hm. cbn [Exc.bind]. rewrite Hr2. cbn [Exc.bind].
  rewrite Hsec. cbn [Exc.bind]. eexists. reflexivity.
Qed.

End Totality.

(* ===================================================================== *)
(** * The three timestamp formats *)
(* ===================================================================== *)

(** The three formatters on one input: the fields they share, and the three
    strings built from them. *)
Lemma timestamp_fields (s : PyFloat.float) (clock : pystr) :
  format_timestamp s = Ok clock ->
  exists hours minutes secs millis,
    Exc.bind (PyFloat.floordiv s (PyFloat.of_int 3600)) PyFloat.to_int
      = Ok hours
    /\ Exc.bind (PyFloat.rem s (PyFloat.of_int 3600))
         (fun r => Exc.bind (PyFloat.floordiv r (PyFloat.of_int 60))
                            PyFloat.to_int)
       = Ok minutes
    /\ Exc.bind (PyFloat.rem s (PyFloat.of_int 60)) PyFloat.to_int = Ok secs
    /\ Exc.bind (PyFloat.rem s (PyFloat.of_int 1))
         (fun r => PyFloat.to_int (PyFloat.mul r (PyFloat.of_int 1000)))
       = Ok millis
    /\ clock = hms hours minutes secs
    /\ format_srt_timestamp s
       = Ok (hms hours minutes secs ++ lit "," ++ format_0d 3 millis)
    /\ format_vtt_timestamp s
       = Ok (hms hours minutes secs ++ lit "." ++ format_0d 3 millis).
Proof.
  unfold format_timestamp, format_srt_timestamp, format_vtt_timestamp, hms.
  destruct (PyFloat.floordiv s (PyFloat.of_int 3600)) as [q|e] eqn:Hq;
    cbn [Exc.bind]; [|discriminate].
  destruct (PyFloat.to_int q) as [hours|e] eqn:Hh;
    cbn [Exc.bind]; [|discriminate].
  destruct (PyFloat.rem s (PyFloat.of_int 3600)) as [r1|e] eqn:Hr1;
    cbn [Exc.bind]; [|discriminate].
  destruct (PyFloat.floordiv r1 (PyFloat.of_int 60)) as [q2|e] eqn:Hq2;
    cbn [Exc.bind]; [|discriminate].
  destruct (PyFloat.to_int q2) as [minutes|e] eqn:Hm;
    cbn [Exc.bind]; [|discriminate].
  destruct (PyFloat.rem s (PyFloat.of_int 60)) as [r2|e] eqn:Hr2;
    cbn [Exc.bind]; [|discriminate].
  destruct (PyFloat.to_int r2) as [secs|e] eqn:Hs;
    cbn [Exc.bind]; [|discriminate].
  intros Hclock.
  destruct (@millis_total s (@hours_finite s q hours Hq Hh))
    as (r & millis & Hr & Hms).
  rewrite Hr. cbn [Exc.bind]. rewrite Hms. cbn [Exc.bind].
  exists hours, minutes, secs, millis.
  rewrite <- !app_assoc.
  repeat split; try reflexivity. congruence.
Qed.

Lemma timestamp_raises (s : PyFloat.float) (e : exn) :
  format_timestamp s = Raise e ->
  format_srt_timestamp s = Raise e /\ format_vtt_timestamp s = Raise e.
Proof.
  unfold format_timestamp, format_srt_timestamp, format_vtt_timestamp.
  destruct (PyFloat.floordiv s (PyFloat.of_int 3600)) as [q|e1];
    cbn [Exc.bind]; [|auto].
  destruct (PyFloat.to_int q) as [hours|e1]; cbn [Exc.bind]; [|auto].
  destruct (PyFloat.rem s (PyFloat.of_int 3600)) as [r1|e1];
    cbn [Exc.bind]; [|auto].
  destruct (PyFloat.floordiv r1 (PyFloat.of_int 60)) as [q2|e1];
    cbn [Exc.bind]; [|auto].
  destruct (PyFloat.to_int q2) as [minutes|e1]; cbn [Exc.bind]; [|auto].
  destruct (PyFloat.rem s (PyFloat.of_int 60)) as [r2|e1];
    cbn [Exc.bind]; [|auto].
  destruct (PyFloat.to_int r2) as [secs|e1]; cbn [Exc.bind]; [|auto].
  discriminate.
Qed.

(** C5. On every finite input of magnitude below [2^1000], the non-negative
    ones among them, the three formatters return: there are four integers
    (hours, minutes, seconds, milliseconds), computed by the expressions the
    three formatters share, such that the plain formatter returns HH:MM:SS,
    the SRT formatter HH:MM:SS followed by a comma and the three millisecond
    digits, and the WebVTT formatter the same with a period in place of the
    comma. On every other input the three formatters agree as well: either
    they return strings of that form, or they raise the same exception. *)
Theorem timestamp_formats_agree (s : PyFloat.float) :
  let agree :=
    exists hours minutes secs millis,
      Exc.bind (PyFloat.floordiv s (PyFloat.of_int 3600)) PyFloat.to_int
        = Ok hours
      /\ Exc.bind (PyFloat.rem s (PyFloat.of_int 3600))
           (fun r => Exc.bind (PyFloat.floordiv r (PyFloat.of_int 60))
                              PyFloat.to_int)
         = Ok minutes
      /\ Exc.bind (PyFloat.rem s (PyFloat.of_int 60)) PyFloat.to_int = Ok secs
      /\ Exc.bind (PyFloat.rem s (PyFloat.of_int 1))
           (fun r => PyFloat.to_int (PyFloat.mul r (PyFloat.of_int 1000)))
         = Ok millis
      /\ format_timestamp s = Ok (hms hours minutes secs)
      /\ format_srt_timestamp s
         = Ok (hms hours minutes secs ++ lit "," ++ format_0d 3 millis)
      /\ format_vtt_timestamp s
         = Ok (hms hours minutes secs ++ lit "." ++ format_0d 3 millis) in
  (below 1000 s -> agree)
  /\ (agree
      \/ exists e,
           format_timestamp s = Raise e
           /\ format_srt_timestamp s = Raise e
           /\ format_vtt_timestamp s = Raise e).
Proof.
  cbv zeta.
  assert (Hok : forall clock, format_timestamp s = Ok clock ->
            exists hours minutes secs millis,
              Exc.bind (PyFloat.floordiv s (PyFloat.of_int 3600)) PyFloat.to_int
                = Ok hours
              /\ Exc.bind (PyFloat.rem s (PyFloat.of_int 3600))
                   (fun r => Exc.bind (PyFloat.floordiv r (PyFloat.of_int 60))
                                      PyFloat.to_int)
                 = Ok minutes
              /\ Exc.bind (PyFloat.rem s (PyFloat.of_int 60)) PyFloat.to_int
                 = Ok secs
              /\ Exc.bind (PyFloat.rem s (PyFloat.of_int 1))
                   (fun r => PyFloat.to_int (PyFloat.mul r (PyFloat.of_int 1000)))
                 = Ok millis
              /\ format_timestamp s = Ok (hms hours minutes secs)
              /\ format_srt_timestamp s
                 = Ok (hms hours minutes secs ++ lit "," ++ format_0d 3 millis)
              /\ format_vtt_timestamp s
                 = Ok (hms hours minutes secs ++ lit "." ++ format_0d 3 millis)).
  { intros clock Hclock.
    destruct (@timestamp_fields s clock Hclock)
      as (h & m & sec & ms & H1 & H2 & H3 & H4 & H5 & H6 & H7).
    exists h, m, sec, ms. rewrite Hclock, H5.
    repeat (split; [assumption || reflexivity|]). assumption. }
  split.
  - intros Hs. destruct (@format_timestamp_total s Hs) as [clock Hclock].
    exact (Hok clock Hclock).
  - destruct (format_timestamp s) as [clock|e] eqn:Hclock.
    + left. apply (Hok clock). reflexivity.
    + right. exists e. destruct (@timestamp_raises s e Hclock). auto.
Qed.

(** C5 on 3661.25 seconds. *)
Lemma timestamp_formats_agree_witness :
  below 1000 Sample.t3661_25
  /\ exists hours minutes secs millis,
       format_timestamp Sample.t3661_25 = Ok (hms hours minutes secs)
       /\ format_srt_timestamp Sample.t3661_25
          = Ok (hms hours minutes secs ++ lit "," ++ format_0d 3 millis)
       /\ format_vtt_timestamp Sample.t3661_25
          = Ok (hms hours minutes secs ++ lit "." ++ format_0d 3 millis).
Proof.
  assert (Hb : below 1000 Sample.t3661_25).
  { vm_compute. split; discriminate. }
  split; [exact Hb|].
  destruct (timestamp_formats_agree Sample.t3661_25) as [Htotal _].
  destruct (Htotal Hb) as (h & m & sec & ms & _ & _ & _ & _ & H1 & H2 & H3).
  exists h, m, sec, ms. auto.
Defined.

(* ===================================================================== *)
(** * The SRT renderer *)
(* ===================================================================== *)

Section Srt.

Lemma lstrip_spec (s : pystr) :
  exists l,
    s = l ++ lstrip s /\ forallb is_space l = true
    /\ match lstrip s with c :: _ => is_space c = false | [] => True end.
Proof.
  induction s as [|c s (l & E & Hl & Hh)]; simpl.
  - exists []. auto.
  - destruct (is_space c) eqn:Hc.
    + exists (c :: l). simpl. rewrite Hc, Hl, <- E. auto.
    + exists []. simpl. auto.
Qed.

Lemma forallb_rev (A : Type) (f : A -> bool) (l : list A) :
  forallb f l = true -> forallb f (rev l) = true.
Proof.
  rewrite !forallb_forall. intros H x Hx. apply H. apply in_rev. exact Hx.
Qed.

Lemma strip_trimmed (s : pystr) : trimmed s (strip s).
Proof.
  unfold trimmed, strip, rstrip.
  destruct (lstrip_spec s) as (l & El & Hl & Hhead).
  destruct (lstrip_spec (rev (lstrip s))) as (r & Er & Hr & Hlast).
  exists l, (rev r).
  assert (E : lstrip s = rev (lstrip (rev (lstrip s))) ++ rev r).
  { rewrite <- rev_app_distr, <- Er, rev_involutive. reflexivity. }
  split; [rewrite <- E; exact El|].
  split; [exact Hl|]. split; [apply forallb_rev; exact Hr|]. split.
  - destruct (rev (lstrip (rev (lstrip s)))) as [|c t] eqn:Et; [exact I|].
    rewrite E in Hhead. exact Hhead.
  - rewrite rev_involutive. exact Hlast.
Qed.

Lemma for_append_total (A : Type) (body : A -> outcome pystr) (xs : list A) :
  (forall x, In x xs -> exists line, body x = Ok line) ->
  for_append body xs
    = Ok (map (fun x => match body x with Ok line => line | Raise _ => [] end)
              xs).
Proof.
  induction xs as [|x xs IH]; intros H; simpl; [reflexivity|].
  destruct (H x (or_introl eq_refl)) as [line Hline].
  rewrite Hline. cbn [Exc.bind].
  rewrite IH by (intros y Hy; apply H; right; exact Hy).
  reflexivity.
Qed.

Lemma enumerate_nth (A : Type) (xs : list A) :
  forall start k,
    nth_error (enumerate xs start) k
    = option_map (pair (start + Z.of_nat k)) (nth_error xs k).
Proof.
  induction xs as [|x xs IH]; intros start k.
  - destruct k; reflexivity.
  - destruct k as [|k]; simpl enumerate; cbn [nth_error option_map].
    + rewrite Z.add_0_r. reflexivity.
    + rewrite IH. replace (start + 1 + Z.of_nat k) with (start + Z.of_nat (S k))
        by lia. reflexivity.
Qed.

Lemma enumerate_length (A : Type) (xs : list A) :
  forall start, List.length (enumerate xs start) = List.length xs.
Proof. induction xs; intros; simpl; auto. Qed.

Lemma enumerate_in (A : Type) (xs : list A) :
  forall start i x, In (i, x) (enumerate xs start) -> In x xs.
Proof.
  induction xs as [|y xs IH]; intros start i x; simpl; [auto|].
  intros [H | H]; [inversion H; auto | right; eapply IH; exact H].
Qed.

(** The SRT formatter returns on every finite input of magnitude below
    [2^1000]. *)
Lemma format_srt_timestamp_total (s : PyFloat.float) :
  below 1000 s -> exists stamp, format_srt_timestamp s = Ok stamp.
Proof.
  intros Hs. destruct (@format_timestamp_total s Hs) as [clock Hclock].
  destruct (@timestamp_fields s clock Hclock)
    as (h & m & sec & ms & _ & _ & _ & _ & _ & H & _).
  eexists. exact H.
Qed.

Lemma srt_block_total (i : Z) (seg : Segment) :
  below 1000 (seg_start seg) -> below 1000 (seg_end seg) ->
  exists start end_,
    format_srt_timestamp (seg_start seg) = Ok start
    /\ format_srt_timestamp (seg_end seg) = Ok end_
    /\ srt_block (i, seg) = Ok (srt_block_of i start end_ seg).
Proof.
  intros Hs He.
  destruct (@format_srt_timestamp_total _ Hs) as [start Hstart].
  destruct (@format_srt_timestamp_total _ He) as [end_ Hend].
  exists start, end_. unfold srt_block. rewrite Hstart, Hend. auto.
Qed.

(** C3. [format_srt] on the two documented segments returns the documented
    text. On every sequence of segments whose times are finite and of
    magnitude below [2^1000], it returns the blocks joined by a newline, one
    block per segment in input order; the block of the segment at position
    [k] (from 0) starts with the decimal number [k + 1], followed by the two
    SRT timestamps and by the segment's text without its leading and
    trailing whitespace. *)
Theorem format_srt_numbered_blocks :
  format_srt Sample.two_segments = Ok Sample.two_segments_srt
  /\ forall segments,
       (forall seg, In seg segments ->
          below 1000 (seg_start seg) /\ below 1000 (seg_end seg)) ->
       exists blocks,
         format_srt segments = Ok (join nl blocks)
         /\ List.length blocks = List.length segments
         /\ forall k seg,
              nth_error segments k = Some seg ->
              exists start end_,
                format_srt_timestamp (seg_start seg) = Ok start
                /\ format_srt_timestamp (seg_end seg) = Ok end_
                /\ nth_error blocks k
                   = Some (str_of_Z (Z.of_nat k + 1) ++ nl ++ start ++ arrow
                           ++ end_ ++ nl ++ strip (seg_text seg) ++ nl)
                /\ trimmed (seg_text seg) (strip (seg_text seg)).
Proof.
  split; [vm_compute; reflexivity|].
  intros segments Hfin.
  set (render := fun entry : Z * Segment =>
                   match srt_block entry with Ok line => line | Raise _ => [] end).
  exists (map render (enumerate segments 1)).
  split; [|split].
  - unfold format_srt. rewrite for_append_total; [reflexivity|].
    intros [i seg] Hin. apply enumerate_in in Hin.
    destruct (Hfin seg Hin) as [Hs He].
    destruct (@srt_block_total i seg Hs He) as (start & end_ & _ & _ & H).
    eexists. exact H.
  - rewrite length_map. apply enumerate_length.
  - intros k seg Hk.
    destruct (Hfin seg (nth_error_In _ _ Hk)) as [Hs He].
    destruct (@srt_block_total (1 + Z.of_nat k) seg Hs He)
      as (start & end_ & Hstart & Hend & H).
    exists start, end_.
    split; [exact Hstart|]. split; [exact Hend|]. split.
    + rewrite nth_error_map, enumerate_nth, Hk. cbn [option_map].
      unfold render. rewrite H. unfold srt_block_of.
      rewrite (Z.add_comm 1). reflexivity.
    + apply strip_trimmed.
Qed.

End Srt.

(** C3 on the two documented segments. *)
Lemma format_srt_numbered_blocks_witness :
  (forall seg, In seg Sample.two_segments ->
     below 1000 (seg_start seg) /\ below 1000 (seg_end seg))
  /\ exists blocks,
       format_srt Sample.two_segments = Ok (join nl blocks)
       /\ List.length blocks = 2%nat.
Proof.
  assert (Hfin : forall seg, In seg Sample.two_segments ->
            below 1000 (seg_start seg) /\ below 1000 (seg_end seg)).
  { intros seg [<- | [<- | []]]; vm_compute; repeat split; discriminate. }
  split; [exact Hfin|].
  destruct format_srt_numbered_blocks as [_ H].
  destruct (H Sample.two_segments Hfin) as (blocks & Hdoc & Hlen & _).
  exists blocks. split; [exact Hdoc | exact Hlen].
Defined.

(* ===================================================================== *)
(** * State relations kept by the methods *)
(* ===================================================================== *)

Section Steps.
Variable R : State -> State -> Prop.
Hypothesis R_refl : forall st, R st st.
Hypothesis R_trans : forall a b c, R a b -> R b c -> R a c.
Hypothesis R_push : forall st ev, R st (push st ev).

Lemma steps_ret A (a : A) : steps R (Mon.ret a).
Proof. intros st. apply R_refl. Qed.

Lemma steps_raise A (e : exn) : steps R (@Mon.raise A e).
Proof. intros st. apply R_refl. Qed.

Lemma steps_lift A (c : outcome A) : steps R (Mon.lift c).
Proof. intros st. apply R_refl. Qed.

Lemma steps_get : steps R Mon.get.
Proof. intros st. apply R_refl. Qed.

Lemma steps_record ev : steps R (Mon.record ev).
Proof. intros st. apply R_push. Qed.

Lemma steps_call A (ev : Event) (answer : list Event -> outcome A) :
  steps R (Mon.call ev answer).
Proof. intros st. apply R_push. Qed.

Lemma steps_bind A B (c : M A) (k : A -> M B) :
  steps R c -> (forall a, steps R (k a)) -> steps R (Mon.bind c k).
Proof.
  intros Hc Hk st. unfold Mon.bind. pose proof (Hc st) as H1.
  destruct (c st) as [[a|e] st1]; simpl in *; [|exact H1].
  eapply R_trans; [exact H1 | apply Hk].
Qed.

Lemma steps_try_except A (body : M A) (handler : exn -> M A) :
  steps R body -> (forall e, steps R (handler e)) ->
  steps R (Mon.try_except body handler).
Proof.
  intros Hc Hk st. unfold Mon.try_except. pose proof (Hc st) as H1.
  destruct (body st) as [[a|e] st1]; simpl in *; [exact H1|].
  eapply R_trans; [exact H1 | apply Hk].
Qed.

End Steps.

(** Structural proof of a [steps] goal; [known] closes the goals about
    methods that are not to be opened. *)
Ltac steps_step known :=
  first
    [ known
    | apply steps_ret; assumption
    | apply steps_raise; assumption
    | apply steps_lift; assumption
    | apply steps_get; assumption
    | apply steps_record; assumption
    | apply steps_call; assumption
    | apply steps_bind; [assumption | | intros]
    | apply steps_try_except; [assumption | | intros]
    | match goal with
      | |- steps _ (match ?x with _ => _ end) => destruct x
      end ].

Ltac steps_auto known := repeat (steps_step known).

Section Acquisition.
Variable W : World.

Lemma same_cache_refl st : same_cache st st.
Proof. split; reflexivity. Qed.

Lemma same_cache_trans a b c : same_cache a b -> same_cache b c -> same_cache a c.
Proof. intros [H1 H2] [H3 H4]. split; congruence. Qed.

Lemma same_cache_push st ev : same_cache st (push st ev).
Proof. split; reflexivity. Qed.

Lemma download_youtube_audio_same_cache url :
  steps same_cache (download_youtube_audio W url).
Proof.
  pose proof same_cache_refl as Hr. pose proof same_cache_trans as Ht.
  pose proof same_cache_push as Hp.
  unfold download_youtube_audio, get_video_title. steps_auto fail.
Qed.

(** X1. [download_youtube_audio] never raises. It returns either an audio
    path (not empty) with its directory and no error, or no path, no
    directory and an error message (not empty). It calls only the
    collaborators of the acquisition (metadata lookup, mkdir, download,
    listing, existence test), yields nothing, and leaves the model cache as
    it was. *)
Theorem download_youtube_audio_contract (url : pystr) (st : State) :
  exists a d e st',
    download_youtube_audio W url st = (Ok (a, d, e), st')
    /\ ((a = None /\ d = None /\ exists msg, e = Some msg /\ truthy msg = true)
        \/ (exists p dir,
              a = Some p /\ d = Some dir /\ e = None /\ truthy p = true))
    /\ same_cache st st'
    /\ exists l, log st' = log st ++ l /\ forallb is_acquisition l = true.
Proof.
  destruct (download_youtube_audio_shape W url st)
    as (a & d & e & st' & Hd & Hshape).
  exists a, d, e, st'. split; [exact Hd|]. split; [exact Hshape|]. split.
  - pose proof (download_youtube_audio_same_cache url st) as H.
    rewrite Hd in H. exact H.
  - destruct (download_youtube_audio_only W url st) as (l & El & Hl).
    rewrite Hd in El. exists l. auto.
Qed.

Lemma find_audio_first (dir : pystr) (files : list pystr) :
  find_audio W dir files
  = option_map (path_div W dir)
      (find (fun f => startswith f (lit "audio")) files).
Proof.
  induction files as [|f files IH]; simpl; [reflexivity|].
  destruct (startswith f (lit "audio")); [reflexivity | exact IH].
Qed.

(** X2. The outcomes of [download_youtube_audio], for the directory named
    after the title. A failing [mkdir], download or listing gives the error
    "Download failed: " followed by the text of the exception, and nothing
    after the failing call is attempted. When all three succeed, the audio
    file is the first entry of the listing whose name starts with "audio"
    (whatever follows the prefix): if there is one and it exists, its path
    and the directory are returned; otherwise the error is "Failed to find
    downloaded audio file". *)
Theorem download_youtube_audio_outcomes (url : pystr) (st : State)
    (title : pystr) :
  fst (get_video_title W url st) = Ok title ->
  let dir := job_dir W title in
  let tmpl := path_div W dir (lit "audio.%(ext)s") in
  let l1 := log st ++ [ExtractInfo url] in
  let l2 := l1 ++ [Mkdir dir] in
  let l3 := l2 ++ [Download url tmpl] in
  let l4 := l3 ++ [Listdir dir] in
  let run := download_youtube_audio W url st in
  let failed e := (None, None, Some (lit "Download failed: " ++ exn_str e)) in
  let not_found :=
    (None, None, Some (lit "Failed to find downloaded audio file")) in
  (forall e, mkdir W l1 dir = Raise e ->
     fst run = Ok (failed e) /\ log (snd run) = l2)
  /\ (forall e, mkdir W l1 dir = Ok tt -> download W l2 url tmpl = Raise e ->
        fst run = Ok (failed e) /\ log (snd run) = l3)
  /\ (forall e, mkdir W l1 dir = Ok tt -> download W l2 url tmpl = Ok tt ->
        listdir W l3 dir = Raise e ->
        fst run = Ok (failed e) /\ log (snd run) = l4)
  /\ (forall files, mkdir W l1 dir = Ok tt -> download W l2 url tmpl = Ok tt ->
        listdir W l3 dir = Ok files ->
        match find (fun f => startswith f (lit "audio")) files with
        | None => fst run = Ok not_found /\ log (snd run) = l4
        | Some f =>
            let p := path_div W dir f in
            fst run = Ok (if truthy p && path_exists W l4 p
                          then (Some p, Some dir, None) else not_found)
        end).
Proof.
  intros Htitle. cbv zeta.
  rewrite get_video_title_cases in Htitle. cbn [fst] in Htitle.
  unfold download_youtube_audio. unfold_mon.
  rewrite get_video_title_cases.
  assert (Et : match extract_info W (log st) url with
               | Ok info =>
                   match clean_title info with
                   | Ok t => t
                   | Raise _ => fallback_name W st url
                   end
               | Raise _ => fallback_name W st url
               end = title) by congruence.
  rewrite Et. clear Htitle Et. unfold job_dir. cbn [push log].
  split; [|split; [|split]].
  - intros e ->. split; reflexivity.
  - intros e -> ->. split; reflexivity.
  - intros e -> -> ->. split; reflexivity.
  - intros files -> -> ->. rewrite find_audio_first.
    destruct (find (fun f => startswith f (lit "audio")) files) as [f|];
      cbn [option_map]; [|split; reflexivity].
    destruct (truthy _); cbn [andb]; [|reflexivity].
    cbn [push log]. destruct (path_exists W _ _); reflexivity.
Qed.

End Acquisition.

(** X2 on the sample environment: the listing holds "audio.mp3". *)
Lemma download_youtube_audio_outcomes_witness :
  fst (get_video_title Sample.world Sample.url init) = Ok (lit "Talk part 12")
  /\ fst (download_youtube_audio Sample.world Sample.url init)
     = Ok (Some (lit "/app/transcriptions/Talk part 12/audio.mp3"),
           Some (lit "/app/transcriptions/Talk part 12"), None).
Proof.
  assert (Ht : fst (get_video_title Sample.world Sample.url init)
               = Ok (lit "Talk part 12")) by reflexivity.
  split; [exact Ht|].
  destruct (@download_youtube_audio_outcomes Sample.world Sample.url init
              (lit "Talk part 12") Ht) as (_ & _ & _ & H).
  exact (H [lit "audio.mp3"] eq_refl eq_refl eq_refl).
Defined.

(* ===================================================================== *)
(** * The transcription stage *)
(* ===================================================================== *)

Section Transcription.
Variable W : World.

Lemma stale_cases (st : State) (name : pystr) :
  stale st name
  \/ exists h, model st = Some h /\ model_name st = Some name.
Proof.
  unfold stale. destruct (model st) as [h|]; [|left; left; reflexivity].
  destruct (model_name st) as [n|]; [|left; right; discriminate].
  destruct (list_eq_dec N.eq_dec n name) as [->|Hne].
  - right. exists h. auto.
  - left. right. congruence.
Qed.

Lemma not_stale (st : State) (name : pystr) (h : Handle) :
  model st = Some h -> model_name st = Some name -> ~ stale st name.
Proof. intros Hm Hn [H|H]; congruence. Qed.

(** X3. A load that raises is not cached: [load_model] lets the exception
    through, the cache keeps what it held, and the next call with the same
    name asks the engine again. *)
Theorem load_model_failure_keeps_cache (name : pystr) (st : State) (e : exn) :
  stale st name ->
  whisper_load_model W (log st) name = Raise e ->
  load_model W name st = (Raise e, push st (LoadModel name))
  /\ same_cache st (push st (LoadModel name))
  /\ loads (added (load_model W name) (push st (LoadModel name))) = [name].
Proof.
  intros Hs He. split; [|split].
  - rewrite (load_model_stale W Hs), He. reflexivity.
  - split; reflexivity.
  - assert (Hs' : stale (push st (LoadModel name)) name) by exact Hs.
    rewrite added_app with (l := [LoadModel name]); [reflexivity|].
    rewrite (load_model_stale W Hs').
    destruct (whisper_load_model W (log (push st (LoadModel name))) name);
      reflexivity.
Qed.

Lemma load_model_returns (name : pystr) (st st1 : State) (status : pystr) :
  load_model W name st = (Ok status, st1) ->
  exists h,
    model st1 = Some h /\ model_name st1 = Some name
    /\ ((stale st name /\ log st1 = log st ++ [LoadModel name]
         /\ whisper_load_model W (log st) name = Ok h)
        \/ (~ stale st name /\ st1 = st)).
Proof.
  destruct (stale_cases st name) as [Hs | (h & Hm & Hn)].
  - rewrite (load_model_stale W Hs).
    destruct (whisper_load_model W (log st) name) as [h|e] eqn:E;
      [|discriminate].
    intros H. inversion H; subst. exists h. simpl.
    split; [reflexivity|]. split; [reflexivity|]. left. auto.
  - pose proof (@not_stale st name h Hm Hn) as Hns.
    rewrite (load_model_fresh W Hns). intros H. inversion H; subst.
    exists h. auto.
Qed.

Lemma load_model_raises (name : pystr) (st st1 : State) (e : exn) :
  load_model W name st = (Raise e, st1) ->
  stale st name /\ st1 = push st (LoadModel name)
  /\ whisper_load_model W (log st) name = Raise e.
Proof.
  destruct (stale_cases st name) as [Hs | (h & Hm & Hn)].
  - rewrite (load_model_stale W Hs).
    destruct (whisper_load_model W (log st) name) as [h|e0] eqn:E;
      [discriminate|].
    intros H. inversion H; subst. auto.
  - rewrite (load_model_fresh W (@not_stale st name h Hm Hn)). discriminate.
Qed.

(** [transcribe_audio], by the outcome of the load. *)
Lemma transcribe_audio_run (audio : option pystr) (name language task : pystr)
    (st : State) :
  transcribe_audio W audio name language task st =
    match load_model W name st with
    | (Ok _, st1) =>
        match model st1 with
        | Some h =>
            match model_transcribe W (log st1) h audio
                    (options_for language task) with
            | Ok result =>
                (Ok result,
                 push st1 (Transcribe h audio (options_for language task)))
            | Raise e =>
                (Raise (transcription_failed e),
                 push st1 (Transcribe h audio (options_for language task)))
            end
        | None => (Raise (transcription_failed (none_has_no "transcribe")), st1)
        end
    | (Raise e, st1) => (Raise (transcription_failed e), st1)
    end.
Proof.
  unfold transcribe_audio, options_for, transcription_failed. unfold_mon.
  destruct (load_model W name st) as [[status|e] st1]; [|reflexivity].
  destruct (model st1) as [h|]; [|reflexivity].
  destruct (model_transcribe W (log st1) h audio _); reflexivity.
Qed.

(** X4. Whatever makes [transcribe_audio] fail, it raises a plain exception
    whose text is "Transcription failed: " followed by the text of the
    cause. The cause is either the loader's exception, and then the engine
    was not run and the cache is as before, or the engine's, and then the
    requested model is the cached one and the engine's call is the last
    event. *)
Theorem transcribe_audio_failure (audio : option pystr)
    (name language task : pystr) (st st' : State) (e : exn) :
  transcribe_audio W audio name language task st = (Raise e, st') ->
  exists cause,
    e = transcription_failed cause
    /\ exn_cls e = OtherException
    /\ exn_str e = lit "Transcription failed: " ++ exn_str cause
    /\ ((whisper_load_model W (log st) name = Raise cause
         /\ st' = push st (LoadModel name))
        \/ (exists h pre,
              model st' = Some h /\ model_name st' = Some name
              /\ log st' = log st ++ pre
                           ++ [Transcribe h audio (options_for language task)]
              /\ (pre = [] \/ pre = [LoadModel name])
              /\ model_transcribe W (log st ++ pre) h audio
                   (options_for language task) = Raise cause)).
Proof.
  rewrite transcribe_audio_run.
  destruct (load_model W name st) as [[status|e0] st1] eqn:Hl.
  - destruct (@load_model_returns name st st1 status Hl) as (h & Hm & Hn & Hcase).
    rewrite Hm.
    destruct (model_transcribe W (log st1) h audio (options_for language task))
      as [r|e0] eqn:Ht; [discriminate|].
    intros H. inversion H; subst e st'. exists e0.
    split; [reflexivity|]. split; [reflexivity|]. split; [reflexivity|].
    right. exists h.
    destruct Hcase as [(_ & El & _) | (_ & ->)].
    + exists [LoadModel name]. rewrite <- El.
      repeat split; auto. simpl. rewrite El, <- app_assoc. reflexivity.
    + exists []. rewrite app_nil_r. repeat split; auto.
  - destruct (@load_model_raises name st st1 e0 Hl) as (_ & -> & Hw).
    intros H. inversion H; subst e st'. exists e0.
    split; [reflexivity|]. split; [reflexivity|]. split; [reflexivity|].
    left. auto.
Qed.

(** X5. When [transcribe_audio] returns, the requested model is the cached
    one, the engine was asked at most once to load (exactly when the cache
    was stale) and its [transcribe] was called once, last, on the cached
    handle, with the task, [verbose] set, and the language left out exactly
    when the caller's language is "auto". *)
Theorem transcribe_audio_success (audio : option pystr)
    (name language task : pystr) (st st' : State) (result : Result) :
  transcribe_audio W audio name language task st = (Ok result, st') ->
  exists h pre,
    model st' = Some h /\ model_name st' = Some name
    /\ log st' = log st ++ pre
                 ++ [Transcribe h audio (options_for language task)]
    /\ ((stale st name /\ pre = [LoadModel name])
        \/ (~ stale st name /\ pre = [] /\ model st = Some h))
    /\ model_transcribe W (log st ++ pre) h audio (options_for language task)
       = Ok result
    /\ opt_task (options_for language task) = task
    /\ opt_verbose (options_for language task) = true
    /\ (opt_language (options_for language task) = None
        <-> language = lit "auto")
    /\ (language <> lit "auto"
        -> opt_language (options_for language task) = Some language).
Proof.
  rewrite transcribe_audio_run.
  destruct (load_model W name st) as [[status|e0] st1] eqn:Hl; [|discriminate].
  destruct (@load_model_returns name st st1 status Hl) as (h & Hm & Hn & Hcase).
  rewrite Hm.
  destruct (model_transcribe W (log st1) h audio (options_for language task))
    as [r|e0] eqn:Ht; [|discriminate].
  intros H. inversion H; subst r st'. exists h.
  assert (Hopt : opt_language (options_for language task) = None
                 <-> language = lit "auto").
  { unfold options_for. simpl.
    destruct (PyStr.eqb language (lit "auto")) eqn:E; simpl.
    - apply eqb_eq in E. split; auto.
    - split; [discriminate|]. intros ->. rewrite eqb_refl in E. discriminate. }
  assert (Hopt' : language <> lit "auto"
                  -> opt_language (options_for language task) = Some language).
  { unfold options_for. simpl. intros Hne.
    destruct (PyStr.eqb language (lit "auto")) eqn:E; simpl; [|reflexivity].
    apply eqb_eq in E. contradiction. }
  destruct Hcase as [(Hs & El & _) | (Hns & ->)].
  - exists [LoadModel name]. rewrite <- El.
    split; [exact Hm|]. split; [exact Hn|].
    split; [cbn [push log]; rewrite El, <- app_assoc; reflexivity|].
    split; [left; auto|]. split; [exact Ht|]. auto.
  - exists []. rewrite app_nil_r.
    split; [exact Hm|]. split; [exact Hn|]. split; [reflexivity|].
    split; [right; auto|]. split; [exact Ht|]. auto.
Qed.

Lemma transcribe_audio_loads (audio : option pystr)
    (name language task : pystr) (st : State) :
  (stale st name ->
   loads (added (transcribe_audio W audio name language task) st) = [name])
  /\ (~ stale st name ->
      loads (added (transcribe_audio W audio name language task) st) = []).
Proof.
  split; intros Hs.
  - destruct (only_added st (transcribe_audio_only W audio name language task))
      as [El _].
    revert El. rewrite transcribe_audio_run, (load_model_stale W Hs).
    destruct (whisper_load_model W (log st) name) as [h|e]; cbn [model].
    + destruct (model_transcribe W _ h audio _); cbn [snd push log];
        rewrite <- app_assoc; intros El; apply app_inv_head in El;
        rewrite <- El; reflexivity.
    + cbn [snd push log]. intros El. apply app_inv_head in El.
      rewrite <- El. reflexivity.
  - destruct (only_added st (transcribe_audio_only W audio name language task))
      as [El _].
    revert El. rewrite transcribe_audio_run, (load_model_fresh W Hs).
    destruct (model st) as [h|].
    + destruct (model_transcribe W _ h audio _); cbn [snd push log];
        intros El; apply app_inv_head in El; rewrite <- El; reflexivity.
    + cbn [snd]. intros El. rewrite <- (app_nil_r (log st)) in El at 1.
      apply app_inv_head in El. rewrite <- El. reflexivity.
Qed.

(** X6. Once a transcription with some model has returned, a further
    transcription with the same model name asks the engine for no load,
    whatever its audio, language and task and whatever its outcome; with
    another model name it asks for exactly one. *)
Theorem transcribe_audio_reuses_model (audio : option pystr)
    (name language task : pystr) (st st1 : State) (result : Result) :
  transcribe_audio W audio name language task st = (Ok result, st1) ->
  forall audio2 language2 task2,
    loads (added (transcribe_audio W audio2 name language2 task2) st1) = []
    /\ forall name2, name2 <> name ->
         loads (added (transcribe_audio W audio2 name2 language2 task2) st1)
         = [name2].
Proof.
  rewrite transcribe_audio_run.
  destruct (load_model W name st) as [[status|e0] st0] eqn:Hl; [|discriminate].
  destruct (@load_model_returns name st st0 status Hl) as (h & Hm & Hn & _).
  rewrite Hm.
  destruct (model_transcribe W (log st0) h audio (options_for language task));
    [|discriminate].
  intros H. inversion H; subst st1. clear H.
  intros audio2 language2 task2. split.
  - apply transcribe_audio_loads.
    apply (@not_stale _ name h); [exact Hm | exact Hn].
  - intros name2 Hne. apply transcribe_audio_loads.
    right. cbn [push model_name]. rewrite Hn. congruence.
Qed.

Lemma keeps_consistent_refl st : keeps_consistent st st.
Proof. intros H. exact H. Qed.

Lemma keeps_consistent_trans a b c :
  keeps_consistent a b -> keeps_consistent b c -> keeps_consistent a c.
Proof. unfold keeps_consistent. auto. Qed.

Lemma keeps_consistent_push st ev : keeps_consistent st (push st ev).
Proof. intros H. exact H. Qed.

Lemma load_model_keeps_consistent name :
  steps keeps_consistent (load_model W name).
Proof.
  intros st Hc. destruct (stale_cases st name) as [Hs | (h & Hm & Hn)].
  - rewrite (load_model_stale W Hs).
    destruct (whisper_load_model W (log st) name); cbn [snd].
    + unfold cache_consistent. simpl. split; discriminate.
    + exact Hc.
  - rewrite (load_model_fresh W (@not_stale st name h Hm Hn)). exact Hc.
Qed.

Lemma process_youtube_url_keeps_consistent url name language task ts ef :
  steps keeps_consistent (process_youtube_url W url name language task ts ef).
Proof.
  pose proof keeps_consistent_refl as Hr.
  pose proof keeps_consistent_trans as Ht.
  pose proof keeps_consistent_push as Hp.
  unfold process_youtube_url, yield, download_youtube_audio, get_video_title,
    url_try_block, transcribe_audio, url_exports, create_export_files,
    write_text, in_dir.
  steps_auto ltac:(apply load_model_keeps_consistent).
  all: try (match goal with
            | |- steps _ (export_loop _ _ ?x _) =>
                generalize (@nil pystr); induction x as [|[k v] rest IH];
                intros files; simpl; unfold write_text;
                steps_auto ltac:(apply IH)
            end).
Qed.

Lemma process_file_upload_keeps_consistent audio name language task ts ef :
  steps keeps_consistent (process_file_upload W audio name language task ts ef).
Proof.
  pose proof keeps_consistent_refl as Hr.
  pose proof keeps_consistent_trans as Ht.
  pose proof keeps_consistent_push as Hp.
  unfold process_file_upload, yield, upload_try_block, transcribe_audio,
    upload_exports, create_export_files, write_text.
  steps_auto ltac:(apply load_model_keeps_consistent).
  all: try (match goal with
            | |- steps _ (export_loop _ _ ?x _) =>
                generalize (@nil pystr); induction x as [|[k v] rest IH];
                intros files; simpl; unfold write_text;
                steps_auto ltac:(apply IH)
            end).
Qed.

(** X7. The cache stays consistent: if a handle is cached exactly when an
    identifier is (as in a new transcriber), the same holds after
    [load_model] and after a run of either entry point, whatever the
    collaborators do; in such a state a load is needed exactly when the
    cached identifier is not the requested one. *)
Theorem cache_stays_consistent (st : State) :
  cache_consistent st ->
  (forall name, cache_consistent (snd (load_model W name st)))
  /\ (forall url name language task ts ef,
        cache_consistent
          (snd (process_youtube_url W url name language task ts ef st)))
  /\ (forall audio name language task ts ef,
        cache_consistent
          (snd (process_file_upload W audio name language task ts ef st)))
  /\ (forall name, stale st name <-> model_name st <> Some name).
Proof.
  intros Hc. split; [|split; [|split]].
  - intros name. apply load_model_keeps_consistent. exact Hc.
  - intros. apply process_youtube_url_keeps_consistent. exact Hc.
  - intros. apply process_file_upload_keeps_consistent. exact Hc.
  - intros name. unfold stale. split; [|auto].
    intros [Hm | Hn]; [|exact Hn].
    apply Hc in Hm. rewrite Hm. discriminate.
Qed.

End Transcription.

(** X3 on the sample environment whose engine loads no model. *)
Lemma load_model_failure_keeps_cache_witness :
  stale init Sample.base
  /\ load_model Sample.no_model Sample.base init
     = (Raise (Sample.failure "model not found"),
        push init (LoadModel Sample.base))
  /\ loads (added (load_model Sample.no_model Sample.base)
                  (push init (LoadModel Sample.base))) = [Sample.base].
Proof.
  assert (Hs : stale init Sample.base) by (left; reflexivity).
  split; [exact Hs|].
  destruct (@load_model_failure_keeps_cache Sample.no_model Sample.base init
              (Sample.failure "model not found") Hs eq_refl) as (H1 & _ & H3).
  split; [exact H1 | exact H3].
Defined.

(** X4 on the sample environment whose engine fails on the audio. *)
Lemma transcribe_audio_failure_witness :
  exists st' cause,
    transcribe_audio Sample.deaf Sample.upload Sample.base Sample.auto
      Sample.transcribe init
    = (Raise (transcription_failed cause), st')
    /\ exn_str (transcription_failed cause)
       = lit "Transcription failed: " ++ exn_str cause.
Proof.
  destruct (transcribe_audio Sample.deaf Sample.upload Sample.base Sample.auto
              Sample.transcribe init) as [[r|e] st'] eqn:Hrun;
    [vm_compute in Hrun; discriminate|].
  destruct (@transcribe_audio_failure Sample.deaf Sample.upload Sample.base
              Sample.auto Sample.transcribe init st' e Hrun)
    as (cause & -> & _ & Hstr & _).
  exists st', cause. split; [reflexivity | exact Hstr].
Defined.

(** X5 on the sample environment. *)
Lemma transcribe_audio_success_witness :
  exists st' h,
    transcribe_audio Sample.world Sample.upload Sample.base Sample.auto
      Sample.transcribe init = (Ok Sample.result, st')
    /\ model st' = Some h /\ model_name st' = Some Sample.base.
Proof.
  destruct (transcribe_audio Sample.world Sample.upload Sample.base Sample.auto
              Sample.transcribe init) as [[r|e] st'] eqn:Hrun;
    [|vm_compute in Hrun; discriminate].
  assert (Hr : r = Sample.result).
  { vm_compute in Hrun. inversion Hrun. reflexivity. }
  subst r.
  destruct (@transcribe_audio_success Sample.world Sample.upload Sample.base
              Sample.auto Sample.transcribe init st' Sample.result Hrun)
    as (h & pre & Hm & Hn & _).
  exists st', h. auto.
Defined.

(** X6 on the sample environment. *)
Lemma transcribe_audio_reuses_model_witness :
  exists st1,
    transcribe_audio Sample.world Sample.upload Sample.base Sample.auto
      Sample.transcribe init = (Ok Sample.result, st1)
    /\ loads (added (transcribe_audio Sample.world Sample.upload Sample.base
                       Sample.auto Sample.transcribe) st1) = []
    /\ loads (added (transcribe_audio Sample.world Sample.upload Sample.small
                       Sample.auto Sample.transcribe) st1) = [Sample.small].
Proof.
  destruct (transcribe_audio Sample.world Sample.upload Sample.base Sample.auto
              Sample.transcribe init) as [[r|e] st1] eqn:Hrun;
    [|vm_compute in Hrun; discriminate].
  assert (Hr : r = Sample.result).
  { vm_compute in Hrun. inversion Hrun. reflexivity. }
  subst r. exists st1. split; [reflexivity|].
  destruct (@transcribe_audio_reuses_model Sample.world Sample.upload
              Sample.base Sample.auto Sample.transcribe init st1 Sample.result
              Hrun Sample.upload Sample.auto Sample.transcribe) as [H1 H2].
  split; [exact H1 | apply H2; discriminate].
Defined.

(** X7 on a new transcriber. *)
Lemma cache_stays_consistent_witness :
  cache_consistent init
  /\ cache_consistent
       (snd (process_youtube_url Sample.world Sample.url Sample.base
               Sample.auto Sample.transcribe true None init)).
Proof.
  assert (Hc : cache_consistent init) by (split; reflexivity).
  split; [exact Hc|].
  destruct (@cache_stays_consistent Sample.world init Hc) as (_ & H & _).
  apply H.
Defined.

(* ===================================================================== *)
(** * Runs of the entry points *)
(* ===================================================================== *)

Section Runs.
Variable W : World.

(** X8. Neither entry point lets an exception escape, whatever the
    collaborators do. A run on a non-empty URL yields two or three
    observations and a run on an uploaded file yields two; in both, the
    generator then ends without a value and its last yield is the last
    thing the run did. *)
Theorem entry_points_never_raise (url : pystr) (audio_file : option pystr)
    (name language task : pystr) (ts : bool) (ef : option (list pystr))
    (st : State) :
  (exists r st', process_youtube_url W url name language task ts ef st
                 = (Ok r, st'))
  /\ (exists r st', process_file_upload W audio_file name language task ts ef st
                    = (Ok r, st'))
  /\ (truthy url = true ->
      exists last st',
        process_youtube_url W url name language task ts ef st
          = (Ok None, push st' (Yield last))
        /\ let n := List.length
                      (observations
                         (added (process_youtube_url W url name language task
                                   ts ef) st)) in
           n = 2%nat \/ n = 3%nat)
  /\ (forall audio, audio_file = Some audio ->
      exists last st',
        process_file_upload W audio_file name language task ts ef st
          = (Ok None, push st' (Yield last))
        /\ List.length
             (observations
                (added (process_file_upload W audio_file name language task
                          ts ef) st)) = 2%nat).
Proof.
  assert (Hurl : truthy url = true ->
            exists last st',
              process_youtube_url W url name language task ts ef st
                = (Ok None, push st' (Yield last))
              /\ let n := List.length
                            (observations
                               (added (process_youtube_url W url name language
                                         task ts ef) st)) in
                 n = 2%nat \/ n = 3%nat).
  { intros Hu.
    destruct (@process_youtube_url_added W url name language task ts ef st Hu)
      as (a & d & e & st1 & l1 & _ & _ & _ & Hcases).
    destruct (@url_observations W url name language task ts ef st Hu)
      as [(e' & Hobs) | (a' & last' & Hobs & _)].
    - destruct Hcases as [(_ & Hrun & _) | (_ & r & st2 & l2 & last & _ & _ & _
                                            & _ & Hrun & _)];
        do 2 eexists; (split; [exact Hrun|]); cbv zeta; rewrite Hobs; auto.
    - destruct Hcases as [(_ & Hrun & _) | (_ & r & st2 & l2 & last & _ & _ & _
                                            & _ & Hrun & _)];
        do 2 eexists; (split; [exact Hrun|]); cbv zeta; rewrite Hobs; auto. }
  assert (Hup : forall audio, audio_file = Some audio ->
            exists last st',
              process_file_upload W audio_file name language task ts ef st
                = (Ok None, push st' (Yield last))
              /\ List.length
                   (observations
                      (added (process_file_upload W audio_file name language
                                task ts ef) st)) = 2%nat).
  { intros audio ->.
    destruct (upload_observations W audio name language task ts ef st)
      as (last & Hobs).
    rewrite Hobs. rewrite process_file_upload_run.
    destruct (upload_try_block W (Some audio) name language task ts ef _)
      as [[o|ex] st2]; do 2 eexists; split; reflexivity. }
  split; [|split; [|split; [exact Hurl | exact Hup]]].
  - destruct (truthy url) eqn:Hu.
    + destruct (Hurl eq_refl) as (last & st' & Hrun & _).
      rewrite Hrun. eauto.
    + unfold process_youtube_url. rewrite Hu. cbn [negb]. unfold Mon.ret. eauto.
  - destruct audio_file as [audio|].
    + destruct (Hup audio eq_refl) as (last & st' & Hrun & _).
      rewrite Hrun. eauto.
    + simpl. unfold Mon.ret. eauto.
Qed.

Section AllWritesSucceed.
Hypothesis Hw : forall l path content, write_file W l path content = Ok tt.

Lemma create_export_files_run (d : dict) (st : State) :
  d <> [] ->
  create_export_files W d st
  = (Ok (Some (staged_paths W (strftime (now W (log st))) d)),
     mk_state (model st) (model_name st)
       (log st ++ staged_writes W (strftime (now W (log st))) d)).
Proof.
  intros Hne. unfold create_export_files, Mon.bind, Mon.get.
  rewrite export_loop_staged by exact Hw. cbn [app].
  unfold Mon.ret, staged_paths, staged_writes.
  destruct d; [contradiction | reflexivity].
Qed.

Lemma staged_run (d : dict) (st : State) :
  exists st',
    match d with
    | [] => Mon.ret None
    | _ => create_export_files W d
    end st
    = (Ok (staged_files W (strftime (now W (log st))) d), st')
    /\ log st' = log st ++ staged_writes W (strftime (now W (log st))) d
    /\ same_cache st st'.
Proof.
  destruct d as [|kv d].
  - exists st. simpl. rewrite app_nil_r. repeat split.
  - eexists. rewrite create_export_files_run by discriminate.
    split; [reflexivity|]. repeat split.
Qed.

Lemma url_exports_success (dir : pystr) (result : Result)
    (ef : option (list pystr)) (srt vtt js : pystr) (st : State) :
  format_srt (res_segments result) = Ok srt ->
  format_vtt (res_segments result) = Ok vtt ->
  json_dumps W result = Ok js ->
  exists st',
    url_exports W (Some dir) result ef st
      = (Ok (url_export_dict ef srt vtt js), st')
    /\ log st' = log st ++ job_writes W dir (url_export_dict ef srt vtt js)
    /\ same_cache st st'.
Proof.
  intros Hsrt Hvtt Hjs.
  unfold url_exports, url_export_dict, write_text, in_dir. unfold_mon.
  rewrite Hsrt, Hvtt, Hjs.
  destruct (selected ef); cbn [andb];
    [|exists st; cbn [app job_writes map]; rewrite app_nil_r; repeat split].
  destruct (wants ef "srt"), (wants ef "vtt"), (wants ef "json");
    rewrite ?Hw; eexists; (split; [reflexivity|]);
    cbn [app job_writes map push log fst snd];
    rewrite <- ?app_assoc, ?app_nil_r; repeat split.
Qed.

Lemma upload_exports_success (text : pystr) (result : Result)
    (ef : option (list pystr)) (srt vtt js : pystr) (st : State) :
  format_srt (res_segments result) = Ok srt ->
  format_vtt (res_segments result) = Ok vtt ->
  json_dumps W result = Ok js ->
  upload_exports W text result ef st
    = (Ok (upload_export_dict ef text srt vtt js), st).
Proof.
  intros Hsrt Hvtt Hjs.
  unfold upload_exports, upload_export_dict. unfold_mon.
  rewrite Hsrt, Hvtt, Hjs.
  destruct (selected ef); cbn [andb]; [|reflexivity].
  destruct (wants ef "txt"), (wants ef "srt"), (wants ef "vtt"),
    (wants ef "json"); reflexivity.
Qed.

(** X9. A run of the URL pipeline in which every stage succeeds. The last
    observation carries the audio path, the transcript without its outer
    whitespace, the timestamped transcript (empty when timestamps were not
    asked for) and the staged files. After the transcription the run writes,
    in this order and nothing else: [transcript.txt]; the timestamped
    transcript when asked for; [transcript.srt], [transcript.vtt] and
    [transcript.json] for those of the three that are selected, all in the
    job directory; then one staged file [transcript_<stamp>.<ext>] for each
    of these formats. A selected "txt", or any other name, adds nothing. *)
Theorem url_run_success (url name language task : pystr) (ts : bool)
    (ef : option (list pystr)) (st st1 st2 : State) (audio dir : pystr)
    (result : Result) (detailed srt vtt js : pystr) :
  truthy url = true ->
  download_youtube_audio W url (push st (Yield downloading))
    = (Ok (Some audio, Some dir, None), st1) ->
  transcribe_audio W (Some audio) name language task
    (push st1 (Yield (transcribing_url name (Some audio))))
    = (Ok result, st2) ->
  format_with_timestamps (res_segments result) = Ok detailed ->
  format_srt (res_segments result) = Ok srt ->
  format_vtt (res_segments result) = Ok vtt ->
  json_dumps W result = Ok js ->
  let text := strip (res_text result) in
  let d := url_export_dict ef srt vtt js in
  exists st3 stamp,
    process_youtube_url W url name language task ts ef st
    = (Ok None,
       push st3
         (Yield (Obs5 (status_complete result ++ nl ++ [128193%N]
                       ++ lit " Saved to: " ++ dir)
                      (Some audio) (Some text)
                      (Some (if ts then detailed else []))
                      (staged_files W stamp d))))
    /\ log st3
       = log st2
         ++ [WriteFile (path_div W dir (lit "transcript.txt")) text]
         ++ (if ts
             then [WriteFile
                     (path_div W dir (lit "transcript_with_timestamps.txt"))
                     detailed]
             else [])
         ++ job_writes W dir d ++ staged_writes W stamp d
    /\ (exists l, stamp = strftime (now W l)).
Proof.
  intros Hu Hd Ht Hplain Hsrt Hvtt Hjs. cbv zeta.
  rewrite (@process_youtube_url_run W url name language task ts ef st Hu), Hd.
  cbn [truthy_opt].
  unfold url_try_block, in_dir, write_text.
  unfold Mon.bind at 1. rewrite Ht.
  unfold Mon.bind at 1.
  set (text := strip (res_text result)).
  set (d := url_export_dict ef srt vtt js).
  assert (Hdet : forall s,
            (if ts then Mon.lift (format_with_timestamps (res_segments result))
             else Mon.ret []) s
            = (Ok (if ts then detailed else []), s)).
  { intros s. destruct ts; [rewrite Hplain|]; reflexivity. }
  rewrite Hdet.
  unfold Mon.bind at 1. unfold Mon.ret at 1.
  unfold Mon.bind at 1. unfold Mon.call at 1. rewrite Hw.
  unfold Mon.bind at 1.
  set (s3 := push st2 (WriteFile (path_div W dir (lit "transcript.txt")) text)).
  assert (Hts : exists s4,
            (if ts
             then Mon.bind (Mon.ret (path_div W dir
                                       (lit "transcript_with_timestamps.txt")))
                    (fun detailed_file =>
                       Mon.call
                         (WriteFile detailed_file (if ts then detailed else []))
                         (fun l => write_file W l detailed_file
                                     (if ts then detailed else [])))
             else Mon.ret tt) s3 = (Ok tt, s4)
            /\ log s4
               = log s3
                 ++ (if ts
                     then [WriteFile
                             (path_div W dir
                                (lit "transcript_with_timestamps.txt"))
                             detailed]
                     else [])
            /\ same_cache s3 s4).
  { destruct ts.
    - unfold Mon.bind, Mon.ret, Mon.call. rewrite Hw. eexists.
      split; [reflexivity|]. repeat split.
    - exists s3. unfold Mon.ret. rewrite app_nil_r. repeat split. }
  destruct Hts as (s4 & Hrun4 & Hlog4 & _). rewrite Hrun4.
  unfold Mon.bind at 1.
  destruct (@url_exports_success dir result ef srt vtt js s4 Hsrt Hvtt Hjs)
    as (s5 & Hrun5 & Hlog5 & _).
  rewrite Hrun5. fold d in Hlog5 |- *.
  unfold Mon.bind at 1.
  destruct (staged_run d s5) as (s6 & Hrun6 & Hlog6 & _).
  rewrite Hrun6. unfold Mon.ret.
  exists s6, (strftime (now W (log s5))).
  split; [reflexivity|]. split.
  - rewrite Hlog6, Hlog5, Hlog4. subst s3. cbn [push log].
    rewrite <- !app_assoc. reflexivity.
  - eexists. reflexivity.
Qed.

(** X10. A run of the upload pipeline in which every stage succeeds. The
    last observation carries the transcript without its outer whitespace,
    the timestamped transcript (empty when not asked for) and the staged
    files. After the transcription the run writes one staged file
    [transcript_<stamp>.<ext>] for each selected format among txt, srt, vtt
    and json, in that order, and nothing else: no job directory is used. *)
Theorem upload_run_success (audio name language task : pystr) (ts : bool)
    (ef : option (list pystr)) (st st2 : State)
    (result : Result) (detailed srt vtt js : pystr) :
  transcribe_audio W (Some audio) name language task
    (push st (Yield (transcribing_upload name))) = (Ok result, st2) ->
  format_with_timestamps (res_segments result) = Ok detailed ->
  format_srt (res_segments result) = Ok srt ->
  format_vtt (res_segments result) = Ok vtt ->
  json_dumps W result = Ok js ->
  let text := strip (res_text result) in
  let d := upload_export_dict ef text srt vtt js in
  exists st3 stamp,
    process_file_upload W (Some audio) name language task ts ef st
    = (Ok None,
       push st3
         (Yield (Obs4 (status_complete result) (Some text)
                      (Some (if ts then detailed else []))
                      (staged_files W stamp d))))
    /\ log st3 = log st2 ++ staged_writes W stamp d
    /\ (exists l, stamp = strftime (now W l)).
Proof.
  intros Ht Hplain Hsrt Hvtt Hjs. cbv zeta.
  rewrite process_file_upload_run.
  unfold upload_try_block.
  unfold Mon.bind at 1. rewrite Ht.
  unfold Mon.bind at 1.
  assert (Hdet : forall s,
            (if ts then Mon.lift (format_with_timestamps (res_segments result))
             else Mon.ret []) s
            = (Ok (if ts then detailed else []), s)).
  { intros s. destruct ts; [rewrite Hplain|]; reflexivity. }
  rewrite Hdet.
  unfold Mon.bind at 1.
  rewrite (@upload_exports_success (strip (res_text result)) result ef srt vtt
             js st2 Hsrt Hvtt Hjs).
  unfold Mon.bind at 1.
  destruct (staged_run
              (upload_export_dict ef (strip (res_text result)) srt vtt js) st2)
    as (s6 & Hrun6 & Hlog6 & _).
  rewrite Hrun6. unfold Mon.ret.
  exists s6, (strftime (now W (log st2))).
  split; [reflexivity|]. split; [exact Hlog6|].
  eexists. reflexivity.
Qed.

End AllWritesSucceed.

End Runs.

(** X8 on the sample environment. *)
Lemma entry_points_never_raise_witness :
  truthy Sample.url = true
  /\ exists last st',
       process_youtube_url Sample.world Sample.url Sample.base Sample.auto
         Sample.transcribe true None init
       = (Ok None, push st' (Yield last)).
Proof.
  split; [reflexivity|].
  destruct (@entry_points_never_raise Sample.world Sample.url Sample.upload
              Sample.base Sample.auto Sample.transcribe true None init)
    as (_ & _ & H & _).
  destruct (H eq_refl) as (last & st' & Hrun & _).
  exists last, st'. exact Hrun.
Defined.

(** X9 on the sample environment, with "txt" and "srt" selected. *)
Lemma url_run_success_witness :
  exists st3 status,
    process_youtube_url Sample.world Sample.url Sample.base Sample.auto
      Sample.transcribe false (Some [lit "txt"; lit "srt"]) init
    = (Ok None,
       push st3
         (Yield (Obs5 status
                   (Some (lit "/app/transcriptions/Talk part 12/audio.mp3"))
                   (Some (lit "Hello world")) (Some [])
                   (Some [lit "/tmp/transcript_20240309_140507.srt"])))).
Proof.
  pose (audio := lit "/app/transcriptions/Talk part 12/audio.mp3").
  pose (st1 := snd (download_youtube_audio Sample.world Sample.url
                      (push init (Yield downloading)))).
  pose (st2 := snd (transcribe_audio Sample.world (Some audio) Sample.base
                      Sample.auto Sample.transcribe
                      (push st1 (Yield (transcribing_url Sample.base
                                          (Some audio)))))).
  assert (Hd : download_youtube_audio Sample.world Sample.url
                 (push init (Yield downloading))
               = (Ok (Some audio,
                      Some (lit "/app/transcriptions/Talk part 12"), None),
                  st1))
    by (vm_compute; reflexivity).
  assert (Ht : transcribe_audio Sample.world (Some audio) Sample.base
                 Sample.auto Sample.transcribe
                 (push st1 (Yield (transcribing_url Sample.base (Some audio))))
               = (Ok Sample.result, st2))
    by (vm_compute; reflexivity).
  eassert (Hplain : format_with_timestamps (res_segments Sample.result) = Ok _)
    by (vm_compute; reflexivity).
  eassert (Hsrt : format_srt (res_segments Sample.result) = Ok _)
    by (vm_compute; reflexivity).
  eassert (Hvtt : format_vtt (res_segments Sample.result) = Ok _)
    by (vm_compute; reflexivity).
  destruct (@url_run_success Sample.world (fun _ _ _ => eq_refl) Sample.url
              Sample.base Sample.auto Sample.transcribe false
              (Some [lit "txt"; lit "srt"]) init st1 st2 audio _ _ _ _ _ _
              eq_refl Hd Ht Hplain Hsrt Hvtt eq_refl)
    as (st3 & stamp & Hrun & _ & (l & Hstamp)).
  exists st3. eexists. rewrite Hrun. subst stamp. vm_compute. reflexivity.
Defined.

(** X10 on the sample environment, with "txt" and "srt" selected. *)
Lemma upload_run_success_witness :
  exists st3 status,
    process_file_upload Sample.world Sample.upload Sample.base Sample.auto
      Sample.transcribe false (Some [lit "txt"; lit "srt"]) init
    = (Ok None,
       push st3
         (Yield (Obs4 status (Some (lit "Hello world")) (Some [])
                   (Some [lit "/tmp/transcript_20240309_140507.txt";
                          lit "/tmp/transcript_20240309_140507.srt"])))).
Proof.
  eassert (Ht : transcribe_audio Sample.world
                  (Some (lit "/uploads/talk.mp3"))
                  Sample.base Sample.auto Sample.transcribe
                  (push init (Yield (transcribing_upload Sample.base)))
                = (Ok Sample.result, _))
    by (vm_compute; reflexivity).
  eassert (Hplain : format_with_timestamps (res_segments Sample.result) = Ok _)
    by (vm_compute; reflexivity).
  eassert (Hsrt : format_srt (res_segments Sample.result) = Ok _)
    by (vm_compute; reflexivity).
  eassert (Hvtt : format_vtt (res_segments Sample.result) = Ok _)
    by (vm_compute; reflexivity).
  destruct (@upload_run_success Sample.world (fun _ _ _ => eq_refl)
              (lit "/uploads/talk.mp3")
              Sample.base Sample.auto Sample.transcribe false
              (Some [lit "txt"; lit "srt"]) init _ _ _ _ _ _
              Ht Hplain Hsrt Hvtt eq_refl)
    as (st3 & stamp & Hrun & _ & (l & Hstamp)).
  exists st3. eexists. unfold Sample.upload. rewrite Hrun. subst stamp.
  vm_compute. reflexivity.
Defined.

(* ===================================================================== *)
(** * Staged files *)
(* ===================================================================== *)

Section StagedFiles.
Variable W : World.



End StagedFiles.


(* ===================================================================== *)
(** * The other renderers *)
(* ===================================================================== *)

Section Renderers.

Lemma format_vtt_timestamp_total (s : PyFloat.float) :
  below 1000 s -> exists stamp, format_vtt_timestamp s = Ok stamp.
Proof.
  intros Hs. destruct (@format_timestamp_total s Hs) as [clock Hclock].
  destruct (@timestamp_fields s clock Hclock)
    as (h & m & sec & ms & _ & _ & _ & _ & _ & _ & H).
  eexists. exact H.
Qed.

Lemma for_append_nth (A : Type) (body : A -> outcome pystr) (xs : list A)
    (k : nat) (x : A) (line : pystr) :
  nth_error xs k = Some x -> body x = Ok line ->
  nth_error (map (fun x => match body x with Ok l => l | Raise _ => [] end) xs)
            k = Some line.
Proof.
  intros Hk Hx. rewrite nth_error_map, Hk. cbn [option_map]. rewrite Hx.
  reflexivity.
Qed.

(** X12. [format_vtt] on segments whose times are finite and of magnitude
    below [2^1000]: the document is the header line WEBVTT and an empty
    line, then one block per segment in input order, blocks separated by an
    empty line; a block is the two WebVTT timestamps around " --> ", a
    newline, the text without its outer whitespace and a newline. Without
    segments the document is the header line alone. *)
Theorem format_vtt_document (segments : list Segment) :
  (forall seg, In seg segments -> ordinary seg) ->
  exists blocks,
    format_vtt segments = Ok (join nl ((lit "WEBVTT" ++ nl) :: blocks))
    /\ List.length blocks = List.length segments
    /\ (segments = [] -> format_vtt segments = Ok (lit "WEBVTT" ++ nl))
    /\ (segments <> [] ->
        format_vtt segments
        = Ok (lit "WEBVTT" ++ nl ++ nl ++ join nl blocks))
    /\ forall k seg,
         nth_error segments k = Some seg ->
         exists start end_,
           format_vtt_timestamp (seg_start seg) = Ok start
           /\ format_vtt_timestamp (seg_end seg) = Ok end_
           /\ nth_error blocks k = Some (vtt_block_of start end_ seg).
Proof.
  intros Hfin.
  assert (Hblock : forall seg, In seg segments ->
            exists start end_,
              format_vtt_timestamp (seg_start seg) = Ok start
              /\ format_vtt_timestamp (seg_end seg) = Ok end_
              /\ vtt_block seg = Ok (vtt_block_of start end_ seg)).
  { intros seg Hin. destruct (Hfin seg Hin) as [Hs He].
    destruct (@format_vtt_timestamp_total _ Hs) as [start Hstart].
    destruct (@format_vtt_timestamp_total _ He) as [end_ Hend].
    exists start, end_. unfold vtt_block. rewrite Hstart, Hend. auto. }
  set (render := fun seg => match vtt_block seg with
                            | Ok line => line
                            | Raise _ => []
                            end).
  assert (Hdoc : format_vtt segments
                 = Ok (join nl ((lit "WEBVTT" ++ nl) :: map render segments))).
  { unfold format_vtt. rewrite for_append_total; [reflexivity|].
    intros seg Hin. destruct (Hblock seg Hin) as (a & b & _ & _ & H).
    eexists. exact H. }
  exists (map render segments).
  split; [exact Hdoc|]. split; [apply length_map|]. split; [|split].
  - intros ->. reflexivity.
  - intros Hne. rewrite Hdoc. destruct segments as [|seg rest];
      [contradiction|].
    cbn [map join]. rewrite <- !app_assoc. reflexivity.
  - intros k seg Hk.
    destruct (Hblock seg (nth_error_In _ _ Hk)) as (a & b & Ha & Hb & H).
    exists a, b. split; [exact Ha|]. split; [exact Hb|].
    apply for_append_nth with (x := seg); assumption.
Qed.

(** X13. [format_with_timestamps] on segments whose times are finite and of
    magnitude below [2^1000]: one line per segment in input order, lines
    joined by a newline with none at the end; a line is "[", the plain
    HH:MM:SS of the start, " -> ", that of the end, "] " and the text
    without its outer whitespace. The plain timestamp of a time is its SRT
    timestamp without the comma and the milliseconds. Without segments the
    result is the empty string. *)
Theorem format_with_timestamps_lines (segments : list Segment) :
  (forall seg, In seg segments -> ordinary seg) ->
  exists lines,
    format_with_timestamps segments = Ok (join nl lines)
    /\ List.length lines = List.length segments
    /\ (segments = [] -> format_with_timestamps segments = Ok [])
    /\ forall k seg,
         nth_error segments k = Some seg ->
         exists start end_ ms_start ms_end,
           format_timestamp (seg_start seg) = Ok start
           /\ format_timestamp (seg_end seg) = Ok end_
           /\ format_srt_timestamp (seg_start seg)
              = Ok (start ++ lit "," ++ ms_start)
           /\ format_srt_timestamp (seg_end seg)
              = Ok (end_ ++ lit "," ++ ms_end)
           /\ nth_error lines k = Some (line_of start end_ seg).
Proof.
  intros Hfin.
  set (body := fun segment =>
         Exc.bind (format_timestamp (seg_start segment)) (fun start =>
         Exc.bind (format_timestamp (seg_end segment)) (fun end_ =>
         Ok (lit "[" ++ start ++ lit " -> " ++ end_ ++ lit "] "
             ++ strip (seg_text segment))))).
  assert (Hline : forall seg, In seg segments ->
            exists start end_ ms_start ms_end,
              format_timestamp (seg_start seg) = Ok start
              /\ format_timestamp (seg_end seg) = Ok end_
              /\ format_srt_timestamp (seg_start seg)
                 = Ok (start ++ lit "," ++ ms_start)
              /\ format_srt_timestamp (seg_end seg)
                 = Ok (end_ ++ lit "," ++ ms_end)
              /\ body seg = Ok (line_of start end_ seg)).
  { intros seg Hin. destruct (Hfin seg Hin) as [Hs He].
    destruct (@format_timestamp_total _ Hs) as [start Hstart].
    destruct (@format_timestamp_total _ He) as [end_ Hend].
    destruct (@timestamp_fields _ _ Hstart)
      as (h1 & m1 & s1 & ms1 & _ & _ & _ & _ & E1 & Hsrt1 & _).
    destruct (@timestamp_fields _ _ Hend)
      as (h2 & m2 & s2 & ms2 & _ & _ & _ & _ & E2 & Hsrt2 & _).
    exists start, end_, (format_0d 3 ms1), (format_0d 3 ms2).
    split; [exact Hstart|]. split; [exact Hend|].
    split; [rewrite E1; exact Hsrt1|]. split; [rewrite E2; exact Hsrt2|].
    unfold body. rewrite Hstart, Hend. reflexivity. }
  set (render := fun seg => match body seg with
                            | Ok line => line
                            | Raise _ => []
                            end).
  assert (Hdoc : format_with_timestamps segments
                 = Ok (join nl (map render segments))).
  { unfold format_with_timestamps. fold body.
    rewrite for_append_total; [reflexivity|].
    intros seg Hin.
    destruct (Hline seg Hin) as (a & b & c & d & _ & _ & _ & _ & H).
    eexists. exact H. }
  exists (map render segments).
  split; [exact Hdoc|]. split; [apply length_map|]. split.
  - intros ->. reflexivity.
  - intros k seg Hk.
    destruct (Hline seg (nth_error_In _ _ Hk))
      as (a & b & c & d & Ha & Hb & Hc & Hd & H).
    exists a, b, c, d. repeat (split; [assumption|]).
    apply for_append_nth with (x := seg); assumption.
Qed.

Lemma nonfinite_timestamp (s : PyFloat.float) :
  PyFloat.is_finite s = false ->
  format_timestamp s = Raise nan_error
  /\ format_srt_timestamp s = Raise nan_error
  /\ format_vtt_timestamp s = Raise nan_error.
Proof.
  destruct s as [b|b| |b m e]; try discriminate; intros _;
    repeat split; vm_compute; reflexivity.
Qed.

Lemma for_append_raises (A : Type) (body : A -> outcome pystr) (e : exn)
    (xs : list A) :
  (forall x, In x xs -> (exists line, body x = Ok line) \/ body x = Raise e) ->
  (exists x, In x xs /\ body x = Raise e) ->
  for_append body xs = Raise e.
Proof.
  induction xs as [|x xs IH]; intros Hall (y & Hy & Hraise); [contradiction|].
  simpl. destruct (Hall x (or_introl eq_refl)) as [[line Hline] | Hx].
  - rewrite Hline. cbn [Exc.bind].
    rewrite IH; [reflexivity | intros z Hz; apply Hall; right; exact Hz |].
    destruct Hy as [-> | Hy]; [congruence|]. exists y. auto.
  - rewrite Hx. reflexivity.
Qed.

Lemma renderers_raise_on_degenerate (segments : list Segment) :
  (forall seg, In seg segments ->
     bounded_or_degenerate (seg_start seg)
     /\ bounded_or_degenerate (seg_end seg)) ->
  (exists seg, In seg segments /\ degenerate seg) ->
  format_with_timestamps segments = Raise nan_error
  /\ format_srt segments = Raise nan_error
  /\ format_vtt segments = Raise nan_error.
Proof.
  intros Hall (bad & Hbad & Hdeg).
  assert (Hstamp : forall (f : PyFloat.float -> outcome pystr) s,
            (forall t, below 1000 t -> exists c, f t = Ok c) ->
            (forall t, PyFloat.is_finite t = false -> f t = Raise nan_error) ->
            below 1000 s \/ PyFloat.is_finite s = false ->
            (exists c, f s = Ok c) \/ f s = Raise nan_error).
  { intros f s Hok Hbadf [H|H]; [left; apply Hok; exact H
                                | right; apply Hbadf; exact H]. }
  assert (Hpair : forall (f : PyFloat.float -> outcome pystr)
                    (k : pystr -> pystr -> Segment -> pystr) seg,
            (forall t, below 1000 t -> exists c, f t = Ok c) ->
            (forall t, PyFloat.is_finite t = false -> f t = Raise nan_error) ->
            bounded_or_degenerate (seg_start seg)
            /\ bounded_or_degenerate (seg_end seg) ->
            let body := Exc.bind (f (seg_start seg)) (fun a =>
                        Exc.bind (f (seg_end seg)) (fun b => Ok (k a b seg))) in
            ((exists line, body = Ok line) \/ body = Raise nan_error)
            /\ (degenerate seg -> body = Raise nan_error)).
  { intros f k seg Hok Hbadf [Hs He]. cbv zeta.
    apply (Hstamp f _ Hok Hbadf) in Hs. apply (Hstamp f _ Hok Hbadf) in He.
    destruct Hs as [[a Ha] | Ha]; rewrite Ha; cbn [Exc.bind].
    - destruct He as [[b Hb] | Hb]; rewrite Hb; cbn [Exc.bind].
      + split; [left; eexists; reflexivity|].
        intros [Hd | Hd]; apply Hbadf in Hd; congruence.
      + split; [right; reflexivity | auto].
    - split; [right; reflexivity | auto]. }
  split; [|split].
  - unfold format_with_timestamps.
    rewrite for_append_raises with (e := nan_error); [reflexivity | |].
    + intros seg Hin.
      apply (Hpair format_timestamp
               (fun a b seg => lit "[" ++ a ++ lit " -> " ++ b ++ lit "] "
                               ++ strip (seg_text seg)) seg).
      * intros t Ht. apply format_timestamp_total. exact Ht.
      * intros t Ht. apply nonfinite_timestamp. exact Ht.
      * apply Hall. exact Hin.
    + exists bad. split; [exact Hbad|].
      apply (Hpair format_timestamp
               (fun a b seg => lit "[" ++ a ++ lit " -> " ++ b ++ lit "] "
                               ++ strip (seg_text seg)) bad).
      * intros t Ht. apply format_timestamp_total. exact Ht.
      * intros t Ht. apply nonfinite_timestamp. exact Ht.
      * apply Hall. exact Hbad.
      * exact Hdeg.
  - unfold format_srt.
    rewrite for_append_raises with (e := nan_error); [reflexivity | |].
    + intros [i seg] Hin. apply enumerate_in in Hin.
      apply (Hpair format_srt_timestamp
               (fun a b seg => str_of_Z i ++ nl ++ a ++ arrow ++ b ++ nl
                               ++ strip (seg_text seg) ++ nl) seg).
      * intros t Ht. apply format_srt_timestamp_total. exact Ht.
      * intros t Ht. apply nonfinite_timestamp. exact Ht.
      * apply Hall. exact Hin.
    + destruct (In_nth_error _ _ Hbad) as [k Hk].
      exists (1 + Z.of_nat k, bad). split.
      * eapply nth_error_In. rewrite enumerate_nth, Hk. reflexivity.
      * apply (Hpair format_srt_timestamp
                 (fun a b seg => str_of_Z (1 + Z.of_nat k) ++ nl ++ a ++ arrow
                                 ++ b ++ nl ++ strip (seg_text seg) ++ nl) bad).
        -- intros t Ht. apply format_srt_timestamp_total. exact Ht.
        -- intros t Ht. apply nonfinite_timestamp. exact Ht.
        -- apply Hall. exact Hbad.
        -- exact Hdeg.
  - unfold format_vtt.
    rewrite for_append_raises with (e := nan_error); [reflexivity | |].
    + intros seg Hin.
      apply (Hpair format_vtt_timestamp
               (fun a b seg => a ++ arrow ++ b ++ nl ++ strip (seg_text seg)
                               ++ nl) seg).
      * intros t Ht. apply format_vtt_timestamp_total. exact Ht.
      * intros t Ht. apply nonfinite_timestamp. exact Ht.
      * apply Hall. exact Hin.
    + exists bad. split; [exact Hbad|].
      apply (Hpair format_vtt_timestamp
               (fun a b seg => a ++ arrow ++ b ++ nl ++ strip (seg_text seg)
                               ++ nl) bad).
      * intros t Ht. apply format_vtt_timestamp_total. exact Ht.
      * intros t Ht. apply nonfinite_timestamp. exact Ht.
      * apply Hall. exact Hbad.
      * exact Hdeg.
Qed.


(** X14. A time that is a NaN or an infinity makes each of the three
    timestamp formatters raise [ValueError] with the text "cannot convert
    float NaN to integer" (an infinity too, since its floor division is a
    NaN). A sequence of segments that holds such a time, the other times
    being finite and of magnitude below [2^1000], makes each of the three
    renderers raise that exception: no partial document is returned. *)
Theorem degenerate_time_raises :
  (forall s, PyFloat.is_finite s = false ->
     format_timestamp s = Raise nan_error
     /\ format_srt_timestamp s = Raise nan_error
     /\ format_vtt_timestamp s = Raise nan_error)
  /\ forall segments,
       (forall seg, In seg segments ->
          bounded_or_degenerate (seg_start seg)
          /\ bounded_or_degenerate (seg_end seg)) ->
       (exists seg, In seg segments /\ degenerate seg) ->
       format_with_timestamps segments = Raise nan_error
       /\ format_srt segments = Raise nan_error
       /\ format_vtt segments = Raise nan_error.
Proof.
  split; [exact nonfinite_timestamp | exact renderers_raise_on_degenerate].
Qed.

End Renderers.

(** X12 on the two documented segments. *)
Lemma format_vtt_document_witness :
  (forall seg, In seg Sample.two_segments -> ordinary seg)
  /\ exists blocks,
       format_vtt Sample.two_segments
       = Ok (lit "WEBVTT" ++ nl ++ nl ++ join nl blocks)
       /\ List.length blocks = 2%nat.
Proof.
  assert (Hfin : forall seg, In seg Sample.two_segments -> ordinary seg).
  { intros seg [<- | [<- | []]]; vm_compute; repeat split; discriminate. }
  split; [exact Hfin|].
  destruct (@format_vtt_document Sample.two_segments Hfin)
    as (blocks & _ & Hlen & _ & Hdoc & _).
  exists blocks. split; [apply Hdoc; discriminate | exact Hlen].
Defined.

(** X13 on the two documented segments. *)
Lemma format_with_timestamps_lines_witness :
  (forall seg, In seg Sample.two_segments -> ordinary seg)
  /\ exists lines,
       format_with_timestamps Sample.two_segments = Ok (join nl lines)
       /\ List.length lines = 2%nat.
Proof.
  assert (Hfin : forall seg, In seg Sample.two_segments -> ordinary seg).
  { intros seg [<- | [<- | []]]; vm_compute; repeat split; discriminate. }
  split; [exact Hfin|].
  destruct (@format_with_timestamps_lines Sample.two_segments Hfin)
    as (lines & Hdoc & Hlen & _).
  exists lines. split; [exact Hdoc | exact Hlen].
Defined.

(** X14 on the segment that never ends. *)
Lemma degenerate_time_raises_witness :
  (exists seg, In seg (res_segments Sample.endless) /\ degenerate seg)
  /\ format_srt (res_segments Sample.endless) = Raise nan_error.
Proof.
  assert (Hex : exists seg,
            In seg (res_segments Sample.endless) /\ degenerate seg).
  { eexists. split; [left; reflexivity | right; reflexivity]. }
  split; [exact Hex|].
  destruct degenerate_time_raises as [_ H].
  destruct (H (res_segments Sample.endless)) as (_ & Hsrt & _);
    [|exact Hex | exact Hsrt].
  intros seg [<- | []]. split; [left; exact I | right; reflexivity].
Defined.

(* ===================================================================== *)
(** * Failures after the transcription *)
(* ===================================================================== *)

Section LateFailures.
Variable W : World.

(** X15. A result of the engine that holds a time which is a NaN or an
    infinity (the other times finite and of magnitude below [2^1000]) is
    reported as a transcription error although the transcription returned:
    the last observation has the status "Transcription Error: cannot convert
    float NaN to integer" and no transcript. With timestamps asked for,
    neither pipeline writes a file. Without them, the URL pipeline with
    "srt" or "vtt" selected has already written [transcript.txt] in the job
    directory (when that write succeeds) and leaves it there; the upload
    pipeline with "srt" or "vtt" selected writes nothing. *)
Theorem degenerate_result_reported (result : Result)
    (name language task : pystr) (ef : option (list pystr)) :
  (forall seg, In seg (res_segments result) ->
     bounded_or_degenerate (seg_start seg)
     /\ bounded_or_degenerate (seg_end seg)) ->
  (exists seg, In seg (res_segments result) /\ degenerate seg) ->
  (forall url st st1 st2 audio dir,
     truthy url = true ->
     download_youtube_audio W url (push st (Yield downloading))
       = (Ok (Some audio, Some dir, None), st1) ->
     transcribe_audio W (Some audio) name language task
       (push st1 (Yield (transcribing_url name (Some audio))))
       = (Ok result, st2) ->
     let report := transcription_error_url nan_error (Some audio) in
     let transcript := path_div W dir (lit "transcript.txt") in
     let text := strip (res_text result) in
     report
     = Obs5 (cross_mark
             ++ lit " Transcription Error: cannot convert float NaN to integer")
            (Some audio) None None None
     /\ process_youtube_url W url name language task true ef st
        = (Ok None, push st2 (Yield report))
     /\ (selected ef && (wants ef "srt" || wants ef "vtt") = true ->
         write_file W (log st2) transcript text = Ok tt ->
         process_youtube_url W url name language task false ef st
         = (Ok None,
            push (push st2 (WriteFile transcript text)) (Yield report))))
  /\ (forall audio st st2 ts,
        transcribe_audio W (Some audio) name language task
          (push st (Yield (transcribing_upload name))) = (Ok result, st2) ->
        ts = true \/ selected ef && (wants ef "srt" || wants ef "vtt") = true ->
        let report := transcription_error_upload nan_error in
        report
        = Obs4 (cross_mark
                ++ lit
                  " Transcription Error: cannot convert float NaN to integer")
               None None None
        /\ process_file_upload W (Some audio) name language task ts ef st
           = (Ok None, push st2 (Yield report))).
Proof.
  intros Hall Hex.
  destruct (@renderers_raise_on_degenerate (res_segments result) Hall Hex)
    as (Hplain & Hsrt & Hvtt).
  split.
  - intros url st st1 st2 audio dir Hu Hd Ht. cbv zeta.
    split; [reflexivity|]. split.
    + rewrite (@process_youtube_url_run W url name language task true ef st Hu).
      rewrite Hd. cbn [truthy_opt].
      unfold url_try_block. unfold Mon.bind at 1. rewrite Ht.
      unfold Mon.bind at 1. unfold Mon.lift. rewrite Hplain. reflexivity.
    + intros Hsel Hw.
      rewrite (@process_youtube_url_run W url name language task false ef st Hu).
      rewrite Hd. cbn [truthy_opt].
      unfold url_try_block, in_dir, write_text.
      unfold Mon.bind at 1. rewrite Ht.
      unfold Mon.bind at 1. unfold Mon.ret at 1.
      unfold Mon.bind at 1. unfold Mon.ret at 1.
      unfold Mon.bind at 1. unfold Mon.call at 1. rewrite Hw.
      unfold Mon.bind at 1. unfold Mon.ret at 1.
      unfold Mon.bind at 1.
      apply andb_true_iff in Hsel. destruct Hsel as [Hsel Hfmt].
      unfold url_exports. rewrite Hsel.
      unfold Mon.bind at 1.
      destruct (wants ef "srt") eqn:Hs.
      * unfold Mon.bind at 1. unfold Mon.lift. rewrite Hsrt. reflexivity.
      * cbn [orb] in Hfmt. rewrite Hfmt.
        unfold Mon.ret at 1. unfold Mon.bind at 1.
        unfold Mon.bind at 1. unfold Mon.lift. rewrite Hvtt. reflexivity.
  - intros audio st st2 ts Ht Hcase. cbv zeta. split; [reflexivity|].
    rewrite process_file_upload_run.
    unfold upload_try_block. unfold Mon.bind at 1. rewrite Ht.
    unfold Mon.bind at 1.
    destruct ts.
    + unfold Mon.lift. rewrite Hplain. reflexivity.
    + destruct Hcase as [Hcase | Hsel]; [discriminate|].
      unfold Mon.ret at 1. unfold Mon.bind at 1.
      apply andb_true_iff in Hsel. destruct Hsel as [Hsel Hfmt].
      unfold upload_exports. rewrite Hsel.
      unfold Mon.bind at 1.
      destruct (wants ef "txt"); unfold Mon.ret at 1;
        unfold Mon.bind at 1; unfold Mon.bind at 1;
        (destruct (wants ef "srt") eqn:Hs;
         [ unfold Mon.lift; rewrite Hsrt; reflexivity
         | cbn [orb] in Hfmt; rewrite Hfmt;
           unfold Mon.ret at 1; unfold Mon.bind at 1; unfold Mon.bind at 1;
           unfold Mon.lift; rewrite Hvtt; reflexivity ]).
Qed.

End LateFailures.

(** X15 on the sample environment whose engine returns the endless
    result. *)
Lemma degenerate_result_reported_witness :
  (exists seg, In seg (res_segments Sample.endless) /\ degenerate seg)
  /\ exists st2,
       process_file_upload Sample.unbounded Sample.upload Sample.base
         Sample.auto Sample.transcribe true None init
       = (Ok None, push st2 (Yield (transcription_error_upload nan_error))).
Proof.
  assert (Hex : exists seg,
            In seg (res_segments Sample.endless) /\ degenerate seg).
  { eexists. split; [left; reflexivity | right; reflexivity]. }
  split; [exact Hex|].
  assert (Hall : forall seg, In seg (res_segments Sample.endless) ->
            bounded_or_degenerate (seg_start seg)
            /\ bounded_or_degenerate (seg_end seg)).
  { intros seg [<- | []]. split; [left; exact I | right; reflexivity]. }
  eassert (Ht : transcribe_audio Sample.unbounded
                  (Some (lit "/uploads/talk.mp3"))
                  Sample.base Sample.auto Sample.transcribe
                  (push init (Yield (transcribing_upload Sample.base)))
                = (Ok Sample.endless, _))
    by (vm_compute; reflexivity).
  destruct (@degenerate_result_reported Sample.unbounded Sample.endless
              Sample.base Sample.auto Sample.transcribe None Hall Hex)
    as [_ H].
  destruct (H (lit "/uploads/talk.mp3") init _ true Ht (or_introl eq_refl))
    as [_ Hrun].
  eexists. exact Hrun.
Defined.

(* ===================================================================== *)
(** * Names of job directories *)
(* ===================================================================== *)

Section JobNames.
Variable W : World.

Lemma filter_all (A : Type) (p : A -> bool) (l : list A) :
  (forall x, In x l -> p x = true) -> filter p l = l.
Proof.
  induction l as [|x l IH]; intros H; simpl; [reflexivity|].
  rewrite (H x (or_introl eq_refl)), IH; [reflexivity|].
  intros y Hy. apply H. right. exact Hy.
Qed.

Lemma filter_none (A : Type) (p : A -> bool) (l : list A) :
  (forall x, In x l -> p x = false) -> filter p l = [].
Proof.
  induction l as [|x l IH]; intros H; simpl; [reflexivity|].
  rewrite (H x (or_introl eq_refl)). apply IH.
  intros y Hy. apply H. right. exact Hy.
Qed.

Lemma sanitize_safe (s : pystr) :
  (forall c, In c s -> reserved c = false) -> (List.length s <= 100)%nat ->
  sanitize s = s.
Proof.
  intros Hs Hl. unfold sanitize. rewrite filter_all.
  - apply firstn_all2. exact Hl.
  - intros c Hc. rewrite (Hs c Hc). reflexivity.
Qed.

Lemma sanitize_reserved (s : pystr) :
  (forall c, In c s -> reserved c = true) -> sanitize s = [].
Proof.
  intros Hs. unfold sanitize. rewrite filter_none; [reflexivity|].
  intros c Hc. rewrite (Hs c Hc). reflexivity.
Qed.

Lemma get_video_title_chosen (url : pystr) (st : State) (info : Info)
    (s : pystr) :
  extract_info W (log st) url = Ok (Some info) ->
  py_or (info_title info) (info_id info) = Some s ->
  get_video_title W url st = (Ok (sanitize s), push st (ExtractInfo url)).
Proof.
  intros Hx Hs. rewrite get_video_title_cases, Hx, (clean_title_chosen _ Hs).
  reflexivity.
Qed.

Lemma download_youtube_audio_mkdir (url : pystr) (st : State) (title : pystr) :
  fst (get_video_title W url st) = Ok title ->
  In (Mkdir (job_dir W title)) (added (download_youtube_audio W url) st).
Proof.
  intros Htitle. rewrite get_video_title_cases in Htitle. cbn [fst] in Htitle.
  assert (Et : match extract_info W (log st) url with
               | Ok info =>
                   match clean_title info with
                   | Ok t => t
                   | Raise _ => fallback_name W st url
                   end
               | Raise _ => fallback_name W st url
               end = title) by congruence.
  clear Htitle.
  assert (Hlog : exists l,
            log (snd (download_youtube_audio W url st))
            = log st ++ ExtractInfo url :: Mkdir (job_dir W title) :: l).
  { unfold download_youtube_audio. unfold_mon.
    rewrite get_video_title_cases, Et. unfold job_dir. cbn [push log].
    destruct (mkdir W _ _) as [[]|e];
      [|cbn [push log fst snd]; rewrite <- ?app_assoc; eexists; reflexivity].
    destruct (download W _ _ _) as [[]|e];
      [|cbn [push log fst snd]; rewrite <- ?app_assoc; eexists; reflexivity].
    destruct (listdir W _ _) as [files|e];
      [|cbn [push log fst snd]; rewrite <- ?app_assoc; eexists; reflexivity].
    destruct (find_audio W _ files) as [f|];
      [|cbn [push log fst snd]; rewrite <- ?app_assoc; eexists; reflexivity].
    destruct (truthy f);
      [|cbn [push log fst snd]; rewrite <- ?app_assoc; eexists; reflexivity].
    cbn [push log]. destruct (path_exists W _ f);
      cbn [push log fst snd]; rewrite <- ?app_assoc; eexists; reflexivity. }
  destruct Hlog as [l Hl].
  rewrite (@added_app _ (download_youtube_audio W url) st _ Hl).
  right. left. reflexivity.
Qed.

(** X16. The name [get_video_title] makes of the metadata, when the lookup
    returns some. A non-empty title is used and the id ignored; without one
    (no title, or the empty title) the id is used. A name without reserved
    characters and of at most 100 characters is kept as it is. A name made of
    reserved characters only gives the empty name, not the timestamp
    fallback, and [download_youtube_audio] then makes the job directory of
    the empty name. Sanitizing a sanitized name changes nothing. *)
Theorem get_video_title_edges (url : pystr) (st : State) (info : Info) :
  extract_info W (log st) url = Ok (Some info) ->
  (forall t, info_title info = Some t -> truthy t = true ->
     fst (get_video_title W url st) = Ok (sanitize t))
  /\ (forall i, truthy_opt (info_title info) = false -> info_id info = Some i ->
        fst (get_video_title W url st) = Ok (sanitize i))
  /\ (forall s, py_or (info_title info) (info_id info) = Some s ->
        ((forall c, In c s -> reserved c = false) ->
         (List.length s <= 100)%nat ->
         fst (get_video_title W url st) = Ok s)
        /\ ((forall c, In c s -> reserved c = true) ->
            fst (get_video_title W url st) = Ok []
            /\ In (Mkdir (job_dir W []))
                  (added (download_youtube_audio W url) st)))
  /\ forall s, sanitize (sanitize s) = sanitize s.
Proof.
  intros Hx. split; [|split; [|split]].
  - intros t Ht Htruthy.
    rewrite (@get_video_title_chosen url st info t Hx); [reflexivity|].
    unfold py_or. rewrite Ht. cbn [truthy_opt]. rewrite Htruthy. reflexivity.
  - intros i Ht Hi.
    rewrite (@get_video_title_chosen url st info i Hx); [reflexivity|].
    unfold py_or. rewrite Ht. exact Hi.
  - intros s Hs. rewrite (@get_video_title_chosen url st info s Hx Hs).
    cbn [fst]. split.
    + intros Hsafe Hlen. rewrite sanitize_safe; auto.
    + intros Hres. rewrite sanitize_reserved by exact Hres.
      split; [reflexivity|].
      apply download_youtube_audio_mkdir.
      rewrite (@get_video_title_chosen url st info s Hx Hs).
      rewrite sanitize_reserved by exact Hres. reflexivity.
  - intros s. apply sanitize_safe.
    + intros c Hc. unfold sanitize in Hc. apply in_firstn in Hc.
      apply filter_In in Hc. destruct Hc as [_ Hc].
      apply negb_true_iff in Hc. exact Hc.
    + unfold sanitize. rewrite length_firstn. lia.
Qed.

End JobNames.

(** X16 on the sample environment whose title is "???". *)
Lemma get_video_title_edges_witness :
  extract_info Sample.punctuation (log init) Sample.url
    = Ok (Some (mk_info (Some (lit "???")) (Some (lit "dQw4"))))
  /\ fst (get_video_title Sample.punctuation Sample.url init) = Ok []
  /\ In (Mkdir (lit "/app/transcriptions/"))
        (added (download_youtube_audio Sample.punctuation Sample.url) init).
Proof.
  assert (Hx : extract_info Sample.punctuation (log init) Sample.url
               = Ok (Some (mk_info (Some (lit "???")) (Some (lit "dQw4")))))
    by reflexivity.
  split; [exact Hx|].
  destruct (@get_video_title_edges Sample.punctuation Sample.url init _ Hx)
    as (_ & _ & H & _).
  destruct (H (lit "???") eq_refl) as [_ Hempty].
  apply Hempty.
  intros c [<- | [<- | [<- | []]]]; reflexivity.
Defined.
